(** * AuraParse dashboard (public/js/app.js): a shallow embedding

    The script is event-handler glue over mutable state that lives in the
    browser: the document (elements addressed by id), local storage, the
    identity provider's current user and one module-level variable
    ([currentSelectedFile]).  Each function of the script that sends a
    request or writes the key, the plans, the extraction runner or the
    rotation prompt is embedded as a computation in a state-and-exception
    monad over a [World] holding exactly that state, plus a chronological
    trace of what leaves the page (network requests, console output,
    focus changes, navigation).

    Conventions.
    - Strings are byte strings (UTF-8); substring tests on them agree with
      the script's tests on UTF-16 strings.
    - Numbers are exact rationals; the rounding of doubles is not
      modelled.  The only arithmetic of the script is
      [used / limit * 100] and [curr + 1].
    - A response body is read through the properties the script reads,
      each with the type the API gives it (strings, and numbers for the
      usage count and the limit).
    - A missing element is [null]: writing through it throws a TypeError,
      and what was written before stays written.
    - [await] is sequencing: a handler runs to completion against a
      server that answers each request as a function of the history.
    - Timers are not modelled: a toast, once appended, stays in the
      container (the script removes it 3.8 s later).
    - The theme switch, the sign-in by e-mail, the code tabs and
      [copyCode] call neither [fetch] nor any function embedded over the
      world except [showToast]; they are embedded after the others, the
      theme and the sign-in over a record [Browser] that adds to the
      world what only they touch.  [signInWithGoogle], [copyAPIKey] and
      [toggleTestKeyVisibility] are left out. *)

From Stdlib Require Import ZArith QArith Qminmax Qround String Ascii List Lia.
From stdpp Require Import base gmap strings pretty list fin_maps.

Open Scope string_scope.
Open Scope Z_scope.

(** ** JavaScript values as the script reads them *)

(** Truthiness of a property that is absent or holds a string / a number. *)
Definition truthy_str (o : option string) : bool :=
  match o with
  | Some s => negb (String.eqb s "")
  | None => false
  end.

Definition truthy_num (o : option Q) : bool :=
  match o with
  | Some q => negb (Qeq_bool q 0)
  | None => false
  end.

(** [a || b] on strings. *)
Definition or_str (o : option string) (dflt : string) : string :=
  match o with
  | Some s => if String.eqb s "" then dflt else s
  | None => dflt
  end.

(** [a || 0] on numbers. *)
Definition or_num (o : option Q) (dflt : Q) : Q :=
  match o with
  | Some q => if Qeq_bool q 0 then dflt else q
  | None => dflt
  end.

(** Reading [literal[k]] on an object literal: an own property, a member
    every object inherits from [Object.prototype], or [undefined]. *)
Inductive Lookup (A : Type) : Type :=
| Own (a : A)
| Inherited
| Undefined.
Arguments Own {A} a.
Arguments Inherited {A}.
Arguments Undefined {A}.

Definition objectPrototypeKeys : list string :=
  [ "constructor"; "hasOwnProperty"; "isPrototypeOf"; "propertyIsEnumerable";
    "toLocaleString"; "toString"; "valueOf"; "__proto__";
    "__defineGetter__"; "__defineSetter__"; "__lookupGetter__"; "__lookupSetter__" ].

Fixpoint assoc {A : Type} (k : string) (tbl : list (string * A)) : option A :=
  match tbl with
  | [] => None
  | (k', a) :: rest => if String.eqb k k' then Some a else assoc k rest
  end.

Definition inherited (k : string) : bool :=
  existsb (String.eqb k) objectPrototypeKeys.

Definition literal_get {A : Type} (tbl : list (string * A)) (k : string) : Lookup A :=
  match assoc k tbl with
  | Some a => Own a
  | None => if inherited k then Inherited else Undefined
  end.

(** A value that is a number or one of the inherited members (a function
    or the prototype object), and a number that may be NaN. *)
Inductive JSValue : Type :=
| VNum (q : Q)
| VMember (name : string).

Inductive JSNumber : Type :=
| Fin (q : Q)
| NaN.

(** [n > c] and [a < b]; every comparison with NaN or with a value that
    converts to NaN is false. *)
Definition num_gt (n : JSNumber) (c : Q) : bool :=
  match n with
  | Fin q => negb (Qle_bool q c)
  | NaN => false
  end.

Definition level_gt0 (l : Lookup Z) : bool :=
  match l with
  | Own z => 0 <? z
  | _ => false
  end.

Definition level_lt (a b : Lookup Z) : bool :=
  match a, b with
  | Own x, Own y => x <? y
  | _, _ => false
  end.

(** [Math.min(x, 100)]. *)
Definition Math_min (x : JSNumber) (c : Q) : JSNumber :=
  match x with
  | Fin q => Fin (Qmin q c)
  | NaN => NaN
  end.

(** [String.prototype.includes]. *)
Fixpoint includes (needle hay : string) : bool :=
  String.prefix needle hay ||
  match hay with
  | EmptyString => false
  | String _ rest => includes needle rest
  end.

(** [String.prototype.trim]: white space and line terminators of
    ECMAScript, in their UTF-8 encodings. *)
Definition whiteSpace : list (list nat) :=
  ([ [9]; [10]; [11]; [12]; [13]; [32];
    [194; 160];
    [225; 154; 128];
    [226; 128; 128]; [226; 128; 129]; [226; 128; 130]; [226; 128; 131];
    [226; 128; 132]; [226; 128; 133]; [226; 128; 134]; [226; 128; 135];
    [226; 128; 136]; [226; 128; 137]; [226; 128; 138];
    [226; 128; 168]; [226; 128; 169]; [226; 128; 175];
    [226; 129; 159];
    [227; 128; 128];
    [239; 187; 191] ])%nat.

Fixpoint starts_with (pat l : list nat) : bool :=
  match pat, l with
  | [], _ => true
  | p :: pat', x :: l' => Nat.eqb p x && starts_with pat' l'
  | _ :: _, [] => false
  end.

Fixpoint strip (fuel : nat) (pats : list (list nat)) (l : list nat) : list nat :=
  match fuel with
  | O => l
  | S fuel' =>
      match List.find (fun pat => starts_with pat l) pats with
      | Some pat => strip fuel' pats (skipn (List.length pat) l)
      | None => l
      end
  end.

Definition bytes_of (s : string) : list nat :=
  List.map nat_of_ascii (list_ascii_of_string s).

Definition string_of (l : list nat) : string :=
  string_of_list_ascii (List.map ascii_of_nat l).

Definition trim (s : string) : string :=
  let l := bytes_of s in
  let l1 := strip (List.length l) whiteSpace l in
  let r := List.rev l1 in
  string_of (List.rev (strip (List.length r) (List.map (@List.rev nat) whiteSpace) r)).

(** [s.replace(/,/g, '')]. *)
Fixpoint remove_commas (s : string) : string :=
  match s with
  | EmptyString => EmptyString
  | String c rest =>
      if Ascii.eqb c "," then remove_commas rest else String c (remove_commas rest)
  end.

(** [s.split(',')[1]]: the piece between the first and the second comma. *)
Fixpoint upto_comma (s : string) : string :=
  match s with
  | EmptyString => EmptyString
  | String c rest => if Ascii.eqb c "," then EmptyString else String c (upto_comma rest)
  end.

Fixpoint split_comma_1 (s : string) : option string :=
  match s with
  | EmptyString => None
  | String c rest => if Ascii.eqb c "," then Some (upto_comma rest) else split_comma_1 rest
  end.

(** ** The document *)

(** What an [onclick] attribute written by the script calls. *)
Inductive Handler : Type :=
| OpenPortal
| UpgradePlan (planName : string).

(** The right-hand column of a plan card: the price with the "Current"
    badge, or the price with one button. *)
Inductive CardAction : Type :=
| CurrentBadge (price : string)
| ActionButton (price : string) (onclick : Handler) (btnClass : string) (caption : string).

(** The markup templates the script assigns to [innerHTML], each with the
    values it interpolates. *)
Inductive Markup : Type :=
| NoMarkup
| ExtractDataLabel
| ProcessingLabel
| PlanCardMarkup (label limitText : string) (action : CardAction).

(** A toast node: the two classes chosen from [type], and the message. *)
Record Toast : Type := mkToast {
  toast_border : string;
  toast_text : string;
  toast_message : string
}.

(** The properties of an element that the script reads or writes.
    [textContent] and [innerHTML] are kept apart: the script writes no
    element through both. *)
Record Element : Type := mkElement {
  value : string;
  textContent : string;
  classList : gset string;
  style_width : string;
  style_padding : string;
  disabled : bool;
  innerHTML : Markup;
  src : string;
  children : list Toast
}.

Definition set_value (v : string) (e : Element) : Element :=
  mkElement v (textContent e) (classList e) (style_width e) (style_padding e)
            (disabled e) (innerHTML e) (src e) (children e).

Definition set_textContent (t : string) (e : Element) : Element :=
  mkElement (value e) t (classList e) (style_width e) (style_padding e)
            (disabled e) (innerHTML e) (src e) (children e).

Definition set_classList (c : gset string) (e : Element) : Element :=
  mkElement (value e) (textContent e) c (style_width e) (style_padding e)
            (disabled e) (innerHTML e) (src e) (children e).

Definition set_style_width (s : string) (e : Element) : Element :=
  mkElement (value e) (textContent e) (classList e) s (style_padding e)
            (disabled e) (innerHTML e) (src e) (children e).

Definition set_style_padding (s : string) (e : Element) : Element :=
  mkElement (value e) (textContent e) (classList e) (style_width e) s
            (disabled e) (innerHTML e) (src e) (children e).

Definition set_disabled (b : bool) (e : Element) : Element :=
  mkElement (value e) (textContent e) (classList e) (style_width e) (style_padding e)
            b (innerHTML e) (src e) (children e).

Definition set_innerHTML (m : Markup) (e : Element) : Element :=
  mkElement (value e) (textContent e) (classList e) (style_width e) (style_padding e)
            (disabled e) m (src e) (children e).

Definition set_src (s : string) (e : Element) : Element :=
  mkElement (value e) (textContent e) (classList e) (style_width e) (style_padding e)
            (disabled e) (innerHTML e) s (children e).

Definition appendChild (t : Toast) (e : Element) : Element :=
  mkElement (value e) (textContent e) (classList e) (style_width e) (style_padding e)
            (disabled e) (innerHTML e) (src e) (children e ++ [t]).

(** [classList.add(...)], [classList.remove(...)], [className = ...]. *)
Definition classList_add (cs : list string) (e : Element) : Element :=
  set_classList (classList e ∪ list_to_set cs) e.

Definition classList_remove (cs : list string) (e : Element) : Element :=
  set_classList (classList e ∖ list_to_set cs) e.

Definition set_className (cs : list string) (e : Element) : Element :=
  set_classList (list_to_set cs) e.

(** ** Requests, responses, the signed-in user, files *)

Inductive JSError : Type :=
| TypeError (message : string)
| SyntaxError (message : string)
| NetworkError (message : string)
| AuthError (message : string).

Definition message (e : JSError) : string :=
  match e with
  | TypeError m | SyntaxError m | NetworkError m | AuthError m => m
  end.

(** An object parsed from a response body, through the properties the
    script reads; [None] is a property that is absent. *)
Record Data : Type := mkData {
  masked_key : option string;
  plan : option string;
  requests_this_month : option Q;
  limit : option Q;
  key : option string;
  checkout_url : option string;
  url : option string;
  detail : option string
}.

(** A response body: not JSON ([response.json()] rejects), the JSON value
    [null] (any property read throws), or a value whose properties can be
    read. *)
Inductive Body : Type :=
| Malformed
| JsonNull
| JsonObject (d : Data).

Record Response : Type := mkResponse {
  status : Z;
  body : Body
}.

(** [response.ok]: the status is in the range 200-299. *)
Definition ok (r : Response) : bool :=
  (200 <=? status r) && (status r <=? 299).

(** The argument of [JSON.stringify] in a request. *)
Inductive Payload : Type :=
| SignupPayload (email plan : string)
| ExtractPayload (file_data : option string) (mime_type doc_type : string).

Record Request : Type := mkRequest {
  method : string;
  target : string;
  headers : list (string * string);
  payload : option Payload
}.

Inductive FetchOutcome : Type :=
| Rejects (e : JSError)
| Responds (r : Response).

Record User : Type := mkUser {
  email : string;
  getIdToken : JSError + string
}.

(** A chosen file; [dataURL] is what a [FileReader] hands to [onload],
    [None] when reading fails and [onload] never fires. *)
Record File : Type := mkFile {
  size : Z;
  type : string;
  dataURL : option string
}.

(** ** The world and the monad *)

Inductive Event : Type :=
| EvFetch (r : Request)
| EvConsoleError (e : JSError)
| EvFocus (id : string)
| EvNavigate (href : string)
| EvReload
| EvAuthSignOut
| EvUncaught (e : JSError).

Record World : Type := mkWorld {
  document : gmap string Element;
  localStorage : gmap string string;
  currentUser : option User;
  currentSelectedFile : option File;
  trace : list Event
}.

Definition set_document (d : gmap string Element) (w : World) : World :=
  mkWorld d (localStorage w) (currentUser w) (currentSelectedFile w) (trace w).

Definition set_localStorage (s : gmap string string) (w : World) : World :=
  mkWorld (document w) s (currentUser w) (currentSelectedFile w) (trace w).

Definition set_currentSelectedFile (f : option File) (w : World) : World :=
  mkWorld (document w) (localStorage w) (currentUser w) f (trace w).

Definition emit (ev : Event) (w : World) : World :=
  mkWorld (document w) (localStorage w) (currentUser w) (currentSelectedFile w)
          (trace w ++ [ev]).

Inductive Completion (A : Type) : Type :=
| Normal (a : A)
| Throw (e : JSError).
Arguments Normal {A} a.
Arguments Throw {A} e.

Definition M (A : Type) : Type := World -> Completion A * World.

Definition ret {A : Type} (a : A) : M A := fun w => (Normal a, w).

Definition throw {A : Type} (e : JSError) : M A := fun w => (Throw e, w).

Definition bind {A B : Type} (m : M A) (k : A -> M B) : M B :=
  fun w =>
    match m w with
    | (Normal a, w') => k a w'
    | (Throw e, w') => (Throw e, w')
    end.

(** [try { m } catch (e) { h e }] *)
Definition try_catch {A : Type} (m : M A) (h : JSError -> M A) : M A :=
  fun w =>
    match m w with
    | (Normal a, w') => (Normal a, w')
    | (Throw e, w') => h e w'
    end.

(** [try { m } finally { f }] *)
Definition try_finally {A : Type} (m : M A) (f : M unit) : M A :=
  fun w =>
    match m w with
    | (c, w') =>
        match f w' with
        | (Normal _, w'') => (c, w'')
        | (Throw e, w'') => (Throw e, w'')
        end
    end.

(** A callback run by the browser ([FileReader.onload]): what it throws
    does not reach the code that registered it. *)
Definition callback (m : M unit) : M unit :=
  fun w =>
    match m w with
    | (Normal _, w') => (Normal tt, w')
    | (Throw e, w') => (Normal tt, emit (EvUncaught e) w')
    end.

Definition modify_world (f : World -> World) : M unit := fun w => (Normal tt, f w).

Definition read_world {A : Type} (f : World -> A) : M A := fun w => (Normal (f w), w).

Declare Scope js_scope.
Delimit Scope js_scope with js.
Notation "'let!' x ':=' m 'in' k" := (bind m (fun x => k))
  (at level 10, x name, m at level 100, k at level 200) : js_scope.
Notation "m ';;' k" := (bind m (fun _ => k))
  (at level 100, k at level 200, right associativity) : js_scope.
Open Scope js_scope.

(** [document.getElementById(id)], which may be [null]. *)
Definition getElementById (id : string) : M (option Element) :=
  read_world (fun w => document w !! id).

(** A write through [document.getElementById(id)]: a TypeError when the
    element is missing. *)
Definition update (id : string) (f : Element -> Element) : M unit :=
  fun w =>
    match document w !! id with
    | Some e => (Normal tt, set_document (<[id := f e]> (document w)) w)
    | None => (Throw (TypeError "Cannot read properties of null"), w)
    end.

(** A read through [document.getElementById(id)]. *)
Definition get (id : string) : M Element :=
  fun w =>
    match document w !! id with
    | Some e => (Normal e, w)
    | None => (Throw (TypeError "Cannot read properties of null"), w)
    end.

Definition log (ev : Event) : M unit := modify_world (emit ev).

Fixpoint forEach {A : Type} (l : list A) (f : A -> M unit) : M unit :=
  match l with
  | [] => ret tt
  | x :: rest => f x ;; forEach rest f
  end.

(** The first property read on a parsed body, which throws on [null]. *)
Definition object (data : option Data) : M Data :=
  match data with
  | Some d => ret d
  | None => throw (TypeError "Cannot read properties of null")
  end.

(** [response.json()] *)
Definition json (r : Response) : M (option Data) :=
  match body r with
  | Malformed => throw (SyntaxError "Unexpected token in JSON")
  | JsonNull => ret None
  | JsonObject d => ret (Some d)
  end.

(** [await user.getIdToken()] *)
Definition user_getIdToken (u : User) : M string :=
  match getIdToken u with
  | inl e => throw e
  | inr t => ret t
  end.

(** A string property handed to a DOM string: [undefined] prints itself. *)
Definition to_DOMString (o : option string) : string :=
  match o with
  | Some s => s
  | None => "undefined"
  end.

(** What the browser provides and the script only calls: number
    formatting in the user's locale (also reached, through
    [Object.prototype], by a value that is not a number), [String(n)],
    [parseInt] and [JSON.stringify(data, null, 2)]. *)
Record Host : Type := mkHost {
  toLocaleString : JSValue -> string;
  numberToString : Q -> string;
  parseInt : string -> JSNumber;
  JSON_stringify : option Data -> string
}.

(** ** Constants of the script *)

Definition API_URL : string := "https://auraparse.web.app".

Definition PLAN_LEVELS : list (string * Z) :=
  [ ("free", 0); ("pro", 1); ("enterprise", 2) ].

Record PlanDetails : Type := mkPlanDetails {
  details_label : string;
  details_price : string;
  details_limit : string
}.

Definition PLAN_DETAILS : list (string * PlanDetails) :=
  [ ("free", mkPlanDetails "Free" "$0" "50 reqs/mo");
    ("pro", mkPlanDetails "Pro" "$29" "5,000 reqs/mo");
    ("enterprise", mkPlanDetails "Enterprise" "$299" "100k reqs/mo") ].

(** The literal [{ free: 50, pro: 5000, enterprise: 100000 }] of
    [updateDashboardUI]. *)
Definition defaultLimits : list (string * Q) :=
  [ ("free", 50%Q); ("pro", 5000%Q); ("enterprise", 100000%Q) ].

Definition bearer (idToken : string) : string * string :=
  ("Authorization", "Bearer " ++ idToken).

(** The requests the script sends. *)
Definition keyRequest (idToken : string) : Request :=
  mkRequest "GET" (API_URL ++ "/api/v1/key") [bearer idToken] None.

Definition signupRequest (idToken email : string) : Request :=
  mkRequest "POST" (API_URL ++ "/api/v1/signup")
    [("Content-Type", "application/json"); bearer idToken]
    (Some (SignupPayload email "free")).

Definition checkoutRequest (idToken plan : string) : Request :=
  mkRequest "POST" (API_URL ++ "/api/v1/create-checkout?plan=" ++ plan)
    [bearer idToken] None.

Definition portalRequest (idToken : string) : Request :=
  mkRequest "POST" (API_URL ++ "/api/v1/create-portal") [bearer idToken] None.

Definition extractRequest (base64 : option string) (mime docType key : string) : Request :=
  mkRequest "POST" (API_URL ++ "/api/v1/extract")
    [("Content-Type", "application/json"); ("X-API-Key", key)]
    (Some (ExtractPayload base64 mime docType)).

Definition regenerateRequest (idToken : string) : Request :=
  mkRequest "POST" (API_URL ++ "/api/v1/regenerate-key") [bearer idToken] None.

(** [data.limit || { free: 50, pro: 5000, enterprise: 100000 }[plan] || 50] *)
Definition resolveLimit (data : Data) (plan : string) : JSValue :=
  if truthy_num (limit data) then VNum (or_num (limit data) 0)
  else
    match literal_get defaultLimits plan with
    | Own q => VNum (or_num (Some q) 50)
    | Inherited => VMember plan
    | Undefined => VNum 50
    end.

(** [(used / limit) * 100].  The divisor is a resolved limit, which is
    never zero, so the value of [used / 0] does not matter here. *)
Definition ratio100 (used : Q) (lim : JSValue) : JSNumber :=
  match lim with
  | VNum l => Fin ((used / l) * 100)
  | VMember _ => NaN
  end.

(** [bar.style.width = `${percentage}%`]: the style engine keeps the old
    width unless the new value is a length, here a non-negative
    percentage. *)
Definition assign_width (host : Host) (percentage : JSNumber) (bar : Element) : Element :=
  match percentage with
  | Fin p => if Qle_bool 0 p then set_style_width (numberToString host p ++ "%") bar else bar
  | NaN => bar
  end.

Definition cardBaseClasses : list string :=
  [ "relative"; "flex"; "items-center"; "justify-between"; "p-5"; "rounded-2xl";
    "border"; "transition-all"; "duration-200"; "bg-white"; "dark:bg-slate-800";
    "border-slate-200"; "dark:border-slate-700"; "hover:border-indigo-300";
    "dark:hover:border-indigo-700" ].

Definition downgradeBtnClass : string :=
  "text-xs font-semibold py-1.5 px-3 rounded-lg border border-slate-300 dark:border-slate-600 text-slate-600 dark:text-slate-300 hover:bg-slate-50 dark:hover:bg-slate-700 transition-colors".

Definition upgradeBtnClass (planName : string) : string :=
  "text-xs font-bold py-1.5 px-4 rounded-lg shadow-sm transition-transform active:scale-95 " ++
  (if String.eqb planName "enterprise"
   then "bg-slate-900 hover:bg-black dark:bg-white dark:text-slate-900 dark:hover:bg-slate-200 text-white"
   else "bg-indigo-600 hover:bg-indigo-700 text-white").

(** ** The functions of the script *)

Section Script.

Variable host : Host.

(** The network: what a request gets, given everything that happened
    before it. *)
Variable server : list Event -> Request -> FetchOutcome.

Definition fetch (r : Request) : M Response :=
  fun w =>
    match server (trace w) r with
    | Rejects e => (Throw e, emit (EvFetch r) w)
    | Responds resp => (Normal resp, emit (EvFetch r) w)
    end.

Definition showToast (msg : string) (type : string) : M unit :=
  let border := if String.eqb type "success" then "border-green-500" else "border-red-500" in
  let text := if String.eqb type "success" then "text-green-800" else "text-red-800" in
  update "toast-container" (appendChild (mkToast border text msg)).

Definition signOut : M unit :=
  log EvAuthSignOut ;;
  modify_world (fun w => set_localStorage (delete "receiptApiKey" (localStorage w)) w) ;;
  log EvReload.

(** The arrow function that [updatePlanCards] passes to [forEach]. *)
Definition renderPlanCard (currentPlan : string) (currentLevel : Lookup Z)
    (planName : string) : M unit :=
  let id := "planCard-" ++ planName in
  let! card := getElementById id in
  match card with
  | None => ret tt
  | Some _ =>
      let! details :=
        match literal_get PLAN_DETAILS planName with
        | Own d => ret d
        | _ => throw (TypeError "Cannot read properties of undefined")
        end in
      let cardLevel := literal_get PLAN_LEVELS planName in
      update id (set_className cardBaseClasses) ;;
      let! action :=
        if String.eqb planName currentPlan then
          update id (classList_remove ["border-slate-200"; "dark:border-slate-700"]) ;;
          update id (classList_add ["ring-2"; "ring-indigo-500"; "dark:ring-indigo-400";
                                    "bg-indigo-50/50"; "dark:bg-indigo-900/20";
                                    "border-transparent"]) ;;
          ret (CurrentBadge (details_price details))
        else if level_lt cardLevel currentLevel then
          ret (ActionButton (details_price details) OpenPortal downgradeBtnClass "Downgrade")
        else
          ret (ActionButton (details_price details) (UpgradePlan planName)
                            (upgradeBtnClass planName) "Upgrade") in
      update id (set_innerHTML
                   (PlanCardMarkup (details_label details) (details_limit details) action))
  end.

Definition updatePlanCards (currentPlan : string) : M unit :=
  let currentPlan := or_str (Some currentPlan) "free" in
  let currentLevel := literal_get PLAN_LEVELS currentPlan in
  (if level_gt0 currentLevel
   then update "manageSubBtn" (classList_remove ["hidden"])
   else update "manageSubBtn" (classList_add ["hidden"])) ;;
  forEach ["free"; "pro"; "enterprise"] (renderPlanCard currentPlan currentLevel).

Definition updateDashboardUI (data : Data) : M unit :=
  update "apiKeyDisplay" (set_value (to_DOMString (masked_key data))) ;;
  update "apiKeyDisplay" (classList_remove ["text-green-600"; "font-bold"]) ;;
  update "apiKeyDisplay" (classList_add ["text-slate-600"; "dark:text-slate-300"]) ;;
  update "copyApiKeyBtn" (classList_add ["hidden"]) ;;
  update "keyWarningMsg" (classList_add ["hidden"]) ;;
  let plan := or_str (plan data) "free" in
  let used := or_num (requests_this_month data) 0 in
  let limit := resolveLimit data plan in
  update "requestCount" (set_textContent (toLocaleString host (VNum used))) ;;
  update "requestsLimit" (set_textContent (toLocaleString host limit)) ;;
  let percentage := Math_min (ratio100 used limit) 100 in
  update "usageBar" (assign_width host percentage) ;;
  (if num_gt percentage 90
   then update "usageBar" (classList_remove ["bg-indigo-600"]) ;;
        update "usageBar" (classList_add ["bg-red-500"])
   else update "usageBar" (classList_add ["bg-indigo-600"]) ;;
        update "usageBar" (classList_remove ["bg-red-500"])) ;;
  updatePlanCards plan.

Definition revealNewKey (data : Data) : M unit :=
  update "apiKeyDisplay" (set_value (to_DOMString (key data))) ;;
  update "apiKeyDisplay" (classList_remove ["text-slate-600"; "dark:text-slate-300"]) ;;
  update "apiKeyDisplay" (classList_add ["text-green-600"; "font-bold"]) ;;
  update "copyApiKeyBtn" (classList_remove ["hidden"]) ;;
  update "keyWarningMsg" (classList_remove ["hidden"]) ;;
  update "requestCount" (set_textContent "0") ;;
  update "usageBar" (set_style_width "0%") ;;
  modify_world (fun w =>
    set_localStorage (<["receiptApiKey" := to_DOMString (key data)]> (localStorage w)) w).

Definition createNewKey (idToken : string) (email : string) : M unit :=
  let! response := fetch (signupRequest idToken email) in
  let! data := json response in
  let! d := object data in
  if truthy_str (key d) then revealNewKey d else ret tt.

Definition getOrCreateAPIKey (user : User) : M unit :=
  try_catch
    (let! idToken := user_getIdToken user in
     let! response := fetch (keyRequest idToken) in
     let! data := json response in
     let otherwise :=
       if status response =? 404 then createNewKey idToken (email user) else ret tt in
     if ok response then
       let! d := object data in
       if truthy_str (masked_key d) then updateDashboardUI d else otherwise
     else otherwise)
    (fun e => log (EvConsoleError e)).

(** The listener registered with [auth.onAuthStateChanged]; the identity
    provider has made [user] the current user when it calls it. *)
Definition onAuthStateChanged (user : option User) : M unit :=
  modify_world (fun w =>
    mkWorld (document w) (localStorage w) user (currentSelectedFile w) (trace w)) ;;
  match user with
  | Some u =>
      update "userEmail" (set_textContent (email u)) ;;
      update "signInSection" (classList_add ["hidden"]) ;;
      update "navLoggedOut" (classList_add ["hidden"]) ;;
      update "navLoggedIn" (classList_remove ["hidden"]) ;;
      update "authenticatedSection" (classList_remove ["hidden"]) ;;
      getOrCreateAPIKey u
  | None =>
      update "signInSection" (classList_remove ["hidden"]) ;;
      update "navLoggedOut" (classList_remove ["hidden"]) ;;
      update "navLoggedIn" (classList_add ["hidden"]) ;;
      update "authenticatedSection" (classList_add ["hidden"])
  end.

Definition upgradePlan (plan : string) : M unit :=
  let! user := read_world currentUser in
  match user with
  | None => showToast "Please sign in first" "error"
  | Some user =>
      try_catch
        (let! idToken := user_getIdToken user in
         let! res := fetch (checkoutRequest idToken plan) in
         let! data := json res in
         let otherwise :=
           let! d := object data in
           showToast (or_str (detail d) "Checkout failed") "error" in
         if ok res then
           let! d := object data in
           if truthy_str (checkout_url d)
           then log (EvNavigate (to_DOMString (checkout_url d)))
           else otherwise
         else otherwise)
        (fun e => showToast (message e) "error")
  end.

Definition openPortal : M unit :=
  let! user := read_world currentUser in
  try_catch
    (let! idToken :=
       match user with
       | Some user => user_getIdToken user
       | None => throw (TypeError "Cannot read properties of null")
       end in
     let! res := fetch (portalRequest idToken) in
     let! data := json res in
     let! d := object data in
     if truthy_str (url d)
     then log (EvNavigate (to_DOMString (url d)))
     else showToast (or_str (detail d) "Error opening portal") "error")
    (fun e => showToast (message e) "error").

(** What a click on a button of a plan card runs. *)
Definition click (h : Handler) : M unit :=
  match h with
  | OpenPortal => openPortal
  | UpgradePlan planName => upgradePlan planName
  end.

Definition handleFileSelection (files : list File) : M unit :=
  match files with
  | [] => ret tt
  | file :: _ =>
      if size file >? 10 * 1024 * 1024 then showToast "File too large. Max 10MB." "error"
      else
        modify_world (set_currentSelectedFile (Some file)) ;;
        update "extractBtn" (set_disabled false) ;;
        update "extractBtn" (set_innerHTML ExtractDataLabel) ;;
        update "extractBtn" (classList_remove ["opacity-50"; "cursor-not-allowed"]) ;;
        match dataURL file with
        | None => ret tt
        | Some result =>
            callback
              (update "dropContent" (classList_add ["hidden"]) ;;
               update "previewImage"
                 (set_className ["absolute"; "inset-0"; "w-full"; "h-full";
                                 "object-contain"; "p-4"; "z-10"]) ;;
               (if String.eqb (type file) "application/pdf"
                then update "previewImage"
                       (set_src "https://cdn-icons-png.flaticon.com/512/4726/4726010.png") ;;
                     update "previewImage" (set_style_padding "40px")
                else update "previewImage" (set_src result) ;;
                     update "previewImage" (set_style_padding "10px")) ;;
               update "previewImage" (classList_remove ["hidden"]))
        end
  end.

Definition performApiCall (base64 : option string) (mime docType key : string) : M unit :=
  update "processingIndicator" (classList_remove ["hidden"]) ;;
  update "resultsArea" (classList_add ["opacity-30"]) ;;
  update "extractBtn" (set_disabled true) ;;
  update "extractBtn" (set_innerHTML ProcessingLabel) ;;
  try_finally
    (try_catch
       (let! res := fetch (extractRequest base64 mime docType key) in
        let! data := json res in
        (if ok res then
           showToast "Extraction Successful!" "success" ;;
           let! countEl := getElementById "requestCount" in
           match countEl with
           | Some el =>
               let curr :=
                 match parseInt host (remove_commas (textContent el)) with
                 | Fin q => or_num (Some q) 0
                 | NaN => 0%Q
                 end in
               update "requestCount"
                 (set_textContent (toLocaleString host (VNum (curr + 1))))
           | None => ret tt
           end
         else
           let! d := object data in
           showToast (or_str (detail d) "Extraction Failed") "error") ;;
        update "resultsArea" (set_textContent (JSON_stringify host data)))
       (fun e =>
          showToast "Network Error" "error" ;;
          update "resultsArea" (set_textContent ("Error: " ++ message e))))
    (update "processingIndicator" (classList_add ["hidden"]) ;;
     update "resultsArea" (classList_remove ["opacity-30"]) ;;
     update "extractBtn" (set_disabled false) ;;
     update "extractBtn" (set_innerHTML ExtractDataLabel)).

Definition triggerExtraction : M unit :=
  let! selected := read_world currentSelectedFile in
  match selected with
  | None => showToast "Select a file first." "error"
  | Some file =>
      let! keyInput := get "testApiKeyInput" in
      let key := trim (value keyInput) in
      let! docTypeInput := get "docTypeInput" in
      let docType := value docTypeInput in
      if String.eqb key "" || includes "••••" key then
        showToast "Please paste your REAL API Key." "error" ;;
        get "testApiKeyInput" ;;
        log (EvFocus "testApiKeyInput")
      else
        match dataURL file with
        | None => ret tt
        | Some result =>
            callback (performApiCall (split_comma_1 result) (type file) docType key)
        end
  end.

Definition rotateKey : M unit :=
  update "rotateModal" (classList_remove ["hidden"]).

Definition closeRotateModal : M unit :=
  update "rotateModal" (classList_add ["hidden"]).

Definition confirmRotate : M unit :=
  closeRotateModal ;;
  let! user := read_world currentUser in
  try_catch
    (let! idToken :=
       match user with
       | Some user => user_getIdToken user
       | None => throw (TypeError "Cannot read properties of null")
       end in
     let! res := fetch (regenerateRequest idToken) in
     let! data := json res in
     let! d := object data in
     if truthy_str (key d) then
       revealNewKey d ;;
       showToast "Key Rotated Successfully" "success"
     else ret tt)
    (fun e => showToast (message e) "error").

End Script.

(** ** What is on the page afterwards *)

(** The bar as [updateDashboardUI] leaves it. *)
Definition bar_after (host : Host) (percentage : JSNumber) (bar : Element) : Element :=
  if num_gt percentage 90
  then classList_add ["bg-red-500"]
         (classList_remove ["bg-indigo-600"] (assign_width host percentage bar))
  else classList_remove ["bg-red-500"]
         (classList_add ["bg-indigo-600"] (assign_width host percentage bar)).

(** The toast of [showToast(msg, "error")]. *)
Definition errorToast (msg : string) : Toast :=
  mkToast "border-red-500" "text-red-800" msg.

(** The dashboard shows the full key [k]: the key field holds it, the
    usage count reads 0, the usage bar is empty, and local storage keeps
    the copy. *)
Definition revealed (k : string) (w : World) : Prop :=
  value <$> document w !! "apiKeyDisplay" = Some k /\
  textContent <$> document w !! "requestCount" = Some "0" /\
  style_width <$> document w !! "usageBar" = Some "0%" /\
  localStorage w !! "receiptApiKey" = Some k.

(** ** What the browser calls *)

(** The entry points of the embedded functions: the listener the script
    registers with the identity provider, and the functions that the
    page's controls and the rendered plan cards name. *)
Inductive Action : Type :=
| AuthStateChanged (user : option User)
| SignOut
| Click (h : Handler)
| FileChosen (files : list File)
| TriggerExtraction
| RotateKey
| CloseRotateModal
| ConfirmRotate.

Definition run (host : Host) (server : list Event -> Request -> FetchOutcome)
    (a : Action) : M unit :=
  match a with
  | AuthStateChanged user => onAuthStateChanged host server user
  | SignOut => signOut
  | Click h => click server h
  | FileChosen files => handleFileSelection files
  | TriggerExtraction => triggerExtraction host server
  | RotateKey => rotateKey
  | CloseRotateModal => closeRotateModal
  | ConfirmRotate => confirmRotate server
  end.

(** The confirmation prompt is on screen. *)
Definition prompt_open (w : World) : bool :=
  match document w !! "rotateModal" with
  | Some modal => bool_decide ("hidden" ∉ classList modal)
  | None => false
  end.

(** Modelled from the spec: the page markup is not part of the sources, so
    which control calls which function is taken from section 4.2, "two-step:
    open confirmation prompt, then confirm".  The confirm control belongs to
    the prompt: [ConfirmRotate] can be triggered only while the prompt is
    on screen.  Every other entry point can be triggered at any time. *)
Definition enabled (a : Action) (w : World) : bool :=
  match a with
  | ConfirmRotate => prompt_open w
  | _ => true
  end.

(** A session: the browser calls enabled entry points one after another. *)
Fixpoint session (host : Host) (server : list Event -> Request -> FetchOutcome)
    (acts : list Action) (w : World) : option World :=
  match acts with
  | [] => Some w
  | a :: rest =>
      if enabled a w then session host server rest (snd (run host server a w)) else None
  end.

Definition is_RotateKey (a : Action) : bool :=
  match a with RotateKey => true | _ => false end.

Definition is_ConfirmRotate (a : Action) : bool :=
  match a with ConfirmRotate => true | _ => false end.

(** The requests of a trace that go to the regenerate-key endpoint. *)
Definition is_rotation (ev : Event) : bool :=
  match ev with
  | EvFetch r => String.eqb (target r) (target (regenerateRequest ""))
  | _ => false
  end.

Definition is_fetch (ev : Event) : bool :=
  match ev with
  | EvFetch _ => true
  | _ => false
  end.

Definition is_console_error (ev : Event) : bool :=
  match ev with
  | EvConsoleError _ => true
  | _ => false
  end.

Definition count {A : Type} (f : A -> bool) (l : list A) : nat :=
  List.length (List.filter f l).

(** ** Pages *)

(** The ids of [ids] all name an element of the document. *)
Definition page_has (ids : list string) (w : World) : bool :=
  forallb (fun id => bool_decide (is_Some (document w !! id))) ids.

Definition revealIds : list string :=
  [ "apiKeyDisplay"; "copyApiKeyBtn"; "keyWarningMsg"; "requestCount"; "usageBar" ].

Definition dashboardIds : list string :=
  [ "apiKeyDisplay"; "copyApiKeyBtn"; "keyWarningMsg"; "requestCount";
    "requestsLimit"; "usageBar"; "manageSubBtn" ].

Definition planCardIds : list string :=
  [ "planCard-free"; "planCard-pro"; "planCard-enterprise" ].

Definition blank : Element :=
  mkElement "" "" ∅ "" "" false NoMarkup "" [].

Definition hidden_blank : Element :=
  mkElement "" "" {[ "hidden" ]} "" "" false NoMarkup "" [].

(** A page with every element the script looks up, the prompt hidden. *)
Definition samplePage : gmap string Element :=
  <["rotateModal" := hidden_blank]>
    (list_to_map
       (List.map (fun id => (id, blank))
          (dashboardIds ++ planCardIds ++
           [ "toast-container"; "userEmail"; "signInSection"; "navLoggedOut";
             "navLoggedIn"; "authenticatedSection"; "extractBtn"; "dropContent";
             "previewImage"; "testApiKeyInput"; "docTypeInput";
             "processingIndicator"; "resultsArea" ]))).

Definition sampleUser : User := mkUser "ada@example.org" (inr "token-1").

Definition sampleWorld : World := mkWorld samplePage ∅ (Some sampleUser) None [].

(** The number a string of decimal digits starts with, if any. *)
Fixpoint leading_digits (s : string) (acc : option Z) : option Z :=
  match s with
  | EmptyString => acc
  | String c rest =>
      let n := Z.of_nat (nat_of_ascii c) in
      if (48 <=? n) && (n <=? 57)
      then leading_digits rest (Some (10 * default 0 acc + (n - 48)))
      else acc
  end.

(** A host for the samples: it prints a number in decimal without
    grouping (exact on the integers, which is all the samples give it),
    and parses unsigned decimal integers. *)
Definition sampleHost : Host :=
  mkHost
    (fun v => match v with
              | VNum q => pretty (Qfloor q)
              | VMember name => "function " ++ name ++ "() { [native code] }"
              end)
    (fun q => pretty (Qfloor q))
    (fun s => match leading_digits s None with
              | Some z => Fin (inject_Z z)
              | None => NaN
              end)
    (fun data => match data with
                 | None => "null"
                 | Some _ => "{}"
                 end).

Definition respond (r : Response) : list Event -> Request -> FetchOutcome :=
  fun _ _ => Responds r.

(** ** Footprints *)

(** What a computation may change: which elements, which events it may
    add to the trace, and whether it may write local storage, the selected
    file and the current user. *)
Record Footprint : Type := mkFootprint {
  fp_ids : string -> bool;
  fp_events : Event -> bool;
  fp_storage : bool;
  fp_file : bool;
  fp_user : bool
}.

Definition within (F : Footprint) (w w' : World) : Prop :=
  (forall id, fp_ids F id = false -> document w' !! id = document w !! id) /\
  (exists new, trace w' = (trace w ++ new)%list /\ forallb (fp_events F) new = true) /\
  (fp_storage F = false -> localStorage w' = localStorage w) /\
  (fp_file F = false -> currentSelectedFile w' = currentSelectedFile w) /\
  (fp_user F = false -> currentUser w' = currentUser w).

Definition confined (F : Footprint) {A : Type} (m : M A) : Prop :=
  forall w, within F w (snd (m w)).

(** Only the elements of [ids]; nothing else. *)
Definition elements_only (ids : list string) : Footprint :=
  mkFootprint (fun id => existsb (String.eqb id) ids) (fun _ => false) false false false.

(** Anything but the confirmation prompt and a request to the
    regenerate-key endpoint. *)
Definition no_rotation : Footprint :=
  mkFootprint (fun id => negb (String.eqb id "rotateModal"))
              (fun ev => negb (is_rotation ev)) true true true.

(** Anything but a network request and the selected file. *)
Definition no_fetch_no_file : Footprint :=
  mkFootprint (fun _ => true) (fun ev => negb (is_fetch ev)) true false true.

(** What [revealNewKey] writes. *)
Definition reveal_footprint : Footprint :=
  mkFootprint (fun id => existsb (String.eqb id) revealIds) (fun _ => false) true false false.

(** Anything but a network request. *)
Definition no_fetch : Footprint :=
  mkFootprint (fun _ => true) (fun ev => negb (is_fetch ev)) true true true.

(** Anything at all. *)
Definition anything : Footprint :=
  mkFootprint (fun _ => true) (fun _ => true) true true true.

(** Anything but the selected file. *)
Definition not_the_file : Footprint :=
  mkFootprint (fun _ => true) (fun _ => true) true false true.

(** ** Reading a rendered plan card *)

Definition cardAction (w : World) (planName : string) : option CardAction :=
  match document w !! ("planCard-" ++ planName) with
  | Some card =>
      match innerHTML card with
      | PlanCardMarkup _ _ action => Some action
      | _ => None
      end
  | None => None
  end.

Definition is_current (a : option CardAction) : bool :=
  match a with
  | Some (CurrentBadge _) => true
  | _ => false
  end.

(** A button labelled "Downgrade" that calls [openPortal()]. *)
Definition is_downgrade (a : option CardAction) : bool :=
  match a with
  | Some (ActionButton _ OpenPortal _ caption) => String.eqb caption "Downgrade"
  | _ => false
  end.

(** A button labelled "Upgrade" that calls [upgradePlan(planName)]. *)
Definition is_upgrade (planName : string) (a : option CardAction) : bool :=
  match a with
  | Some (ActionButton _ (UpgradePlan target) _ caption) =>
      String.eqb caption "Upgrade" && String.eqb target planName
  | _ => false
  end.

(** The order of the tiers, as [PLAN_LEVELS] has it. *)
Definition level (planName : string) : Z :=
  match assoc planName PLAN_LEVELS with
  | Some l => l
  | None => -1
  end.

(** ** Sample inputs *)

(** A key record as the server reports it: masked key, plan, usage and a
    limit of its own. *)
Definition reportedKey : Data :=
  mkData (Some "rk_••••••••3f9a") (Some "pro") (Some 45%Q) (Some 200%Q)
         None None None None.

(** The same record with a limit of zero. *)
Definition zeroLimitKey : Data :=
  mkData (Some "rk_••••••••3f9a") None None (Some 0%Q) None None None None.

Definition newKey : Data :=
  mkData None None None None (Some "rk_live_5d41402abc4b2a76") None None None.

Definition newKeyResponse : Response := mkResponse 200 (JsonObject newKey).

Definition serverError : Response :=
  mkResponse 500
    (JsonObject (mkData None None None None None None None
                        (Some "Internal Server Error"))).

(** A server that has no key for the user yet and creates one on signup. *)
Definition firstVisitServer : list Event -> Request -> FetchOutcome :=
  fun _ r =>
    if String.eqb (method r) "GET"
    then Responds (mkResponse 404
                     (JsonObject (mkData None None None None None None None
                                         (Some "API key not found"))))
    else Responds newKeyResponse.

Definition sampleFile : File :=
  mkFile 2048 "image/png" (Some "data:image/png;base64,iVBORw0KGgo=").

(** A visitor has chosen a file and pasted a key; the document-type field
    holds the empty string. *)
Definition typelessWorld : World :=
  mkWorld
    (<["testApiKeyInput" := set_value "rk_live_5d41402abc4b2a76" blank]>
       (<["docTypeInput" := set_value "" blank]> samplePage))
    ∅ None (Some sampleFile) [].


(** ** Invariants *)

(** [m] keeps the property [P] of the world. *)
Definition preserves (P : World -> Prop) {A : Type} (m : M A) : Prop :=
  forall w, P w -> P (snd (m w)).

(** The element [id] exists. *)
Definition has_element (id : string) (w : World) : Prop :=
  is_Some (document w !! id).


(** Writes to elements and to the trace only: local storage, the selected
    file and the current user stay as they are. *)
Definition page_and_trace : Footprint :=
  mkFootprint (fun _ => true) (fun _ => true) false false false.

(** [curr] of [performApiCall]: [parseInt(text.replace(/,/g, '')) || 0]. *)
Definition currentCount (host : Host) (text : string) : Q :=
  match parseInt host (remove_commas text) with
  | Fin q => or_num (Some q) 0
  | NaN => 0%Q
  end.

(** The toast of [showToast(msg, "success")]. *)
Definition successToast (msg : string) : Toast :=
  mkToast "border-green-500" "text-green-800" msg.

(** A body with none of the properties the script reads, as the
    extraction endpoint returns on success. *)
Definition noData : Data := mkData None None None None None None None None.

Definition extracted : Response := mkResponse 200 (JsonObject noData).

(** The network is down: every request is rejected. *)
Definition offline : list Event -> Request -> FetchOutcome :=
  fun _ _ => Rejects (NetworkError "Failed to fetch").

Definition checkoutSession : Response :=
  mkResponse 200
    (JsonObject (mkData None None None None None
                        (Some "https://checkout.stripe.com/c/pay/cs_test_a1") None None)).

Definition portalSession : Response :=
  mkResponse 200
    (JsonObject (mkData None None None None None None
                        (Some "https://billing.stripe.com/p/session/test_b2") None)).

(** ** Where requests go *)





(** What fetching or creating the key may change: the dashboard and the
    plan cards, the stored key, the trace. *)
Definition dashboard_footprint : Footprint :=
  mkFootprint (fun id => existsb (String.eqb id) (dashboardIds ++ planCardIds))
              (fun _ => true) true false false.

Definition shown (id : string) (w : World) : Prop :=
  exists e, document w !! id = Some e /\ "hidden" ∉ classList e.

Definition hidden (id : string) (w : World) : Prop :=
  exists e, document w !! id = Some e /\ "hidden" ∈ classList e.

Definition pdfIcon : string := "https://cdn-icons-png.flaticon.com/512/4726/4726010.png".

Definition previewClasses : list string :=
  [ "absolute"; "inset-0"; "w-full"; "h-full"; "object-contain"; "p-4"; "z-10" ].

(** The preview image as [reader.onload] leaves it. *)
Definition preview_of (file : File) (result : string) (img : Element) : Element :=
  let pdf := String.eqb (type file) "application/pdf" in
  classList_remove ["hidden"]
    (set_style_padding (if pdf then "40px" else "10px")
       (set_src (if pdf then pdfIcon else result)
          (set_className previewClasses img))).

(** The extract button, ready. *)
Definition ready (btn : Element) : Element :=
  classList_remove ["opacity-50"; "cursor-not-allowed"]
    (set_innerHTML ExtractDataLabel (set_disabled false btn)).

Definition no_comma (s : string) : Prop := includes "," s = false.

(** ** The code tabs *)

Definition codeLangs : list string := [ "curl"; "python"; "node"; "mcp" ].

(** The class name [switchCodeTab] gives the tab of [l] when [lang] is
    chosen. *)
Definition tabClasses (l lang : string) : list string :=
  if String.eqb l lang then
    if String.eqb l "mcp"
    then [ "text-xs"; "font-bold"; "px-3"; "py-1"; "rounded-md"; "bg-purple-100";
           "text-purple-700"; "dark:bg-purple-900"; "dark:text-purple-300"; "flex";
           "items-center"; "gap-1" ]
    else [ "text-xs"; "font-medium"; "px-3"; "py-1"; "rounded-md"; "bg-indigo-100";
           "text-indigo-700"; "dark:bg-indigo-900"; "dark:text-indigo-300" ]
  else
    if String.eqb l "mcp"
    then [ "text-xs"; "font-medium"; "px-3"; "py-1"; "rounded-md"; "text-purple-600";
           "hover:bg-purple-50"; "dark:text-purple-400"; "dark:hover:bg-purple-900/30";
           "flex"; "items-center"; "gap-1"; "transition-colors" ]
    else [ "text-xs"; "font-medium"; "px-3"; "py-1"; "rounded-md"; "text-slate-500";
           "hover:text-slate-900"; "dark:text-slate-400"; "dark:hover:text-white" ].

Definition switchCodeTab (lang : string) : M unit :=
  forEach codeLangs (fun l => update ("code-" ++ l) (classList_add ["hidden"])) ;;
  update ("code-" ++ lang) (classList_remove ["hidden"]) ;;
  forEach codeLangs (fun l => update ("tab-" ++ l) (set_className (tabClasses l lang))).

(** [codeLangs.find(l => !document.getElementById(`code-${l}`)
    .classList.contains('hidden'))] *)
Fixpoint find_visible (langs : list string) : M (option string) :=
  match langs with
  | [] => ret None
  | l :: rest =>
      let! panel := get ("code-" ++ l) in
      if bool_decide ("hidden" ∈ classList panel) then find_visible rest else ret (Some l)
  end.

(** The tab is drawn as the chosen one. *)
Definition highlighted (tab : Element) : Prop :=
  "bg-indigo-100" ∈ classList tab \/ "bg-purple-100" ∈ classList tab.

Definition codePage : list string :=
  List.map (String.append "code-") codeLangs ++ List.map (String.append "tab-") codeLangs.

(** ** Theme, e-mail sign-in and the clipboard *)

(** These functions touch what no other function of the script does: the
    class list of the root element, the markup of the theme icon, the
    identity provider's sign-in calls, the prompt, the history and the
    clipboard.  [Browser] adds that state to the world; [Env] is what the
    script reads from the browser and what the identity provider
    answers.  The clipboard is taken to be available. *)
Inductive Icon : Type :=
| SUN_ICON
| MOON_ICON.

Inductive Effect : Type :=
| SendSignInLinkToEmail (email url : string)
| SignInWithEmailLink (email : option string) (url : string)
| Prompt (text : string)
| ReplaceState (url : string)
| ClipboardWriteText (text : string).

Record Browser : Type := mkBrowser {
  world : World;
  rootClassList : gset string;
  icons : gmap string Icon;
  effects : list Effect
}.

Record Env : Type := mkEnv {
  prefersDark : bool;
  href : string;
  innerText : string -> string;
  isSignInWithEmailLink : string -> bool;
  sendSignInLinkToEmail : string -> string -> option JSError;
  signInWithEmailLink : option string -> string -> option JSError;
  prompt : string -> option string
}.

Definition B (A : Type) : Type := Browser -> Completion A * Browser.

Definition retB {A : Type} (a : A) : B A := fun b => (Normal a, b).

Definition throwB {A : Type} (e : JSError) : B A := fun b => (Throw e, b).

Definition bindB {A C : Type} (m : B A) (k : A -> B C) : B C :=
  fun b =>
    match m b with
    | (Normal a, b') => k a b'
    | (Throw e, b') => (Throw e, b')
    end.

Definition try_catchB {A : Type} (m : B A) (h : JSError -> B A) : B A :=
  fun b =>
    match m b with
    | (Normal a, b') => (Normal a, b')
    | (Throw e, b') => h e b'
    end.

(** A function of the script that only needs the world. *)
Definition lift {A : Type} (m : M A) : B A :=
  fun b =>
    match m (world b) with
    | (c, w') => (c, mkBrowser w' (rootClassList b) (icons b) (effects b))
    end.

Definition readB {A : Type} (f : Browser -> A) : B A := fun b => (Normal (f b), b).

Definition set_rootClassList (c : gset string) : B unit :=
  fun b => (Normal tt, mkBrowser (world b) c (icons b) (effects b)).

Definition perform (eff : Effect) : B unit :=
  fun b => (Normal tt, mkBrowser (world b) (rootClassList b) (icons b) (effects b ++ [eff])).

(** [await p], for a promise of the identity provider that resolves to
    nothing or rejects. *)
Definition await (outcome : option JSError) : B unit :=
  match outcome with
  | None => retB tt
  | Some e => throwB e
  end.

(** [document.getElementById(id).innerHTML = icon] *)
Definition set_icon (id : string) (icon : Icon) : B unit :=
  fun b =>
    match document (world b) !! id with
    | Some _ =>
        (Normal tt, mkBrowser (world b) (rootClassList b) (<[id := icon]> (icons b)) (effects b))
    | None => (Throw (TypeError "Cannot set properties of null"), b)
    end.

Declare Scope browser_scope.
Delimit Scope browser_scope with browser.
Notation "'let!' x ':=' m 'in' k" := (bindB m (fun x => k))
  (at level 10, x name, m at level 100, k at level 200) : browser_scope.
Notation "m ';;' k" := (bindB m (fun _ => k))
  (at level 100, k at level 200, right associativity) : browser_scope.

Section Browser.

Variable env : Env.

Local Open Scope browser_scope.

Definition initTheme : B unit :=
  let! theme := readB (fun b => localStorage (world b) !! "theme") in
  let! classes := readB rootClassList in
  if bool_decide (theme = Some "dark") || (bool_decide (theme = None) && prefersDark env)
  then set_rootClassList (classes ∪ {[ "dark" ]}) ;; set_icon "themeIcon" SUN_ICON
  else set_rootClassList (classes ∖ {[ "dark" ]}) ;; set_icon "themeIcon" MOON_ICON.

Definition toggleTheme : B unit :=
  let! classes := readB rootClassList in
  if bool_decide ("dark" ∈ classes)
  then
    set_rootClassList (classes ∖ {[ "dark" ]}) ;;
    lift (modify_world (fun w => set_localStorage (<["theme" := "light"]> (localStorage w)) w)) ;;
    set_icon "themeIcon" MOON_ICON
  else
    set_rootClassList (classes ∪ {[ "dark" ]}) ;;
    lift (modify_world (fun w => set_localStorage (<["theme" := "dark"]> (localStorage w)) w)) ;;
    set_icon "themeIcon" SUN_ICON.

Definition signInWithEmail : B unit :=
  let! input := lift (get "emailInput") in
  let email := value input in
  if String.eqb email "" then lift (showToast "Please enter email" "error")
  else
    try_catchB
      (perform (SendSignInLinkToEmail email (href env)) ;;
       await (sendSignInLinkToEmail env email (href env)) ;;
       lift (update "emailSentMsg" (classList_remove ["hidden"])) ;;
       lift (showToast "Magic Link Sent!" "success"))
      (fun e => lift (showToast (message e) "error")).

(** The statement under "Handle Magic Link Return", which runs when the
    script is loaded. *)
Definition handleMagicLinkReturn : B unit :=
  if isSignInWithEmailLink env (href env) then
    let! remembered := readB (fun b => localStorage (world b) !! "emailForSignIn") in
    let! email :=
      if truthy_str remembered then retB remembered
      else perform (Prompt "Please confirm your email for login:") ;;
           retB (prompt env "Please confirm your email for login:") in
    perform (SignInWithEmailLink email (href env)) ;;
    try_catchB
      (await (signInWithEmailLink env email (href env)) ;;
       lift (modify_world (fun w =>
               set_localStorage (delete "emailForSignIn" (localStorage w)) w)) ;;
       perform (ReplaceState "/"))
      (fun e => lift (showToast (message e) "error"))
  else retB tt.

Definition copyCode : B unit :=
  let! active := lift (find_visible codeLangs) in
  let id := "code-" ++ to_DOMString active in
  lift (get id) ;;
  perform (ClipboardWriteText (innerText env id)) ;;
  lift (showToast "Snippet Copied" "success").

End Browser.

(** The page is in dark mode. *)
Definition dark (b : Browser) : Prop := "dark" ∈ rootClassList b.

(** What [initTheme] decides from. *)
Definition wants_dark (env : Env) (b : Browser) : bool :=
  match localStorage (world b) !! "theme" with
  | Some theme => String.eqb theme "dark"
  | None => prefersDark env
  end.

Definition icon_for (isDark : bool) : Icon := if isDark then SUN_ICON else MOON_ICON.


(** A server that has no key for the user and refuses the signup. *)
Definition closedSignups : list Event -> Request -> FetchOutcome :=
  fun _ r =>
    if String.eqb (method r) "GET"
    then Responds (mkResponse 404 JsonNull)
    else Responds serverError.

(** The sample page with the sign-in form filled in, the theme icon, and
    the code panels and tabs, every panel hidden. *)
Definition samplePageWithTabs : gmap string Element :=
  <["emailInput" := set_value "ada@example.org" blank]>
    (<["emailSentMsg" := hidden_blank]>
       (<["themeIcon" := blank]>
          (list_to_map (List.map (fun id => (id, hidden_blank)) codePage) ∪ samplePage))).

Definition sampleEnv : Env :=
  mkEnv true "https://auraparse.web.app/"
        (fun id => "# snippet in " ++ id)
        (fun _ => false) (fun _ _ => None) (fun _ _ => None) (fun _ => None).

Definition sampleBrowser : Browser :=
  mkBrowser (set_document samplePageWithTabs sampleWorld) ∅ ∅ [].

(** * Proofs *)

(** ** Running one statement *)

Lemma update_Some (id : string) (f : Element -> Element) (w : World) (e : Element) :
  document w !! id = Some e ->
  update id f w = (Normal tt, set_document (<[id := f e]> (document w)) w).
Proof. intros H. unfold update. by rewrite H. Qed.

Lemma classList_add_elem (c : string) (cs : list string) (e : Element) :
  c ∈ classList (classList_add cs e) <-> c ∈ classList e \/ In c cs.
Proof.
  unfold classList_add. simpl.
  by rewrite elem_of_union, elem_of_list_to_set, list_elem_of_In.
Qed.

Lemma classList_remove_elem (c : string) (cs : list string) (e : Element) :
  c ∈ classList (classList_remove cs e) <-> c ∈ classList e /\ ~ In c cs.
Proof.
  unfold classList_remove. simpl.
  by rewrite elem_of_difference, elem_of_list_to_set, list_elem_of_In.
Qed.

Lemma page_has_cons (id : string) (ids : list string) (w : World) :
  page_has (id :: ids) w = true <->
  (exists e, document w !! id = Some e) /\ page_has ids w = true.
Proof.
  unfold page_has. simpl. rewrite andb_true_iff, bool_decide_eq_true.
  unfold is_Some. tauto.
Qed.

(** Splits a [page_has] hypothesis over a literal list into one lookup
    equation per id. *)
Ltac page_elements H :=
  repeat (apply page_has_cons in H;
          let e := fresh "e" in
          let He := fresh "He" in
          destruct H as [[e He] H]);
  clear H.

(** C10: [signOut] leaves no 'receiptApiKey' entry in local storage, and
    touches no other entry; it then reloads the page. *)
Theorem signOut_removes_key (w : World) :
  exists w',
    signOut w = (Normal tt, w') /\
    localStorage w' !! "receiptApiKey" = None /\
    (forall k, k <> "receiptApiKey" -> localStorage w' !! k = localStorage w !! k) /\
    trace w' = (trace w ++ [EvAuthSignOut; EvReload])%list.
Proof.
  eexists. split; [reflexivity|]. simpl. repeat split.
  - apply lookup_delete_eq.
  - intros k Hk. by rewrite lookup_delete_ne.
  - by rewrite <- app_assoc.
Qed.

(** ** Footprints compose *)

Section Confinement.

Context (F : Footprint).

Lemma within_refl (w : World) : within F w w.
Proof.
  repeat split; auto. exists []. split; [by rewrite app_nil_r | reflexivity].
Qed.

Lemma within_trans (w1 w2 w3 : World) :
  within F w1 w2 -> within F w2 w3 -> within F w1 w3.
Proof.
  intros (Hd1 & (n1 & Ht1 & Hn1) & Hs1 & Hf1 & Hu1)
         (Hd2 & (n2 & Ht2 & Hn2) & Hs2 & Hf2 & Hu2).
  repeat split.
  - intros id Hid. rewrite Hd2, Hd1; auto.
  - exists (n1 ++ n2)%list. split.
    + by rewrite Ht2, Ht1, app_assoc.
    + rewrite forallb_app, Hn1, Hn2. reflexivity.
  - intros H. rewrite Hs2, Hs1; auto.
  - intros H. rewrite Hf2, Hf1; auto.
  - intros H. rewrite Hu2, Hu1; auto.
Qed.

Lemma within_emit (ev : Event) (w : World) :
  fp_events F ev = true -> within F w (emit ev w).
Proof.
  intros H. repeat split; auto. exists [ev]. split; [reflexivity|].
  simpl. by rewrite H.
Qed.

Lemma within_set_document (id : string) (e : Element) (w : World) :
  fp_ids F id = true -> within F w (set_document (<[id := e]> (document w)) w).
Proof.
  intros H. repeat split; auto.
  - intros id' Hid'. simpl. rewrite lookup_insert_ne; [done | congruence].
  - exists []. split; [by rewrite app_nil_r | reflexivity].
Qed.

Lemma confined_ret {A : Type} (a : A) : confined F (ret a).
Proof. intros w. apply within_refl. Qed.

Lemma confined_throw {A : Type} (e : JSError) : confined F (@throw A e).
Proof. intros w. apply within_refl. Qed.

Lemma confined_bind {A B : Type} (m : M A) (k : A -> M B) :
  confined F m -> (forall a, confined F (k a)) -> confined F (bind m k).
Proof.
  intros Hm Hk w. unfold bind. specialize (Hm w).
  destruct (m w) as [[a|e] w1]; simpl in *; [|exact Hm].
  eapply within_trans; [exact Hm | apply Hk].
Qed.

Lemma confined_try_catch {A : Type} (m : M A) (h : JSError -> M A) :
  confined F m -> (forall e, confined F (h e)) -> confined F (try_catch m h).
Proof.
  intros Hm Hh w. unfold try_catch. specialize (Hm w).
  destruct (m w) as [[a|e] w1]; simpl in *; [exact Hm|].
  eapply within_trans; [exact Hm | apply Hh].
Qed.

Lemma confined_try_finally {A : Type} (m : M A) (f : M unit) :
  confined F m -> confined F f -> confined F (try_finally m f).
Proof.
  intros Hm Hf w. unfold try_finally. specialize (Hm w).
  destruct (m w) as [c w1]; simpl in *. specialize (Hf w1).
  destruct (f w1) as [[u|e] w2]; simpl in *; eapply within_trans; eauto.
Qed.

Lemma confined_callback (m : M unit) :
  (forall e, fp_events F (EvUncaught e) = true) ->
  confined F m -> confined F (callback m).
Proof.
  intros Hev Hm w. unfold callback. specialize (Hm w).
  destruct (m w) as [[u|e] w1]; simpl in *; [exact Hm|].
  eapply within_trans; [exact Hm | apply within_emit, Hev].
Qed.

Lemma confined_update (id : string) (f : Element -> Element) :
  fp_ids F id = true -> confined F (update id f).
Proof.
  intros H w. unfold update. destruct (document w !! id) as [e|]; simpl.
  - by apply within_set_document.
  - apply within_refl.
Qed.

Lemma confined_get (id : string) : confined F (get id).
Proof.
  intros w. unfold get. destruct (document w !! id); apply within_refl.
Qed.

Lemma confined_getElementById (id : string) : confined F (getElementById id).
Proof. intros w. apply within_refl. Qed.

Lemma confined_read_world {A : Type} (f : World -> A) : confined F (read_world f).
Proof. intros w. apply within_refl. Qed.

Lemma confined_log (ev : Event) : fp_events F ev = true -> confined F (log ev).
Proof. intros H w. by apply within_emit. Qed.

Lemma confined_fetch (server : list Event -> Request -> FetchOutcome) (r : Request) :
  fp_events F (EvFetch r) = true -> confined F (fetch server r).
Proof.
  intros H w. unfold fetch. destruct (server (trace w) r); by apply within_emit.
Qed.

Lemma confined_json (r : Response) : confined F (json r).
Proof. intros w. unfold json. destruct (body r); apply within_refl. Qed.

Lemma confined_object (data : option Data) : confined F (object data).
Proof. intros w. destruct data; apply within_refl. Qed.

Lemma confined_user_getIdToken (u : User) : confined F (user_getIdToken u).
Proof. intros w. unfold user_getIdToken. destruct (getIdToken u); apply within_refl. Qed.

Lemma confined_set_localStorage (f : World -> gmap string string) :
  fp_storage F = true ->
  confined F (modify_world (fun w => set_localStorage (f w) w)).
Proof.
  intros H w. repeat split; auto.
  - exists []. split; [by rewrite app_nil_r | reflexivity].
  - rewrite H. discriminate.
Qed.

Lemma confined_set_currentSelectedFile (f : option File) :
  fp_file F = true -> confined F (modify_world (set_currentSelectedFile f)).
Proof.
  intros H w. repeat split; auto.
  - exists []. split; [by rewrite app_nil_r | reflexivity].
  - rewrite H. discriminate.
Qed.

Lemma confined_set_currentUser (u : option User) :
  fp_user F = true ->
  confined F (modify_world (fun w =>
    mkWorld (document w) (localStorage w) u (currentSelectedFile w) (trace w))).
Proof.
  intros H w. repeat split; auto.
  - exists []. split; [by rewrite app_nil_r | reflexivity].
  - rewrite H. discriminate.
Qed.

End Confinement.

(** Decomposes a goal [confined F m] along the structure of [m]; the side
    conditions are evaluated. *)
Ltac confine :=
  repeat first
    [ apply confined_ret
    | apply confined_throw
    | apply confined_bind; [|intros ?]
    | apply confined_try_catch; [|intros ?]
    | apply confined_try_finally
    | apply confined_callback; [intros ?; reflexivity |]
    | apply confined_update; reflexivity
    | apply confined_get
    | apply confined_getElementById
    | apply confined_read_world
    | apply confined_log; reflexivity
    | apply confined_fetch; reflexivity
    | apply confined_json
    | apply confined_object
    | apply confined_user_getIdToken
    | apply confined_set_localStorage; reflexivity
    | apply confined_set_currentSelectedFile; reflexivity
    | apply confined_set_currentUser; reflexivity
    | match goal with
      | |- confined _ (match ?x with _ => _ end) => destruct x
      end
    | progress cbv zeta
    | progress (cbn [forEach]) ].

Lemma updatePlanCards_confined (p : string) :
  confined (elements_only ("manageSubBtn" :: planCardIds)) (updatePlanCards p).
Proof.
  unfold updatePlanCards. confine.
Qed.

(** ** Choosing a file *)

Lemma count_app {A : Type} (f : A -> bool) (l1 l2 : list A) :
  count f (l1 ++ l2)%list = (count f l1 + count f l2)%nat.
Proof. unfold count. by rewrite List.filter_app, List.length_app. Qed.

Lemma count_single {A : Type} (f : A -> bool) (a : A) :
  count f [a] = if f a then 1%nat else 0%nat.
Proof. unfold count. simpl. by destruct (f a). Qed.

Lemma count_none {A : Type} (f : A -> bool) (l : list A) :
  forallb (fun x => negb (f x)) l = true -> count f l = 0%nat.
Proof.
  unfold count. induction l as [|x l IH]; simpl; [reflexivity|].
  intros H. apply andb_prop in H. destruct H as [Hx Hl].
  apply negb_true_iff in Hx. rewrite Hx. auto.
Qed.

Lemma handleFileSelection_accepts (file : File) (rest : list File) (w : World) :
  size file <= 10 * 1024 * 1024 ->
  within no_fetch_no_file (set_currentSelectedFile (Some file) w)
         (snd (handleFileSelection (file :: rest) w)).
Proof.
  intros Hsize. unfold handleFileSelection.
  assert ((size file >? 10 * 1024 * 1024) = false) as -> by lia.
  unfold bind at 1, modify_world at 1.
  match goal with
  | |- within _ ?w1 (snd (?m ?w1)) => assert (confined no_fetch_no_file m) as Hm
  end.
  { confine. }
  apply Hm.
Qed.

(** C8: a file of 10*1024*1024 + 1 bytes or more is refused: an error
    toast is shown, the selection stays what it was (none, when none was
    made) and nothing is sent.  A file of at most 10*1024*1024 bytes, in
    particular of exactly that size, becomes the selected file; choosing
    it sends nothing either. *)
Theorem file_size_guard (file : File) (rest : list File) (w : World) :
  let w' := snd (handleFileSelection (file :: rest) w) in
  (10 * 1024 * 1024 + 1 <= size file ->
     currentSelectedFile w' = currentSelectedFile w /\
     trace w' = trace w /\
     forall container, document w !! "toast-container" = Some container ->
       handleFileSelection (file :: rest) w =
         (Normal tt,
          set_document
            (<["toast-container" :=
                 appendChild (mkToast "border-red-500" "text-red-800"
                                      "File too large. Max 10MB.") container]>
               (document w)) w)) /\
  (size file <= 10 * 1024 * 1024 ->
     currentSelectedFile w' = Some file /\
     count is_fetch (trace w') = count is_fetch (trace w)) /\
  (size file = 10 * 1024 * 1024 -> currentSelectedFile w' = Some file).
Proof.
  intros w'.
  assert (Hacc : size file <= 10 * 1024 * 1024 ->
     currentSelectedFile w' = Some file /\
     count is_fetch (trace w') = count is_fetch (trace w)).
  { intros Hsize.
    destruct (handleFileSelection_accepts file rest w Hsize)
      as (_ & (new & Htr & Hnew) & _ & Hfile & _).
    fold w' in Htr, Hfile. split.
    - by rewrite Hfile.
    - rewrite Htr. simpl. rewrite count_app, (count_none _ _ Hnew). lia. }
  split; [|split; [exact Hacc | intros H; apply Hacc; lia]].
  intros Hsize. unfold w', handleFileSelection.
  assert ((size file >? 10 * 1024 * 1024) = true) as -> by lia.
  unfold showToast, update. simpl.
  destruct (document w !! "toast-container") as [c|]; simpl.
  - repeat split. by intros container [= <-].
  - repeat split. discriminate.
Qed.

(** ** The dashboard renders *)

Lemma bind_run {A B : Type} (m : M A) (k : A -> M B) (w w1 : World) (a : A) :
  m w = (Normal a, w1) -> bind m k w = k a w1.
Proof. intros H. unfold bind. by rewrite H. Qed.

Lemma renderPlanCard_completes (cp : string) (lvl : Lookup Z) (name : string) (w : World) :
  In name ["free"; "pro"; "enterprise"] ->
  exists w', renderPlanCard cp lvl name w = (Normal tt, w').
Proof.
  simpl. intros [<-|[<-|[<-|[]]]];
    destruct w as [doc ls cu sf tr];
    unfold renderPlanCard, bind, getElementById, read_world, update; simpl;
    match goal with
    | |- context [doc !! ?id] => destruct (doc !! id) as [card|] eqn:Hcard
    end; simpl; try (eexists; reflexivity);
    repeat match goal with
    | |- context [if ?b then _ else _] => destruct b
    end; simpl; simplify_map_eq; eexists; reflexivity.
Qed.

Lemma updatePlanCards_completes (p : string) (w : World) :
  is_Some (document w !! "manageSubBtn") ->
  exists w', updatePlanCards p w = (Normal tt, w').
Proof.
  intros [btn Hbtn]. unfold updatePlanCards.
  set (cp := or_str (Some p) "free"). set (lvl := literal_get PLAN_LEVELS cp).
  assert (exists w1,
    (if level_gt0 lvl
     then update "manageSubBtn" (classList_remove ["hidden"])
     else update "manageSubBtn" (classList_add ["hidden"])) w = (Normal tt, w1))
    as [w1 H1].
  { destruct (level_gt0 lvl); erewrite update_Some by eassumption; eexists; reflexivity. }
  rewrite (bind_run _ _ _ _ _ H1). cbn [forEach].
  destruct (renderPlanCard_completes cp lvl "free" w1) as [w2 H2]; [simpl; tauto|].
  rewrite (bind_run _ _ _ _ _ H2).
  destruct (renderPlanCard_completes cp lvl "pro" w2) as [w3 H3]; [simpl; tauto|].
  rewrite (bind_run _ _ _ _ _ H3).
  destruct (renderPlanCard_completes cp lvl "enterprise" w3) as [w4 H4]; [simpl; tauto|].
  rewrite (bind_run _ _ _ _ _ H4).
  eexists. reflexivity.
Qed.

Lemma updateDashboardUI_renders (host : Host) (data : Data) (w : World) :
  page_has dashboardIds w = true ->
  let plan := or_str (plan data) "free" in
  let used := or_num (requests_this_month data) 0 in
  let lim := resolveLimit data plan in
  exists w',
    updateDashboardUI host data w = (Normal tt, w') /\
    trace w' = trace w /\
    localStorage w' = localStorage w /\
    (exists e, document w' !! "apiKeyDisplay" = Some e /\
               value e = to_DOMString (masked_key data)) /\
    (exists e, document w' !! "requestCount" = Some e /\
               textContent e = toLocaleString host (VNum used)) /\
    (exists e, document w' !! "requestsLimit" = Some e /\
               textContent e = toLocaleString host lim) /\
    (exists bar, document w !! "usageBar" = Some bar /\
       document w' !! "usageBar" =
         Some (bar_after host (Math_min (ratio100 used lim) 100) bar)).
Proof.
  intros Hpage plan used lim. unfold dashboardIds in Hpage. page_elements Hpage.
  destruct w as [doc ls cu sf tr]. simpl in *.
  set (pct := Math_min (ratio100 used lim) 100).
  pose (w9 := mkWorld
    (<["usageBar" := bar_after host pct e4]>
      (<["requestsLimit" := set_textContent (toLocaleString host lim) e3]>
        (<["requestCount" := set_textContent (toLocaleString host (VNum used)) e2]>
          (<["keyWarningMsg" := classList_add ["hidden"] e1]>
            (<["copyApiKeyBtn" := classList_add ["hidden"] e0]>
              (<["apiKeyDisplay" :=
                   classList_add ["text-slate-600"; "dark:text-slate-300"]
                     (classList_remove ["text-green-600"; "font-bold"]
                        (set_value (to_DOMString (masked_key data)) e))]> doc))))))
    ls cu sf tr).
  assert (Hrun : updateDashboardUI host data (mkWorld doc ls cu sf tr) =
                 updatePlanCards plan w9).
  { unfold updateDashboardUI, bind, update. fold plan used lim pct. simpl.
    simplify_map_eq. unfold w9, bar_after.
    destruct (num_gt pct 90); simpl; simplify_map_eq;
      rewrite ?insert_insert_eq; reflexivity. }
  destruct (updatePlanCards_completes plan w9) as [w' Hw'].
  { unfold w9. simpl. simplify_map_eq. eauto. }
  pose proof (updatePlanCards_confined plan w9) as Hin.
  rewrite Hw' in Hin. simpl in Hin.
  destruct Hin as (Hdoc & (new & Htr & Hnew) & Hls & _ & _).
  destruct new as [|ev new]; [|discriminate Hnew]. rewrite app_nil_r in Htr.
  exists w'. rewrite Hrun. split; [exact Hw'|].
  split; [exact Htr|]. split; [by apply Hls|].
  rewrite !Hdoc by reflexivity. unfold w9. simpl. simplify_map_eq.
  repeat split; eauto.
Qed.

(** ** The request limit and the usage bar *)

Lemma truthy_num_false (o : option Q) :
  truthy_num o = false <-> o = None \/ exists q, o = Some q /\ (q == 0)%Q.
Proof.
  destruct o as [q|]; simpl.
  - rewrite negb_false_iff, Qeq_bool_iff. split.
    + intros H. right. eauto.
    + intros [H|(q' & [= <-] & H)]; [discriminate | exact H].
  - split; auto.
Qed.

(** What [{ free: 50, pro: 5000, enterprise: 100000 }[plan]] is. *)
Lemma defaultLimits_cases (plan : string) :
  (plan = "free" /\ literal_get defaultLimits plan = Own 50%Q) \/
  (plan = "pro" /\ literal_get defaultLimits plan = Own 5000%Q) \/
  (plan = "enterprise" /\ literal_get defaultLimits plan = Own 100000%Q) \/
  (~ In plan ["free"; "pro"; "enterprise"] /\
   literal_get defaultLimits plan = if inherited plan then Inherited else Undefined).
Proof.
  unfold literal_get, defaultLimits. simpl.
  destruct (String.eqb_spec plan "free") as [->|H1]; [by left|].
  destruct (String.eqb_spec plan "pro") as [->|H2]; [by right; left|].
  destruct (String.eqb_spec plan "enterprise") as [->|H3]; [by right; right; left|].
  right; right; right. split; [|reflexivity]. intros [?|[?|[?|[]]]]; congruence.
Qed.


Lemma resolveLimit_supplied (data : Data) (plan : string) (l : Q) :
  limit data = Some l -> ~ (l == 0)%Q -> resolveLimit data plan = VNum l.
Proof.
  intros Hl Hnz. unfold resolveLimit. rewrite Hl.
  assert (Qeq_bool l 0 = false) as E.
  { destruct (Qeq_bool l 0) eqn:E; [|reflexivity]. apply Qeq_bool_iff in E. contradiction. }
  simpl. by rewrite E.
Qed.

Lemma resolveLimit_default (data : Data) (plan : string) :
  limit data = None \/ (exists l, limit data = Some l /\ (l == 0)%Q) ->
  resolveLimit data plan =
    match literal_get defaultLimits plan with
    | Own q => VNum q
    | Inherited => VMember plan
    | Undefined => VNum 50
    end.
Proof.
  intros H. apply truthy_num_false in H. unfold resolveLimit. rewrite H.
  destruct (defaultLimits_cases plan) as [[_ ->]|[[_ ->]|[[_ ->]|[_ ->]]]]; try reflexivity.
  destruct (inherited plan); reflexivity.
Qed.

(** C3, amended: the limit [updateDashboardUI] displays is the
    server-reported limit when that is supplied and not zero; otherwise the
    default of the user's plan (free 50, pro 5000, enterprise 100000, the
    plan itself defaulting to free); otherwise, for a plan that names
    neither a tier nor a member inherited from [Object.prototype], 50. *)
Theorem displayed_limit_resolution (host : Host) (data : Data) (w : World) :
  page_has dashboardIds w = true ->
  let plan := or_str (plan data) "free" in
  let absent := limit data = None \/ (exists l, limit data = Some l /\ (l == 0)%Q) in
  exists w' shown,
    updateDashboardUI host data w = (Normal tt, w') /\
    textContent <$> document w' !! "requestsLimit" = Some (toLocaleString host shown) /\
    (forall l, limit data = Some l -> ~ (l == 0)%Q -> shown = VNum l) /\
    (absent -> plan = "free" -> shown = VNum 50) /\
    (absent -> plan = "pro" -> shown = VNum 5000) /\
    (absent -> plan = "enterprise" -> shown = VNum 100000) /\
    (absent -> ~ In plan ["free"; "pro"; "enterprise"] -> inherited plan = false ->
     shown = VNum 50).
Proof.
  intros Hpage plan absent.
  destruct (updateDashboardUI_renders host data w Hpage)
    as (w' & Hrun & _ & _ & _ & _ & (e & He & Htext) & _).
  exists w', (resolveLimit data plan). split; [exact Hrun|]. split.
  { rewrite He. simpl. by rewrite Htext. }
  split; [intros l Hl Hnz; by apply resolveLimit_supplied|].
  repeat split; intros Ha; rewrite (resolveLimit_default _ _ Ha).
  - by intros ->.
  - by intros ->.
  - by intros ->.
  - intros Hnot Hinh.
    destruct (defaultLimits_cases plan) as [[-> _]|[[-> _]|[[-> _]|[_ ->]]]];
      try (exfalso; apply Hnot; simpl; tauto).
    by rewrite Hinh.
Qed.


(** ** Revealing a new key *)

Lemma revealNewKey_confined (d : Data) : confined reveal_footprint (revealNewKey d).
Proof. unfold revealNewKey. confine. Qed.

Lemma revealNewKey_reveals (d : Data) (w : World) :
  page_has revealIds w = true ->
  exists w', revealNewKey d w = (Normal tt, w') /\ revealed (to_DOMString (key d)) w'.
Proof.
  intros Hpage. unfold revealIds in Hpage. page_elements Hpage.
  destruct w as [doc ls cu sf tr]. simpl in *.
  unfold revealNewKey, bind, update, modify_world. simpl. simplify_map_eq.
  eexists. split; [reflexivity|]. unfold revealed. simpl. by simplify_map_eq.
Qed.

Lemma page_has_set_document (ids : list string) (id : string) (e : Element) (w : World) :
  page_has ids w = true ->
  page_has ids (set_document (<[id := e]> (document w)) w) = true.
Proof.
  induction ids as [|i ids IH]; [reflexivity|].
  rewrite !page_has_cons. intros [[e' He'] Hrest]. split; [|auto].
  simpl. destruct (decide (id = i)) as [->|Hne].
  - rewrite lookup_insert_eq. eauto.
  - rewrite lookup_insert_ne by done. eauto.
Qed.

Lemma revealed_set_document (k id : string) (e : Element) (w : World) :
  ~ In id ["apiKeyDisplay"; "requestCount"; "usageBar"] ->
  revealed k w -> revealed k (set_document (<[id := e]> (document w)) w).
Proof.
  intros Hid (Hv & Hc & Hb & Hs). unfold revealed. simpl in *.
  rewrite !lookup_insert_ne by (intros ->; apply Hid; tauto). auto.
Qed.

Lemma page_has_emit (ids : list string) (ev : Event) (w : World) :
  page_has ids (emit ev w) = page_has ids w.
Proof. reflexivity. Qed.

(** C6: a response to the signup request or to the regenerate-key request
    that carries a key makes [createNewKey], respectively [confirmRotate],
    call [revealNewKey] on it: afterwards the key field shows the full key,
    the usage count reads 0 and the bar is at 0%, and local storage holds
    the full key under 'receiptApiKey'. *)
Theorem new_key_revealed (server : list Event -> Request -> FetchOutcome)
    (w : World) (r : Response) (d : Data) (k : string) :
  page_has revealIds w = true ->
  body r = JsonObject d -> key d = Some k -> k <> "" ->
  (forall idToken email,
     server (trace w) (signupRequest idToken email) = Responds r ->
     exists w',
       createNewKey server idToken email w = (Normal tt, w') /\
       createNewKey server idToken email w =
         revealNewKey d (emit (EvFetch (signupRequest idToken email)) w) /\
       revealed k w') /\
  (forall u idToken,
     page_has ["rotateModal"; "toast-container"] w = true ->
     currentUser w = Some u -> getIdToken u = inr idToken ->
     server (trace w) (regenerateRequest idToken) = Responds r ->
     exists w1 w2 w',
       closeRotateModal w = (Normal tt, w1) /\
       revealNewKey d (emit (EvFetch (regenerateRequest idToken)) w1) = (Normal tt, w2) /\
       confirmRotate server w = (Normal tt, w') /\
       confirmRotate server w = showToast "Key Rotated Successfully" "success" w2 /\
       revealed k w').
Proof.
  intros Hpage Hbody Hkey Hne.
  assert (Htruthy : truthy_str (key d) = true).
  { rewrite Hkey. simpl. apply negb_true_iff. by apply String.eqb_neq. }
  split.
  - intros idToken email Hserver.
    assert (Hrun : createNewKey server idToken email w =
                   revealNewKey d (emit (EvFetch (signupRequest idToken email)) w)).
    { unfold createNewKey, bind, fetch, json. rewrite Hserver, Hbody. simpl.
      by rewrite Htruthy. }
    destruct (revealNewKey_reveals d (emit (EvFetch (signupRequest idToken email)) w))
      as (w' & Hw' & Hrev); [exact Hpage|].
    exists w'. rewrite Hrun. rewrite Hkey in Hrev. auto.
  - intros u idToken Hpage2 Hu Htok Hserver.
    page_elements Hpage2.
    set (w1 := set_document (<["rotateModal" := classList_add ["hidden"] e]> (document w)) w).
    assert (H1 : closeRotateModal w = (Normal tt, w1)) by by apply update_Some.
    set (w1' := emit (EvFetch (regenerateRequest idToken)) w1).
    assert (Hrun : confirmRotate server w =
              try_catch (revealNewKey d ;; showToast "Key Rotated Successfully" "success")
                        (fun e => showToast (message e) "error") w1').
    { unfold confirmRotate. rewrite (bind_run _ _ _ _ _ H1).
      unfold bind at 1, read_world at 1. change (currentUser w1) with (currentUser w).
      rewrite Hu. unfold try_catch, bind, user_getIdToken, fetch, json, object.
      rewrite Htok. unfold ret at 1. change (trace w1) with (trace w).
      rewrite Hserver, Hbody. unfold ret. by rewrite Htruthy. }
    destruct (revealNewKey_reveals d w1') as (w2 & H2 & Hrev).
    { unfold w1'. rewrite page_has_emit. by apply page_has_set_document. }
    rewrite Hkey in Hrev.
    pose proof (revealNewKey_confined d w1') as Hin. rewrite H2 in Hin.
    destruct Hin as (Hdoc & _). simpl in Hdoc.
    assert (Htoast : document w2 !! "toast-container" = Some e0).
    { rewrite Hdoc by reflexivity. unfold w1', w1. simpl. by rewrite lookup_insert_ne. }
    eexists w1, w2, _. split; [exact H1|]. split; [exact H2|].
    rewrite Hrun. unfold try_catch, bind. rewrite H2. unfold showToast.
    rewrite (update_Some _ _ _ _ Htoast).
    split; [reflexivity|]. split; [reflexivity|].
    apply revealed_set_document; [|exact Hrev]. simpl. intros [?|[?|[?|[]]]]; discriminate.
Qed.

(** ** A request, then the rest *)

Lemma fetch_responds (server : list Event -> Request -> FetchOutcome)
    (r : Request) (w : World) :
  exists c, fetch server r w = (c, emit (EvFetch r) w).
Proof. unfold fetch. destruct (server (trace w) r); eauto. Qed.

Lemma try_catch_bind_run {A B : Type} (m : M A) (k : A -> M B) (h : JSError -> M B)
    (w w1 : World) (a : A) :
  m w = (Normal a, w1) -> try_catch (bind m k) h w = try_catch (k a) h w1.
Proof. intros H. unfold try_catch, bind. by rewrite H. Qed.

Lemma try_catch_bind_throw {A B : Type} (m : M A) (k : A -> M B) (h : JSError -> M B)
    (w w1 : World) (e : JSError) :
  m w = (Throw e, w1) -> try_catch (bind m k) h w = h e w1.
Proof. intros H. unfold try_catch, bind. by rewrite H. Qed.

(** [try { res = await fetch(r); k res } catch (e) { h e }]: the request
    goes out first; what follows stays within what [k] and [h] may do. *)
Lemma fetch_then (F : Footprint) (server : list Event -> Request -> FetchOutcome)
    {A : Type} (r : Request) (k : Response -> M A) (h : JSError -> M A) (w : World) :
  (forall res, confined F (k res)) -> (forall e, confined F (h e)) ->
  within F (emit (EvFetch r) w) (snd (try_catch (bind (fetch server r) k) h w)).
Proof.
  intros Hk Hh. unfold try_catch, bind.
  destruct (fetch_responds server r w) as [[res|e] ->].
  - specialize (Hk res (emit (EvFetch r) w)).
    destruct (k res (emit (EvFetch r) w)) as [[a|e] w1]; simpl in *; [exact Hk|].
    eapply within_trans; [exact Hk | apply Hh].
  - apply Hh.
Qed.

Lemma within_trace (F : Footprint) (w w' : World) :
  within F w w' ->
  exists new, trace w' = (trace w ++ new)%list /\ forallb (fp_events F) new = true.
Proof. intros (_ & H & _). exact H. Qed.

(** A click on a card's button, by a signed-in user whose token is at
    hand, first sends the request of that button. *)
Lemma click_requests (server : list Event -> Request -> FetchOutcome)
    (u : User) (idToken : string) (w : World) (h : Handler) :
  currentUser w = Some u -> getIdToken u = inr idToken ->
  exists rest,
    trace (snd (click server h w)) =
      (trace w ++
       EvFetch (match h with
                | OpenPortal => portalRequest idToken
                | UpgradePlan planName => checkoutRequest idToken planName
                end) :: rest)%list.
Proof.
  intros Hu Htok.
  destruct h as [|planName]; simpl;
    [unfold openPortal | unfold upgradePlan];
    unfold bind at 1, read_world at 1; rewrite Hu; cbv beta iota;
    (erewrite try_catch_bind_run
       by (unfold user_getIdToken; rewrite Htok; reflexivity));
    match goal with
    | |- context [try_catch (bind (fetch server ?r) ?k) ?h w] =>
        destruct (within_trace anything _ _ (fetch_then anything server r k h w
                    ltac:(intros ?; unfold showToast; confine)
                    ltac:(intros ?; unfold showToast; confine)))
          as (rest & Hrest & _)
    end;
    exists rest; rewrite Hrest; simpl; by rewrite <- app_assoc.
Qed.

(** What [renderPlanCard] leaves in a card that exists. *)
Lemma renderPlanCard_renders (cp : string) (lvl : Lookup Z) (name : string)
    (card : Element) (w : World) :
  In name ["free"; "pro"; "enterprise"] ->
  document w !! ("planCard-" ++ name) = Some card ->
  exists card' label limitText price,
    renderPlanCard cp lvl name w =
      (Normal tt, set_document (<["planCard-" ++ name := card']> (document w)) w) /\
    innerHTML card' =
      PlanCardMarkup label limitText
        (if String.eqb name cp then CurrentBadge price
         else if level_lt (literal_get PLAN_LEVELS name) lvl
              then ActionButton price OpenPortal downgradeBtnClass "Downgrade"
              else ActionButton price (UpgradePlan name) (upgradeBtnClass name) "Upgrade").
Proof.
  intros Hname Hcard. destruct w as [doc ls cu sf tr]. simpl in Hcard.
  destruct Hname as [<-|[<-|[<-|[]]]];
    cbn [String.append] in *;
    unfold renderPlanCard; cbv zeta;
    match goal with
    | |- context [String.eqb ?n cp] =>
        generalize (String.eqb n cp);
        generalize (level_lt (literal_get PLAN_LEVELS n) lvl)
    end; intros b2 b1;
    unfold bind, getElementById, read_world, update, set_document;
    cbn [String.append document localStorage currentUser currentSelectedFile trace];
    rewrite Hcard; simpl;
    destruct b1, b2; simpl; simplify_map_eq; rewrite ?insert_insert_eq;
    do 4 eexists; (split; [reflexivity|]); reflexivity.
Qed.

(** C4: for p among free, pro and enterprise, on a page that has the three
    cards and the manage button, [updatePlanCards p] shows the "Current"
    badge (and no button) on the card of tier p and on no other, a
    "Downgrade" button calling [openPortal()] on exactly the cards of lower
    level, an "Upgrade" button calling [upgradePlan(tier)] on exactly the
    cards of higher level, and un-hides the manage button exactly when p's
    level is above free's.  Clicking such a button, signed in, sends the
    billing-portal request, respectively the checkout request for that
    tier. *)
Theorem updatePlanCards_marks_cards (server : list Event -> Request -> FetchOutcome)
    (p : string) (w : World) :
  In p ["free"; "pro"; "enterprise"] ->
  page_has ("manageSubBtn" :: planCardIds) w = true ->
  exists w' manage,
    updatePlanCards p w = (Normal tt, w') /\
    count (fun t => is_current (cardAction w' t)) ["free"; "pro"; "enterprise"] = 1%nat /\
    (forall t, In t ["free"; "pro"; "enterprise"] ->
       (is_current (cardAction w' t) = true <-> t = p) /\
       (is_downgrade (cardAction w' t) = true <-> level t < level p) /\
       (is_upgrade t (cardAction w' t) = true <-> level p < level t)) /\
    document w' !! "manageSubBtn" = Some manage /\
    ("hidden" ∉ classList manage <-> level "free" < level p) /\
    (forall u idToken w0,
       currentUser w0 = Some u -> getIdToken u = inr idToken ->
       (exists rest, trace (snd (click server OpenPortal w0)) =
                     (trace w0 ++ EvFetch (portalRequest idToken) :: rest)%list) /\
       (forall t, exists rest, trace (snd (click server (UpgradePlan t) w0)) =
                     (trace w0 ++ EvFetch (checkoutRequest idToken t) :: rest)%list)).
Proof.
  intros Hp Hpage. unfold planCardIds in Hpage. page_elements Hpage.
  assert (Hclick : forall u idToken w0,
       currentUser w0 = Some u -> getIdToken u = inr idToken ->
       (exists rest, trace (snd (click server OpenPortal w0)) =
                     (trace w0 ++ EvFetch (portalRequest idToken) :: rest)%list) /\
       (forall t, exists rest, trace (snd (click server (UpgradePlan t) w0)) =
                     (trace w0 ++ EvFetch (checkoutRequest idToken t) :: rest)%list)).
  { intros u idToken w0 Hu Htok. split; [|intros t].
    - apply (click_requests server u idToken w0 OpenPortal Hu Htok).
    - apply (click_requests server u idToken w0 (UpgradePlan t) Hu Htok). }
  unfold updatePlanCards.
  set (cp := or_str (Some p) "free"). set (lvl := literal_get PLAN_LEVELS cp).
  set (manage := if level_gt0 lvl then classList_remove ["hidden"] e
                 else classList_add ["hidden"] e).
  set (w1 := set_document (<["manageSubBtn" := manage]> (document w)) w).
  assert (H1 : (if level_gt0 lvl
                then update "manageSubBtn" (classList_remove ["hidden"])
                else update "manageSubBtn" (classList_add ["hidden"])) w
               = (Normal tt, w1)).
  { unfold w1, manage. destruct (level_gt0 lvl); by apply update_Some. }
  rewrite (bind_run _ _ _ _ _ H1). cbn [forEach].
  destruct (renderPlanCard_renders cp lvl "free" e0 w1) as (c1 & l1 & t1 & p1 & R1 & I1);
    [simpl; tauto | unfold w1; simpl; by simplify_map_eq |].
  rewrite (bind_run _ _ _ _ _ R1).
  set (w2 := set_document _ w1) in *.
  destruct (renderPlanCard_renders cp lvl "pro" e1 w2) as (c2 & l2 & t2 & p2 & R2 & I2);
    [simpl; tauto | unfold w2, w1; simpl; by simplify_map_eq |].
  rewrite (bind_run _ _ _ _ _ R2).
  set (w3 := set_document _ w2) in *.
  destruct (renderPlanCard_renders cp lvl "enterprise" e2 w3)
    as (c3 & l3 & t3 & p3 & R3 & I3);
    [simpl; tauto | unfold w3, w2, w1; simpl; by simplify_map_eq |].
  rewrite (bind_run _ _ _ _ _ R3).
  set (w4 := set_document _ w3) in *.
  assert (A1 : cardAction w4 "free" =
               match innerHTML c1 with PlanCardMarkup _ _ a => Some a | _ => None end).
  { unfold cardAction, w4, w3, w2, w1. simpl. by simplify_map_eq. }
  assert (A2 : cardAction w4 "pro" =
               match innerHTML c2 with PlanCardMarkup _ _ a => Some a | _ => None end).
  { unfold cardAction, w4, w3, w2, w1. simpl. by simplify_map_eq. }
  assert (A3 : cardAction w4 "enterprise" =
               match innerHTML c3 with PlanCardMarkup _ _ a => Some a | _ => None end).
  { unfold cardAction, w4, w3, w2, w1. simpl. by simplify_map_eq. }
  assert (Hm : document w4 !! "manageSubBtn" = Some manage).
  { unfold w4, w3, w2, w1. simpl. by simplify_map_eq. }
  rewrite I1 in A1. rewrite I2 in A2. rewrite I3 in A3.
  exists w4, manage. split; [reflexivity|].
  clearbody w4. clear R1 R2 R3 I1 I2 I3 H1.
  destruct Hp as [<-|[<-|[<-|[]]]]; simpl in A1, A2, A3;
    (split; [unfold count; simpl; by rewrite A1, A2, A3|]);
    (split; [intros t [<-|[<-|[<-|[]]]]; rewrite ?A1, ?A2, ?A3; unfold level; simpl;
             repeat split; intros H; try reflexivity; try discriminate; try lia|]);
    (split; [exact Hm|]); (split; [|exact Hclick]);
    unfold manage; destruct (level_gt0 lvl) eqn:Hg; vm_compute in Hg; try discriminate Hg;
    rewrite ?classList_add_elem, ?classList_remove_elem; unfold level; simpl;
    (split; [intros H; try lia; exfalso; apply H; right; by left
            | intros H; try lia; intros [_ Hnot]; apply Hnot; by left]).
Qed.

(** ** Submitting an extraction *)

Lemma try_finally_within (F : Footprint) {A : Type} (m : M A) (f : M unit)
    (w w0 : World) :
  within F w0 (snd (m w)) -> confined F f -> within F w0 (snd (try_finally m f w)).
Proof.
  intros Hm Hf. unfold try_finally. destruct (m w) as [c w1]; simpl in *.
  specialize (Hf w1). destruct (f w1) as [[u|e] w2]; simpl in *;
    eapply within_trans; eauto.
Qed.

Lemma callback_within (F : Footprint) (m : M unit) (w w0 : World) :
  (forall e, fp_events F (EvUncaught e) = true) ->
  within F w0 (snd (m w)) -> within F w0 (snd (callback m w)).
Proof.
  intros Hev Hm. unfold callback. destruct (m w) as [[u|e] w1]; simpl in *; [exact Hm|].
  eapply within_trans; [exact Hm | apply within_emit, Hev].
Qed.

(** On a page with the runner's elements, [performApiCall] sends the
    extraction request, and nothing else. *)
Lemma performApiCall_sends (host : Host) (server : list Event -> Request -> FetchOutcome)
    (base64 : option string) (mime docType key : string) (w : World) :
  page_has ["processingIndicator"; "resultsArea"; "extractBtn"] w = true ->
  exists w4,
    trace w4 = trace w /\
    within no_fetch (emit (EvFetch (extractRequest base64 mime docType key)) w4)
           (snd (performApiCall host server base64 mime docType key w)).
Proof.
  intros Hpage. page_elements Hpage. unfold performApiCall.
  erewrite bind_run by (by apply update_Some).
  erewrite bind_run by (apply update_Some; simpl; by simplify_map_eq).
  erewrite bind_run by (apply update_Some; simpl; by simplify_map_eq).
  erewrite bind_run by (apply update_Some; simpl; by simplify_map_eq).
  eexists. split; [|apply try_finally_within; [apply fetch_then|]].
  - reflexivity.
  - intros res. unfold showToast. confine.
  - intros err. unfold showToast. confine.
  - confine.
Qed.

Lemma triggerExtraction_confined (host : Host)
    (server : list Event -> Request -> FetchOutcome) :
  confined not_the_file (triggerExtraction host server).
Proof. unfold triggerExtraction, performApiCall, showToast. confine. Qed.

Lemma triggerExtraction_aborts (host : Host)
    (server : list Event -> Request -> FetchOutcome) (w : World) (file : File)
    (input : Element) :
  currentSelectedFile w = Some file ->
  document w !! "testApiKeyInput" = Some input ->
  String.eqb (trim (value input)) "" || includes "••••" (trim (value input)) = true ->
  within no_fetch w (snd (triggerExtraction host server w)).
Proof.
  intros Hfile Hinput Hbad. unfold triggerExtraction, bind at 1, read_world at 1.
  rewrite Hfile. cbv beta iota. unfold bind at 1, get at 1. rewrite Hinput.
  cbv beta iota zeta. unfold bind at 1, get at 1.
  destruct (document w !! "docTypeInput") as [docTypeInput|]; [|apply within_refl].
  cbv beta iota zeta. rewrite Hbad.
  match goal with
  | |- within _ w (snd (?m w)) => assert (confined no_fetch m) as Hm
  end.
  { unfold showToast. confine. }
  apply Hm.
Qed.

(** C2, amended: with a file selected, [triggerExtraction] sends something
    only if the trimmed credential is non-empty and does not contain the
    mask '••••'.  When the credential fails that test the call shows an
    error toast, focuses the credential field and sends nothing.  When it
    passes, the extraction request goes out with the document type as it
    stands in its field, selected or not.  The selected file stays the
    same throughout. *)
Theorem triggerExtraction_guard (host : Host)
    (server : list Event -> Request -> FetchOutcome) (w : World) (file : File) :
  currentSelectedFile w = Some file ->
  let w' := snd (triggerExtraction host server w) in
  currentSelectedFile w' = Some file /\
  (count is_fetch (trace w') <> count is_fetch (trace w) ->
     exists input,
       document w !! "testApiKeyInput" = Some input /\
       trim (value input) <> "" /\ includes "••••" (trim (value input)) = false) /\
  (forall input container,
     document w !! "testApiKeyInput" = Some input ->
     is_Some (document w !! "docTypeInput") ->
     document w !! "toast-container" = Some container ->
     trim (value input) = "" \/ includes "••••" (trim (value input)) = true ->
     triggerExtraction host server w =
       (Normal tt,
        emit (EvFocus "testApiKeyInput")
          (set_document
             (<["toast-container" :=
                  appendChild (errorToast "Please paste your REAL API Key.") container]>
                (document w)) w))) /\
  (forall input docTypeInput result,
     document w !! "testApiKeyInput" = Some input ->
     document w !! "docTypeInput" = Some docTypeInput ->
     page_has ["processingIndicator"; "resultsArea"; "extractBtn"] w = true ->
     dataURL file = Some result ->
     trim (value input) <> "" -> includes "••••" (trim (value input)) = false ->
     exists rest,
       trace w' =
         (trace w ++
          EvFetch (extractRequest (split_comma_1 result) (type file)
                     (value docTypeInput) (trim (value input))) :: rest)%list /\
       count is_fetch rest = 0%nat).
Proof.
  intros Hfile w'. split; [|split; [|split]].
  - destruct (triggerExtraction_confined host server w) as (_ & _ & _ & Hf & _).
    fold w' in Hf. rewrite Hf by reflexivity. exact Hfile.
  - intros Hcount.
    destruct (document w !! "testApiKeyInput") as [input|] eqn:Hinput.
    + exists input. split; [reflexivity|].
      destruct (String.eqb (trim (value input)) "" || includes "••••" (trim (value input)))
        eqn:Hbad.
      * exfalso. apply Hcount.
        destruct (within_trace _ _ _
                    (triggerExtraction_aborts host server w file input Hfile Hinput Hbad))
          as (new & Hnew & Hnone).
        fold w' in Hnew. rewrite Hnew, count_app, (count_none _ _ Hnone). lia.
      * apply orb_false_elim in Hbad. destruct Hbad as [Hempty Hmask].
        split; [by apply String.eqb_neq | exact Hmask].
    + exfalso. apply Hcount. unfold w', triggerExtraction, bind at 1, read_world at 1.
      rewrite Hfile. cbv beta iota. unfold bind at 1, get at 1. by rewrite Hinput.
  - intros input container Hinput [docTypeInput Hdoc] Hcontainer Hbad.
    assert (String.eqb (trim (value input)) "" || includes "••••" (trim (value input))
            = true) as Hb.
    { destruct Hbad as [->| ->]; [reflexivity | apply orb_true_r]. }
    unfold triggerExtraction, bind at 1, read_world at 1. rewrite Hfile. cbv beta iota.
    unfold bind at 1, get at 1. rewrite Hinput. cbv beta iota zeta.
    unfold bind at 1, get at 1. rewrite Hdoc. cbv beta iota zeta. rewrite Hb.
    unfold showToast. erewrite bind_run by (by apply update_Some).
    unfold bind, get, log, modify_world. simpl.
    destruct (decide ("toast-container" = "testApiKeyInput")) as [Heq|Hne];
      [discriminate Heq|].
    rewrite lookup_insert_ne by exact Hne. by rewrite Hinput.
  - intros input docTypeInput result Hinput Hdoc Hpage Hurl Hne Hmask.
    assert (String.eqb (trim (value input)) "" || includes "••••" (trim (value input))
            = false) as Hb.
    { rewrite Hmask, orb_false_r. by apply String.eqb_neq. }
    unfold w', triggerExtraction, bind at 1, read_world at 1. rewrite Hfile.
    cbv beta iota. unfold bind at 1, get at 1. rewrite Hinput. cbv beta iota zeta.
    unfold bind at 1, get at 1. rewrite Hdoc. cbv beta iota zeta. rewrite Hb, Hurl.
    destruct (performApiCall_sends host server (split_comma_1 result) (type file)
                (value docTypeInput) (trim (value input)) w Hpage) as (w4 & Htr & Hin).
    apply (callback_within no_fetch) in Hin; [|reflexivity].
    destruct (within_trace _ _ _ Hin) as (rest & Hrest & Hnone).
    exists rest. rewrite Hrest. simpl. rewrite Htr, <- app_assoc.
    split; [reflexivity | by apply count_none].
Qed.

(** ** Fetching the key *)

Lemma try_catch_log_normal (m : M unit) (w : World) :
  exists w', try_catch m (fun e => log (EvConsoleError e)) w = (Normal tt, w').
Proof.
  unfold try_catch. destruct (m w) as [[[]|e] w1]; eauto.
Qed.

(** C1, amended: [getOrCreateAPIKey] never throws.  A response that is ok
    and carries a non-empty masked_key is rendered by [updateDashboardUI].
    A 404 response whose body is JSON makes it call [createNewKey], which
    first sends the signup request with plan 'free'.  What is thrown on
    the way (no token, no network, a body that is not JSON, null as the
    body of an ok response) is caught and logged with [console.error].
    Every other response - a status other than 404 that is not ok, or an
    ok response without masked_key - is dropped in silence: nothing is
    logged, nothing rendered, no key created. *)
Theorem getOrCreateAPIKey_outcomes (host : Host)
    (server : list Event -> Request -> FetchOutcome) (user : User) (w : World) :
  let result := getOrCreateAPIKey host server user w in
  let logged (e : JSError) (w0 : World) := (Normal tt, emit (EvConsoleError e) w0) in
  (exists w', result = (Normal tt, w')) /\
  (forall e, getIdToken user = inl e -> result = logged e w) /\
  (forall idToken, getIdToken user = inr idToken ->
     let w1 := emit (EvFetch (keyRequest idToken)) w in
     (forall e, server (trace w) (keyRequest idToken) = Rejects e -> result = logged e w1) /\
     (forall r, server (trace w) (keyRequest idToken) = Responds r ->
        (body r = Malformed ->
           result = logged (SyntaxError "Unexpected token in JSON") w1) /\
        (ok r = true -> body r = JsonNull ->
           result = logged (TypeError "Cannot read properties of null") w1) /\
        (forall d, ok r = true -> body r = JsonObject d -> truthy_str (masked_key d) = true ->
           result = try_catch (updateDashboardUI host d)
                              (fun e => log (EvConsoleError e)) w1 /\
           (page_has dashboardIds w = true ->
              exists w', result = (Normal tt, w') /\
                trace w' = trace w1 /\ localStorage w' = localStorage w /\
                value <$> document w' !! "apiKeyDisplay" =
                  Some (to_DOMString (masked_key d)))) /\
        (status r = 404 -> body r <> Malformed ->
           result = try_catch (createNewKey server idToken (email user))
                              (fun e => log (EvConsoleError e)) w1 /\
           let signup :=
             mkRequest "POST" (API_URL ++ "/api/v1/signup")
               [("Content-Type", "application/json");
                ("Authorization", "Bearer " ++ idToken)]
               (Some (SignupPayload (email user) "free")) in
           exists rest, trace (snd result) = (trace w1 ++ EvFetch signup :: rest)%list) /\
        (status r <> 404 ->
         (ok r = false /\ body r <> Malformed) \/
         (exists d, body r = JsonObject d /\ truthy_str (masked_key d) = false) ->
           result = (Normal tt, w1)))).
Proof.
  intros result logged. split; [apply try_catch_log_normal|]. split.
  - intros e He. unfold result, getOrCreateAPIKey.
    erewrite try_catch_bind_throw
      by (unfold user_getIdToken; rewrite He; reflexivity).
    reflexivity.
  - intros idToken Htok w1.
    assert (Hstart : forall k,
      try_catch (bind (user_getIdToken user) k) (fun e => log (EvConsoleError e)) w =
      try_catch (k idToken) (fun e => log (EvConsoleError e)) w).
    { intros k. apply try_catch_bind_run. unfold user_getIdToken. by rewrite Htok. }
    split.
    + intros e He. unfold result, getOrCreateAPIKey. rewrite Hstart.
      erewrite try_catch_bind_throw by (unfold fetch; rewrite He; reflexivity).
      reflexivity.
    + intros r Hr.
      assert (Hfetch : forall k,
        try_catch (bind (fetch server (keyRequest idToken)) k)
                  (fun e => log (EvConsoleError e)) w =
        try_catch (k r) (fun e => log (EvConsoleError e)) w1).
      { intros k. apply try_catch_bind_run. unfold fetch. by rewrite Hr. }
      unfold result, getOrCreateAPIKey. rewrite Hstart, Hfetch.
      split; [|split; [|split; [|split]]].
      * intros Hbody.
        erewrite try_catch_bind_throw by (unfold json; rewrite Hbody; reflexivity).
        reflexivity.
      * intros Hok Hbody.
        erewrite try_catch_bind_run by (unfold json; rewrite Hbody; reflexivity).
        cbv zeta. rewrite Hok.
        erewrite try_catch_bind_throw by reflexivity. reflexivity.
      * intros d Hok Hbody Hmasked.
        erewrite try_catch_bind_run by (unfold json; rewrite Hbody; reflexivity).
        cbv zeta. rewrite Hok.
        erewrite try_catch_bind_run by reflexivity. rewrite Hmasked.
        split; [reflexivity|]. intros Hpage.
        destruct (updateDashboardUI_renders host d w1 Hpage)
          as (w' & Hrun & Htr & Hls & (e & He & Hv) & _).
        exists w'. unfold try_catch. rewrite Hrun.
        split; [reflexivity|]. split; [exact Htr|]. split; [exact Hls|].
        rewrite He. simpl. by rewrite Hv.
      * intros Hstatus Hbody.
        assert (ok r = false) as Hok by (unfold ok; rewrite Hstatus; reflexivity).
        assert (exists data, json r w1 = (Normal data, w1)) as [data Hjson].
        { unfold json. destruct (body r); [contradiction | eauto | eauto]. }
        erewrite try_catch_bind_run by exact Hjson.
        cbv zeta. rewrite Hok, Hstatus. simpl (404 =? 404). cbv iota.
        split; [reflexivity|].
        unfold createNewKey.
        match goal with
        | |- context [try_catch (bind (fetch server ?rq) ?k) ?h w1] =>
            destruct (within_trace anything _ _
                        (fetch_then anything server rq k h w1
                           ltac:(intros ?; unfold revealNewKey; confine)
                           ltac:(intros ?; confine)))
              as (rest & Hrest & _)
        end.
        exists rest. rewrite Hrest. simpl. by rewrite <- app_assoc.
      * intros Hstatus Hother.
        assert ((status r =? 404) = false) as Hs by lia.
        destruct Hother as [[Hok Hbody]|(d & Hbody & Hmasked)].
        -- assert (exists data, json r w1 = (Normal data, w1)) as [data Hjson].
           { unfold json. destruct (body r); [contradiction | eauto | eauto]. }
           erewrite try_catch_bind_run by exact Hjson.
           cbv zeta. by rewrite Hok, Hs.
        -- erewrite try_catch_bind_run by (unfold json; rewrite Hbody; reflexivity).
           cbv zeta. rewrite Hs. destruct (ok r); [|reflexivity].
           erewrite try_catch_bind_run by reflexivity. by rewrite Hmasked.
Qed.

(** ** Rotating the key *)

Lemma within_no_rotation (w w' : World) :
  within no_rotation w w' ->
  prompt_open w' = prompt_open w /\
  count is_rotation (trace w') = count is_rotation (trace w).
Proof.
  intros (Hdoc & (new & Htr & Hnew) & _). split.
  - unfold prompt_open. by rewrite Hdoc.
  - rewrite Htr, count_app, (count_none _ _ Hnew). lia.
Qed.

Lemma other_actions_confined (host : Host)
    (server : list Event -> Request -> FetchOutcome) (a : Action) :
  is_RotateKey a = false -> is_ConfirmRotate a = false -> a <> CloseRotateModal ->
  confined no_rotation (run host server a).
Proof.
  intros H1 H2 H3.
  destruct a as [user| |h|files| | | |]; try discriminate; try contradiction;
    unfold run, onAuthStateChanged, getOrCreateAPIKey, createNewKey, updateDashboardUI,
      updatePlanCards, renderPlanCard, revealNewKey, click, upgradePlan, openPortal,
      handleFileSelection, triggerExtraction, performApiCall, showToast, signOut;
    confine.
Qed.

Lemma rotateKey_opens (w : World) :
  within (elements_only ["rotateModal"]) w (snd (rotateKey w)) /\
  forall modal, document w !! "rotateModal" = Some modal ->
    rotateKey w =
      (Normal tt,
       set_document (<["rotateModal" := classList_remove ["hidden"] modal]> (document w)) w).
Proof.
  split.
  - assert (confined (elements_only ["rotateModal"]) rotateKey) as H
      by (unfold rotateKey; confine).
    apply H.
  - intros modal Hmodal. by apply update_Some.
Qed.

Lemma closeRotateModal_closes (w : World) :
  prompt_open (snd (closeRotateModal w)) = false /\
  trace (snd (closeRotateModal w)) = trace w.
Proof.
  unfold closeRotateModal, update, prompt_open.
  destruct (document w !! "rotateModal") as [modal|] eqn:Hm; simpl.
  - rewrite lookup_insert_eq. split; [|reflexivity].
    apply bool_decide_eq_false. intros Hnot. apply Hnot.
    apply classList_add_elem. right. by left.
  - by rewrite Hm.
Qed.

(** [confirmRotate] closes the prompt and sends at most one request to the
    regenerate-key endpoint. *)
Lemma confirmRotate_once (server : list Event -> Request -> FetchOutcome) (w : World) :
  let w' := snd (confirmRotate server w) in
  prompt_open w' = false /\
  (count is_rotation (trace w') <= count is_rotation (trace w) + 1)%nat /\
  (forall modal u idToken,
     document w !! "rotateModal" = Some modal ->
     currentUser w = Some u -> getIdToken u = inr idToken ->
     exists rest,
       trace w' = (trace w ++ EvFetch (regenerateRequest idToken) :: rest)%list /\
       count is_rotation rest = 0%nat).
Proof.
  intros w'. subst w'.
  remember (confirmRotate server w) as res eqn:Hres. unfold confirmRotate in Hres.
  destruct (closeRotateModal_closes w) as [Hclosed Htrace].
  destruct (closeRotateModal w) as [[[]|e] w1] eqn:Hclose; simpl in Hclosed, Htrace.
  - rewrite (bind_run _ _ _ _ _ Hclose) in Hres.
    unfold bind at 1, read_world at 1 in Hres. cbv beta iota in Hres.
    assert (Huser : currentUser w1 = currentUser w).
    { unfold closeRotateModal, update in Hclose.
      destruct (document w !! "rotateModal"); [|discriminate Hclose].
      injection Hclose as <-. reflexivity. }
    rewrite Huser in Hres.
    destruct (currentUser w) as [u|] eqn:Hu.
    + destruct (getIdToken u) as [e|idToken] eqn:Htok.
      * erewrite try_catch_bind_throw in Hres
          by (unfold user_getIdToken; rewrite Htok; reflexivity).
        cbv beta in Hres. subst res.
        assert (confined no_rotation (showToast (message e) "error")) as Hc
          by (unfold showToast; confine).
        destruct (within_no_rotation _ _ (Hc w1)) as [Hp Hn].
        split; [congruence|]. split; [rewrite Hn, Htrace; lia|].
        intros modal u' idToken _ [= <-] Htok'. congruence.
      * erewrite try_catch_bind_run in Hres
          by (unfold user_getIdToken; rewrite Htok; reflexivity).
        subst res.
        match goal with
        | |- context [try_catch (bind (fetch server ?rq) ?k) ?h w1] =>
            pose proof (fetch_then no_rotation server rq k h w1
                          ltac:(intros ?; unfold revealNewKey, showToast; confine)
                          ltac:(intros ?; unfold showToast; confine)) as Hin
        end.
        destruct (within_no_rotation _ _ Hin) as [Hp Hn].
        destruct (within_trace _ _ _ Hin) as (rest & Hrest & Hnone).
        split; [exact (eq_trans Hp Hclosed)|].
        split.
        { rewrite Hn. simpl. rewrite count_app, Htrace. unfold count at 2. simpl. lia. }
        intros modal u' idToken' _ [= <-] Htok'.
        assert (idToken' = idToken) as -> by congruence.
        exists rest. rewrite Hrest. simpl. rewrite Htrace, <- app_assoc.
        split; [reflexivity | by apply count_none].
    + erewrite try_catch_bind_throw in Hres by reflexivity.
      cbv beta in Hres. subst res.
      assert (confined no_rotation
                (showToast (message (TypeError "Cannot read properties of null")) "error"))
        as Hc by (unfold showToast; confine).
      destruct (within_no_rotation _ _ (Hc w1)) as [Hp Hn].
      split; [congruence|]. split; [rewrite Hn, Htrace; lia|].
      intros modal u' idToken _ Hu'. discriminate Hu'.
  - unfold bind in Hres. rewrite Hclose in Hres. subst res. simpl.
    split; [exact Hclosed|]. split; [rewrite Htrace; lia|].
    intros modal u idToken Hmodal _ _.
    unfold closeRotateModal in Hclose. rewrite (update_Some _ _ _ _ Hmodal) in Hclose.
    discriminate Hclose.
Qed.

Lemma session_counts (host : Host) (server : list Event -> Request -> FetchOutcome)
    (acts : list Action) :
  forall w w', session host server acts w = Some w' ->
    (count is_rotation (trace w') <=
       count is_rotation (trace w) + count is_ConfirmRotate acts)%nat /\
    (count is_ConfirmRotate acts <=
       count is_RotateKey acts + (if prompt_open w then 1 else 0))%nat.
Proof.
  induction acts as [|a acts IH]; intros w w' Hs; simpl in Hs.
  - injection Hs as <-. unfold count. simpl. destruct (prompt_open w); lia.
  - destruct (enabled a w) eqn:Hen; [|discriminate Hs].
    destruct (IH _ _ Hs) as [Hreq Hconf]. clear IH Hs.
    set (w1 := snd (run host server a w)) in *.
    change (a :: acts) with ([a] ++ acts)%list. rewrite !count_app.
    destruct (is_RotateKey a) eqn:Hr; [|destruct (is_ConfirmRotate a) eqn:Hc].
    + destruct a; try discriminate Hr.
      destruct (rotateKey_opens w) as [Hin _].
      destruct (within_trace _ _ _ Hin) as (new & Hnew & Hnone).
      fold (run host server RotateKey w) in Hnew. fold w1 in Hnew.
      destruct new as [|ev new]; [|discriminate Hnone]. rewrite app_nil_r in Hnew.
      rewrite Hnew in Hreq. rewrite !count_single. simpl.
      split; [lia|]. destruct (prompt_open w1), (prompt_open w); lia.
    + destruct a; try discriminate Hc. simpl in Hen.
      destruct (confirmRotate_once server w) as (Hclosed & Hone & _).
      fold (run host server ConfirmRotate w) in Hclosed, Hone. fold w1 in Hclosed, Hone.
      rewrite Hclosed in Hconf. rewrite Hen. rewrite !count_single. simpl.
      split; lia.
    + assert (a = CloseRotateModal \/ a <> CloseRotateModal) as Hclose
        by (destruct a; (by left) || (by right)).
      assert (prompt_open w1 = false \/ prompt_open w1 = prompt_open w) as Hp.
      { destruct Hclose as [->|Hne].
        - left. apply closeRotateModal_closes.
        - right. apply within_no_rotation.
          by apply other_actions_confined. }
      assert (count is_rotation (trace w1) = count is_rotation (trace w)) as Hn.
      { destruct Hclose as [->|Hne].
        - unfold w1. simpl. by rewrite (proj2 (closeRotateModal_closes w)).
        - apply within_no_rotation. by apply other_actions_confined. }
      rewrite !count_single, Hr, Hc. simpl.
      split; [lia|].
      destruct Hp as [Hp|Hp]; rewrite Hp in Hconf; destruct (prompt_open w); lia.
Qed.

(** C7: [rotateKey] only shows the confirmation prompt: it sends nothing
    and writes nothing else.  Of the entry points only [confirmRotate]
    adds a request to the regenerate-key endpoint to the trace, and it
    adds one.  In every session that starts with the prompt
    closed, the requests to that endpoint are at most the confirmations,
    and the confirmations at most the openings of the prompt; a session's
    prefixes are sessions, so this holds at every moment. *)
Theorem rotation_needs_confirmation (host : Host)
    (server : list Event -> Request -> FetchOutcome) :
  (forall w,
     trace (snd (rotateKey w)) = trace w /\
     localStorage (snd (rotateKey w)) = localStorage w /\
     (forall id, id <> "rotateModal" ->
        document (snd (rotateKey w)) !! id = document w !! id) /\
     (forall modal, document w !! "rotateModal" = Some modal ->
        rotateKey w =
          (Normal tt,
           set_document
             (<["rotateModal" := classList_remove ["hidden"] modal]> (document w)) w))) /\
  (forall a w, is_ConfirmRotate a = false ->
     count is_rotation (trace (snd (run host server a w))) =
     count is_rotation (trace w)) /\
  (forall w modal u idToken,
     document w !! "rotateModal" = Some modal ->
     currentUser w = Some u -> getIdToken u = inr idToken ->
     exists rest,
       trace (snd (confirmRotate server w)) =
         (trace w ++ EvFetch (regenerateRequest idToken) :: rest)%list /\
       count is_rotation rest = 0%nat) /\
  (forall acts w w',
     prompt_open w = false -> session host server acts w = Some w' ->
     (count is_rotation (trace w') <=
        count is_rotation (trace w) + count is_ConfirmRotate acts)%nat /\
     (count is_ConfirmRotate acts <= count is_RotateKey acts)%nat).
Proof.
  split; [|split; [|split]].
  - intros w. destruct (rotateKey_opens w) as [(Hdoc & (new & Hnew & Hnone) & Hls & _) Hrun].
    destruct new as [|ev new]; [|discriminate Hnone]. rewrite app_nil_r in Hnew.
    split; [exact Hnew|]. split; [by apply Hls|]. split; [|exact Hrun].
    intros id Hid. apply Hdoc. simpl.
    destruct (String.eqb_spec id "rotateModal"); [contradiction | reflexivity].
  - intros a w Hc.
    assert (a = RotateKey \/ a = CloseRotateModal \/
            (is_RotateKey a = false /\ a <> CloseRotateModal)) as [->|[->|[Hr Hne]]]
      by (destruct a; try discriminate Hc; auto; right; right; split;
          (reflexivity || discriminate)).
    + destruct (rotateKey_opens w) as [Hin _].
      destruct (within_trace _ _ _ Hin) as (new & Hnew & Hnone).
      destruct new as [|ev new]; [|discriminate Hnone]. rewrite app_nil_r in Hnew.
      simpl. by rewrite Hnew.
    + simpl. by rewrite (proj2 (closeRotateModal_closes w)).
    + apply within_no_rotation. by apply other_actions_confined.
  - intros w modal u idToken Hmodal Hu Htok.
    destruct (confirmRotate_once server w) as (_ & _ & H).
    exact (H modal u idToken Hmodal Hu Htok).
  - intros acts w w' Hclosed Hs.
    destruct (session_counts host server acts w w' Hs) as [Hreq Hconf].
    rewrite Hclosed in Hconf. split; [exact Hreq | lia].
Qed.

(** ** The theorems at sample inputs *)

Lemma getOrCreateAPIKey_silent_on_500 :
  ok serverError = false /\ status serverError = 500 /\
  getOrCreateAPIKey sampleHost (respond serverError) sampleUser sampleWorld =
    (Normal tt, emit (EvFetch (keyRequest "token-1")) sampleWorld) /\
  count is_console_error
    (trace (snd (getOrCreateAPIKey sampleHost (respond serverError)
                   sampleUser sampleWorld))) = 0%nat.
Proof. repeat split. Qed.

Lemma getOrCreateAPIKey_outcomes_witness :
  exists rest,
    trace (snd (getOrCreateAPIKey sampleHost firstVisitServer sampleUser sampleWorld)) =
      EvFetch (keyRequest "token-1") ::
      EvFetch (signupRequest "token-1" "ada@example.org") :: rest.
Proof.
  destruct (getOrCreateAPIKey_outcomes sampleHost firstVisitServer sampleUser sampleWorld)
    as (_ & _ & Htoken).
  destruct (Htoken "token-1" eq_refl) as (_ & Hresponds).
  destruct (Hresponds _ eq_refl) as (_ & _ & _ & Hcreate & _).
  destruct (Hcreate eq_refl) as [_ Hrest]; [discriminate|].
  exact Hrest.
Defined.

Lemma triggerExtraction_ignores_docType :
  currentSelectedFile typelessWorld = Some sampleFile /\
  value <$> document typelessWorld !! "docTypeInput" = Some "" /\
  trace (snd (triggerExtraction sampleHost (respond newKeyResponse) typelessWorld)) =
    [EvFetch (extractRequest (Some "iVBORw0KGgo=") "image/png" ""
                             "rk_live_5d41402abc4b2a76")].
Proof. repeat split; vm_compute; reflexivity. Qed.

Lemma triggerExtraction_guard_witness :
  currentSelectedFile
    (snd (triggerExtraction sampleHost (respond newKeyResponse) typelessWorld)) =
  Some sampleFile.
Proof.
  exact (proj1 (triggerExtraction_guard sampleHost (respond newKeyResponse)
                  typelessWorld sampleFile eq_refl)).
Defined.

Lemma zero_limit_not_displayed :
  limit zeroLimitKey = Some 0%Q /\
  toLocaleString sampleHost (VNum 0) = "0" /\
  textContent <$>
    document (snd (updateDashboardUI sampleHost zeroLimitKey sampleWorld))
      !! "requestsLimit" = Some "50".
Proof. repeat split; vm_compute; reflexivity. Qed.

Lemma displayed_limit_resolution_witness :
  exists w',
    updateDashboardUI sampleHost reportedKey sampleWorld = (Normal tt, w') /\
    textContent <$> document w' !! "requestsLimit" =
      Some (toLocaleString sampleHost (VNum 200)).
Proof.
  destruct (displayed_limit_resolution sampleHost reportedKey sampleWorld eq_refl)
    as (w' & shown & Hrun & Htext & Hsupplied & _).
  exists w'. split; [exact Hrun|].
  rewrite Htext. rewrite (Hsupplied 200%Q eq_refl); [reflexivity|].
  intros H. apply Qeq_bool_iff in H. discriminate H.
Defined.

Lemma updatePlanCards_marks_cards_witness :
  exists w',
    updatePlanCards "pro" sampleWorld = (Normal tt, w') /\
    is_downgrade (cardAction w' "free") = true /\
    is_current (cardAction w' "pro") = true /\
    is_upgrade "enterprise" (cardAction w' "enterprise") = true.
Proof.
  destruct (updatePlanCards_marks_cards (respond newKeyResponse) "pro" sampleWorld)
    as (w' & manage & Hrun & _ & Hcards & _).
  { simpl. tauto. }
  { reflexivity. }
  exists w'. split; [exact Hrun|].
  split; [|split].
  - apply (Hcards "free"); [simpl; tauto | reflexivity].
  - apply (Hcards "pro"); [simpl; tauto | reflexivity].
  - apply (Hcards "enterprise"); [simpl; tauto | reflexivity].
Defined.


Lemma new_key_revealed_witness :
  exists w',
    createNewKey (respond newKeyResponse) "token-1" "ada@example.org" sampleWorld =
      (Normal tt, w') /\
    revealed "rk_live_5d41402abc4b2a76" w'.
Proof.
  destruct (new_key_revealed (respond newKeyResponse) sampleWorld newKeyResponse newKey
              "rk_live_5d41402abc4b2a76" eq_refl eq_refl eq_refl) as [Hcreate _].
  { discriminate. }
  destruct (Hcreate "token-1" "ada@example.org" eq_refl) as (w' & Hrun & _ & Hrev).
  exists w'. auto.
Defined.

Lemma file_size_guard_witness :
  currentSelectedFile
    (snd (handleFileSelection [mkFile (10 * 1024 * 1024 + 1) "application/pdf" None]
            sampleWorld)) = None /\
  currentSelectedFile
    (snd (handleFileSelection [mkFile (10 * 1024 * 1024) "application/pdf" None]
            sampleWorld)) = Some (mkFile (10 * 1024 * 1024) "application/pdf" None).
Proof.
  split.
  - apply (file_size_guard (mkFile (10 * 1024 * 1024 + 1) "application/pdf" None) []
             sampleWorld).
    simpl. lia.
  - apply (file_size_guard (mkFile (10 * 1024 * 1024) "application/pdf" None) []
             sampleWorld).
    reflexivity.
Defined.


Lemma rotation_needs_confirmation_witness :
  exists w',
    session sampleHost (respond newKeyResponse) [RotateKey; ConfirmRotate] sampleWorld
      = Some w' /\
    (count is_rotation (trace w') <= 1)%nat.
Proof.
  destruct (session sampleHost (respond newKeyResponse) [RotateKey; ConfirmRotate]
              sampleWorld) as [w'|] eqn:Hsession.
  - exists w'. split; [reflexivity|].
    destruct (rotation_needs_confirmation sampleHost (respond newKeyResponse))
      as (_ & _ & _ & Hsessions).
    destruct (Hsessions [RotateKey; ConfirmRotate] sampleWorld w' eq_refl Hsession)
      as [Hrequests _].
    exact Hrequests.
  - vm_compute in Hsession. discriminate Hsession.
Defined.

(** The three resolutions the specification names. *)
Example limit_from_server :
  textContent <$>
    document (snd (updateDashboardUI sampleHost reportedKey sampleWorld))
      !! "requestsLimit" = Some "200".
Proof. vm_compute. reflexivity. Qed.

Example limit_from_plan :
  textContent <$>
    document (snd (updateDashboardUI sampleHost
                     (mkData (Some "rk_••••••••3f9a") (Some "pro") None None
                             None None None None) sampleWorld))
      !! "requestsLimit" = Some "5000".
Proof. vm_compute. reflexivity. Qed.

Example limit_from_nothing :
  textContent <$>
    document (snd (updateDashboardUI sampleHost
                     (mkData (Some "rk_••••••••3f9a") None None None
                             None None None None) sampleWorld))
      !! "requestsLimit" = Some "50".
Proof. vm_compute. reflexivity. Qed.

(** The scenario of a first visit: the key is not found, the signup
    request follows, and the new key is revealed. *)
Example first_visit_creates_key :
  let w' := snd (getOrCreateAPIKey sampleHost firstVisitServer sampleUser sampleWorld) in
  trace w' = [ EvFetch (keyRequest "token-1");
               EvFetch (signupRequest "token-1" "ada@example.org") ] /\
  payload (signupRequest "token-1" "ada@example.org") =
    Some (SignupPayload "ada@example.org" "free") /\
  localStorage w' !! "receiptApiKey" = Some "rk_live_5d41402abc4b2a76" /\
  value <$> document w' !! "apiKeyDisplay" = Some "rk_live_5d41402abc4b2a76".
Proof. repeat split; vm_compute; reflexivity. Qed.

(** A plan that names an inherited member resolves to that member, not to
    a number. *)
Example limit_of_inherited_plan :
  resolveLimit (mkData None (Some "constructor") None None None None None None)
               "constructor" = VMember "constructor".
Proof. reflexivity. Qed.

Example file_at_the_ceiling :
  currentSelectedFile
    (snd (handleFileSelection [mkFile (10 * 1024 * 1024) "application/pdf" None]
            sampleWorld)) =
  Some (mkFile (10 * 1024 * 1024) "application/pdf" None).
Proof. vm_compute. reflexivity. Qed.

Example file_above_the_ceiling :
  currentSelectedFile
    (snd (handleFileSelection [mkFile (10 * 1024 * 1024 + 1) "application/pdf" None]
            sampleWorld)) = None.
Proof. vm_compute. reflexivity. Qed.

Example masked_key_is_refused : includes "••••" (trim " rk_••••••••3f9a ") = true.
Proof. reflexivity. Qed.

Example trim_example : trim "  rk_live_1 " = "rk_live_1".
Proof. reflexivity. Qed.

(** Confirming without the prompt on screen is not a session. *)
Example confirm_needs_prompt :
  session sampleHost (respond newKeyResponse) [ConfirmRotate] sampleWorld = None.
Proof. vm_compute. reflexivity. Qed.

Example rotate_then_confirm :
  option_map (fun w => count is_rotation (trace w))
    (session sampleHost (respond newKeyResponse) [RotateKey; ConfirmRotate] sampleWorld)
  = Some 1%nat.
Proof. vm_compute. reflexivity. Qed.

(** * More of the script *)

(** ** Invariants compose *)

Section Preservation.

Context (P : World -> Prop).
Context (P_document : forall w id e,
           is_Some (document w !! id) -> P w ->
           P (set_document (<[id := e]> (document w)) w)).
Context (P_emit : forall w ev, P w -> P (emit ev w)).

Lemma preserves_ret {A : Type} (a : A) : preserves P (ret a).
Proof. intros w H. exact H. Qed.

Lemma preserves_throw {A : Type} (e : JSError) : preserves P (@throw A e).
Proof. intros w H. exact H. Qed.

Lemma preserves_bind {A B : Type} (m : M A) (k : A -> M B) :
  preserves P m -> (forall a, preserves P (k a)) -> preserves P (bind m k).
Proof.
  intros Hm Hk w H. unfold bind. specialize (Hm w H).
  destruct (m w) as [[a|e] w1]; simpl in *; [by apply Hk | exact Hm].
Qed.

Lemma preserves_try_catch {A : Type} (m : M A) (h : JSError -> M A) :
  preserves P m -> (forall e, preserves P (h e)) -> preserves P (try_catch m h).
Proof.
  intros Hm Hh w H. unfold try_catch. specialize (Hm w H).
  destruct (m w) as [[a|e] w1]; simpl in *; [exact Hm | by apply Hh].
Qed.

Lemma preserves_try_finally {A : Type} (m : M A) (f : M unit) :
  preserves P m -> preserves P f -> preserves P (try_finally m f).
Proof.
  intros Hm Hf w H. unfold try_finally. specialize (Hm w H).
  destruct (m w) as [c w1]; simpl in *. specialize (Hf w1 Hm).
  by destruct (f w1) as [[u|e] w2].
Qed.

Lemma preserves_callback (m : M unit) : preserves P m -> preserves P (callback m).
Proof.
  intros Hm w H. unfold callback. specialize (Hm w H).
  destruct (m w) as [[u|e] w1]; simpl in *; [exact Hm | by apply P_emit].
Qed.

Lemma preserves_update (id : string) (f : Element -> Element) : preserves P (update id f).
Proof.
  intros w H. unfold update. destruct (document w !! id) as [e|] eqn:He; simpl.
  - apply P_document; [by rewrite He | exact H].
  - exact H.
Qed.

Lemma preserves_get (id : string) : preserves P (get id).
Proof. intros w H. unfold get. by destruct (document w !! id). Qed.

Lemma preserves_getElementById (id : string) : preserves P (getElementById id).
Proof. intros w H. exact H. Qed.

Lemma preserves_read_world {A : Type} (f : World -> A) : preserves P (read_world f).
Proof. intros w H. exact H. Qed.

Lemma preserves_log (ev : Event) : preserves P (log ev).
Proof. intros w H. by apply P_emit. Qed.

Lemma preserves_fetch (server : list Event -> Request -> FetchOutcome) (r : Request) :
  preserves P (fetch server r).
Proof. intros w H. unfold fetch. destruct (server (trace w) r); by apply P_emit. Qed.

Lemma preserves_json (r : Response) : preserves P (json r).
Proof. intros w H. unfold json. by destruct (body r). Qed.

Lemma preserves_object (data : option Data) : preserves P (object data).
Proof. intros w H. by destruct data. Qed.

Lemma preserves_user_getIdToken (u : User) : preserves P (user_getIdToken u).
Proof. intros w H. unfold user_getIdToken. by destruct (getIdToken u). Qed.

Lemma preserves_modify_world (f : World -> World) :
  (forall w, P w -> P (f w)) -> preserves P (modify_world f).
Proof. intros Hf w H. by apply Hf. Qed.

End Preservation.

(** Decomposes a goal [preserves P m] along [m]; [side] closes what a
    direct write to the world leaves to show. *)
Ltac preserve Hdoc Hemit side :=
  repeat first
    [ apply preserves_ret
    | apply preserves_throw
    | apply preserves_bind; [|intros ?]
    | apply preserves_try_catch; [|intros ?]
    | apply preserves_try_finally
    | apply (preserves_callback _ Hemit)
    | apply (preserves_update _ Hdoc)
    | apply preserves_get
    | apply preserves_getElementById
    | apply preserves_read_world
    | apply (preserves_log _ Hemit)
    | apply (preserves_fetch _ Hemit)
    | apply preserves_json
    | apply preserves_object
    | apply preserves_user_getIdToken
    | apply preserves_modify_world; side
    | match goal with
      | |- preserves _ (match ?x with _ => _ end) => destruct x
      end
    | progress cbv zeta
    | progress (cbn [forEach]) ].

(** Every function of the script only writes through elements: none is
    ever removed from the document. *)
Lemma has_element_document (id : string) (w : World) (id' : string) (e : Element) :
  is_Some (document w !! id') -> has_element id w ->
  has_element id (set_document (<[id' := e]> (document w)) w).
Proof.
  intros _ H. unfold has_element in *. simpl.
  destruct (decide (id' = id)) as [->|Hne].
  - rewrite lookup_insert_eq. eauto.
  - by rewrite lookup_insert_ne.
Qed.

Lemma has_element_emit (id : string) (w : World) (ev : Event) :
  has_element id w -> has_element id (emit ev w).
Proof. intros H. exact H. Qed.

Lemma run_keeps_elements (host : Host) (server : list Event -> Request -> FetchOutcome)
    (a : Action) (id : string) :
  preserves (has_element id) (run host server a).
Proof.
  destruct a as [user| |h|files| | | |];
    unfold run, onAuthStateChanged, getOrCreateAPIKey, createNewKey, updateDashboardUI,
      updatePlanCards, renderPlanCard, revealNewKey, click, upgradePlan, openPortal,
      handleFileSelection, triggerExtraction, performApiCall, showToast, signOut,
      rotateKey, closeRotateModal, confirmRotate, closeRotateModal;
    preserve (has_element_document id) (has_element_emit id) ltac:(by intros ? ?).
  all: try destruct h; unfold upgradePlan, openPortal, showToast;
    preserve (has_element_document id) (has_element_emit id) ltac:(by intros ? ?).
Qed.

(** ** The extraction call *)

(** X1: on a page that has the runner's three elements, [performApiCall]
    leaves the runner ready for the next attempt whatever the server
    does and whatever is thrown on the way: the processing indicator is
    hidden again, the results area is no longer dimmed, the button is
    enabled and labelled "Extract Data".  The selected file and local
    storage are not touched. *)
Theorem performApiCall_restores_controls (host : Host)
    (server : list Event -> Request -> FetchOutcome)
    (base64 : option string) (mime docType key : string) (w : World) :
  page_has ["processingIndicator"; "resultsArea"; "extractBtn"] w = true ->
  let w' := snd (performApiCall host server base64 mime docType key w) in
  exists indicator results btn,
    document w' !! "processingIndicator" = Some indicator /\
    ("hidden" ∈ classList indicator) /\
    document w' !! "resultsArea" = Some results /\
    ("opacity-30" ∉ classList results) /\
    document w' !! "extractBtn" = Some btn /\
    disabled btn = false /\ innerHTML btn = ExtractDataLabel /\
    currentSelectedFile w' = currentSelectedFile w /\
    localStorage w' = localStorage w.
Proof.
  intros Hpage w'.
  assert (Hframe : currentSelectedFile w' = currentSelectedFile w /\
                   localStorage w' = localStorage w).
  { assert (confined page_and_trace (performApiCall host server base64 mime docType key))
      as Hc by (unfold performApiCall, showToast; confine).
    destruct (Hc w) as (_ & _ & Hs & Hf & _). split; [by apply Hf | by apply Hs]. }
  destruct Hframe as [Hfile Hstorage].
  assert (Hpage' : exists indicator results btn,
    document w' !! "processingIndicator" = Some indicator /\
    ("hidden" ∈ classList indicator) /\
    document w' !! "resultsArea" = Some results /\
    ("opacity-30" ∉ classList results) /\
    document w' !! "extractBtn" = Some btn /\
    disabled btn = false /\ innerHTML btn = ExtractDataLabel).
  { clear Hfile Hstorage. page_elements Hpage. subst w'. unfold performApiCall.
    erewrite bind_run by (by apply update_Some).
    erewrite bind_run by (apply update_Some; simpl; by simplify_map_eq).
    erewrite bind_run by (apply update_Some; simpl; by simplify_map_eq).
    erewrite bind_run by (apply update_Some; simpl; by simplify_map_eq).
    match goal with
    | |- context [try_finally ?body ?fin ?w4] =>
        assert (Hkeep : forall id, preserves (has_element id) body)
          by (intros id; unfold showToast;
              preserve (has_element_document id) (has_element_emit id)
                       ltac:(by intros ? ?));
        assert (H1 : has_element "processingIndicator" w4)
          by (unfold has_element; simpl; by simplify_map_eq);
        assert (H2 : has_element "resultsArea" w4)
          by (unfold has_element; simpl; by simplify_map_eq);
        assert (H3 : has_element "extractBtn" w4)
          by (unfold has_element; simpl; by simplify_map_eq);
        apply (Hkeep _ w4) in H1; apply (Hkeep _ w4) in H2; apply (Hkeep _ w4) in H3;
        unfold try_finally; destruct (body w4) as [c w5]
    end.
    simpl in H1, H2, H3. destruct H1 as [i Hi], H2 as [r Hr], H3 as [b Hb].
    erewrite bind_run by (by apply update_Some).
    erewrite bind_run by (apply update_Some; simpl; by simplify_map_eq).
    erewrite bind_run by (apply update_Some; simpl; by simplify_map_eq).
    erewrite update_Some by (simpl; by simplify_map_eq).
    simpl. simplify_map_eq.
    do 3 eexists. split; [reflexivity|]. split.
    { apply classList_add_elem. right. by left. }
    split; [reflexivity|]. split.
    { rewrite classList_remove_elem. intros [_ Hn]. apply Hn. by left. }
    split; [reflexivity|]. split; reflexivity. }
  destruct Hpage' as (i & r & b & H). exists i, r, b. intuition.
Qed.

Lemma fetch_run (server : list Event -> Request -> FetchOutcome) (r : Request)
    (resp : Response) (w : World) :
  server (trace w) r = Responds resp ->
  fetch server r w = (Normal resp, emit (EvFetch r) w).
Proof. intros H. unfold fetch. by rewrite H. Qed.

Lemma fetch_rejects (server : list Event -> Request -> FetchOutcome) (r : Request)
    (e : JSError) (w : World) :
  server (trace w) r = Rejects e ->
  fetch server r w = (Throw e, emit (EvFetch r) w).
Proof. intros H. unfold fetch. by rewrite H. Qed.

(** Unfolds the script down to reads and writes of the world. *)
Ltac unfold_script :=
  unfold performApiCall, showToast, try_finally, try_catch, bind, update, get,
    getElementById, read_world, log, modify_world, fetch, json, object, ret, throw,
    set_document, emit in *.

(** X2: when the server accepts an extraction (an ok response whose body
    is JSON), [performApiCall] shows one success toast, prints the body in
    the results area and adds one to the usage count it reads off the
    page: the new text is the formatted [parseInt(text without commas) ||
    0] plus one.  Nothing but the one request is sent. *)
Theorem extraction_success_counts (host : Host)
    (server : list Event -> Request -> FetchOutcome)
    (base64 : option string) (mime docType key : string) (w : World)
    (r : Response) (count container : Element) :
  page_has ["processingIndicator"; "resultsArea"; "extractBtn"] w = true ->
  document w !! "requestCount" = Some count ->
  document w !! "toast-container" = Some container ->
  server (trace w) (extractRequest base64 mime docType key) = Responds r ->
  ok r = true -> body r <> Malformed ->
  exists w' data,
    performApiCall host server base64 mime docType key w = (Normal tt, w') /\
    json r w = (Normal data, w) /\
    trace w' = (trace w ++ [EvFetch (extractRequest base64 mime docType key)])%list /\
    textContent <$> document w' !! "requestCount" =
      Some (toLocaleString host (VNum (currentCount host (textContent count) + 1))) /\
    textContent <$> document w' !! "resultsArea" = Some (JSON_stringify host data) /\
    children <$> document w' !! "toast-container" =
      Some (children container ++ [successToast "Extraction Successful!"])%list.
Proof.
  intros Hpage Hcount Hcontainer Hserver Hok Hbody. page_elements Hpage.
  destruct w as [doc ls cu sf tr]. simpl in *.
  assert (exists data, body r = match data with Some d => JsonObject d | None => JsonNull end)
    as [data Hdata].
  { destruct (body r) as [| |d]; [contradiction | by exists None | by exists (Some d)]. }
  eexists _, data. unfold_script. simpl. simplify_map_eq.
  rewrite Hserver. simpl. rewrite Hdata, Hok.
  destruct data; simpl; simplify_map_eq; simpl; simplify_map_eq;
    (split; [reflexivity|]); (split; [reflexivity|]); simpl; simplify_map_eq;
    repeat split.
Qed.

(** X3: when the server refuses an extraction (a response that is not ok,
    with a JSON object as body), [performApiCall] shows one error toast
    with the body's detail, or "Extraction Failed" when the detail is
    absent or empty, prints the body in the results area and leaves the
    usage count alone. *)
Theorem extraction_refusal_reports (host : Host)
    (server : list Event -> Request -> FetchOutcome)
    (base64 : option string) (mime docType key : string) (w : World)
    (r : Response) (d : Data) (container : Element) :
  page_has ["processingIndicator"; "resultsArea"; "extractBtn"] w = true ->
  document w !! "toast-container" = Some container ->
  server (trace w) (extractRequest base64 mime docType key) = Responds r ->
  ok r = false -> body r = JsonObject d ->
  exists w',
    performApiCall host server base64 mime docType key w = (Normal tt, w') /\
    trace w' = (trace w ++ [EvFetch (extractRequest base64 mime docType key)])%list /\
    document w' !! "requestCount" = document w !! "requestCount" /\
    textContent <$> document w' !! "resultsArea" = Some (JSON_stringify host (Some d)) /\
    children <$> document w' !! "toast-container" =
      Some (children container ++ [errorToast (or_str (detail d) "Extraction Failed")])%list.
Proof.
  intros Hpage Hcontainer Hserver Hok Hbody. page_elements Hpage.
  destruct w as [doc ls cu sf tr]. simpl in *.
  eexists. unfold_script. simpl. simplify_map_eq.
  rewrite Hserver. simpl. rewrite Hbody, Hok.
  simpl; simplify_map_eq; simpl; simplify_map_eq.
  split; [reflexivity|]. simpl. simplify_map_eq. repeat split.
Qed.

(** X4: whatever is thrown while calling the server is reported as a
    network error: a rejected request, but also a body that is not JSON
    (even on an ok response) and [null] as the body of a refusal.
    [performApiCall] then shows the one toast "Network Error", writes
    "Error: " and the message into the results area, and leaves the usage
    count alone. *)
Theorem extraction_error_reports (host : Host)
    (server : list Event -> Request -> FetchOutcome)
    (base64 : option string) (mime docType key : string) (w : World)
    (e : JSError) (container : Element) :
  page_has ["processingIndicator"; "resultsArea"; "extractBtn"] w = true ->
  document w !! "toast-container" = Some container ->
  let request := extractRequest base64 mime docType key in
  server (trace w) request = Rejects e \/
  (exists r, server (trace w) request = Responds r /\ body r = Malformed /\
             e = SyntaxError "Unexpected token in JSON") \/
  (exists r, server (trace w) request = Responds r /\ ok r = false /\
             body r = JsonNull /\ e = TypeError "Cannot read properties of null") ->
  exists w',
    performApiCall host server base64 mime docType key w = (Normal tt, w') /\
    trace w' = (trace w ++ [EvFetch request])%list /\
    document w' !! "requestCount" = document w !! "requestCount" /\
    textContent <$> document w' !! "resultsArea" = Some ("Error: " ++ message e) /\
    children <$> document w' !! "toast-container" =
      Some (children container ++ [errorToast "Network Error"])%list.
Proof.
  intros Hpage Hcontainer request Hthrown. page_elements Hpage.
  destruct w as [doc ls cu sf tr]. simpl in *.
  eexists. unfold_script. simpl. simplify_map_eq.
  destruct Hthrown as [Hserver|[(r & Hserver & Hbody & ->)|(r & Hserver & Hok & Hbody & ->)]];
    fold request; rewrite Hserver; simpl; rewrite ?Hbody, ?Hok;
    simpl; simplify_map_eq; simpl; simplify_map_eq;
    (split; [reflexivity|]); simpl; simplify_map_eq; repeat split.
Qed.

(** ** Checkout and billing portal *)

Ltac unfold_billing :=
  unfold upgradePlan, openPortal, user_getIdToken, showToast, try_catch, bind, update,
    read_world, log, modify_world, fetch, json, object, ret, throw, set_document, emit in *.

(** X5: [upgradePlan] asks a visitor who is not signed in to sign in and
    sends nothing.  Signed in, it navigates to the checkout URL only when
    the response is ok and carries one; a refusal shows its detail, or
    "Checkout failed", even when it carries a checkout URL; a rejected
    request shows the error's message.  It never both navigates and
    shows a toast. *)
Theorem upgradePlan_outcomes (server : list Event -> Request -> FetchOutcome)
    (plan : string) (w : World) (container : Element) :
  document w !! "toast-container" = Some container ->
  let toasted (msg : string) (w0 : World) :=
    (Normal tt,
     set_document
       (<["toast-container" := appendChild (errorToast msg) container]> (document w0)) w0) in
  (currentUser w = None ->
     upgradePlan server plan w = toasted "Please sign in first" w) /\
  (forall u idToken,
     currentUser w = Some u -> getIdToken u = inr idToken ->
     let w1 := emit (EvFetch (checkoutRequest idToken plan)) w in
     (forall e, server (trace w) (checkoutRequest idToken plan) = Rejects e ->
        upgradePlan server plan w = toasted (message e) w1) /\
     (forall r, server (trace w) (checkoutRequest idToken plan) = Responds r ->
        (forall d href,
           ok r = true -> body r = JsonObject d ->
           checkout_url d = Some href -> href <> "" ->
           upgradePlan server plan w = (Normal tt, emit (EvNavigate href) w1)) /\
        (forall d,
           body r = JsonObject d -> ok r = false \/ truthy_str (checkout_url d) = false ->
           upgradePlan server plan w = toasted (or_str (detail d) "Checkout failed") w1))).
Proof.
  intros Hcontainer toasted. destruct w as [doc ls cu sf tr]. simpl in *. split.
  - intros Hcu. subst cu. unfold_billing. simpl. by rewrite Hcontainer.
  - intros u idToken Hcu Htok. subst cu. split; [|intros r Hserver; split].
    + intros e Hserver. unfold_billing. simpl. rewrite Htok. simpl.
      rewrite Hserver. simpl. by rewrite Hcontainer.
    + intros d href Hok Hbody Hurl Hne. unfold_billing. simpl. rewrite Htok. simpl.
      rewrite Hserver. simpl. rewrite Hbody, Hok, Hurl. simpl.
      apply String.eqb_neq in Hne. by rewrite Hne.
    + intros d Hbody Hno. unfold_billing. simpl. rewrite Htok. simpl.
      rewrite Hserver. simpl. rewrite Hbody.
      destruct Hno as [Hok|Hurl].
      * rewrite Hok. simpl. by rewrite Hcontainer.
      * destruct (ok r); simpl; rewrite ?Hurl; simpl; by rewrite Hcontainer.
Qed.

(** X6: [openPortal] navigates to the portal URL whenever the body of the
    response carries one, whatever the status of the response.  Without
    a URL it shows the body's detail, or "Error opening portal".  A
    visitor who is not signed in gets an error toast and nothing is
    sent. *)
Theorem openPortal_outcomes (server : list Event -> Request -> FetchOutcome)
    (w : World) (container : Element) :
  document w !! "toast-container" = Some container ->
  let toasted (msg : string) (w0 : World) :=
    (Normal tt,
     set_document
       (<["toast-container" := appendChild (errorToast msg) container]> (document w0)) w0) in
  (currentUser w = None -> exists msg, openPortal server w = toasted msg w) /\
  (forall u idToken r d,
     currentUser w = Some u -> getIdToken u = inr idToken ->
     server (trace w) (portalRequest idToken) = Responds r -> body r = JsonObject d ->
     let w1 := emit (EvFetch (portalRequest idToken)) w in
     (forall href, url d = Some href -> href <> "" ->
        openPortal server w = (Normal tt, emit (EvNavigate href) w1)) /\
     (truthy_str (url d) = false ->
        openPortal server w = toasted (or_str (detail d) "Error opening portal") w1)).
Proof.
  intros Hcontainer toasted. destruct w as [doc ls cu sf tr]. simpl in *. split.
  - intros Hcu. subst cu. eexists. unfold_billing. simpl. by rewrite Hcontainer.
  - intros u idToken r d Hcu Htok Hserver Hbody. subst cu. split.
    + intros href Hurl Hne. unfold_billing. simpl. rewrite Htok. simpl.
      rewrite Hserver. simpl. rewrite Hbody, Hurl. simpl.
      apply String.eqb_neq in Hne. by rewrite Hne.
    + intros Hurl. unfold_billing. simpl. rewrite Htok. simpl.
      rewrite Hserver. simpl. rewrite Hbody. simpl. rewrite Hurl. simpl.
      by rewrite Hcontainer.
Qed.

(** ** All handlers *)



(** ** Handlers on a complete page *)

Section Completion.

Context (P : World -> Prop).
Context (P_document : forall w id e,
           is_Some (document w !! id) -> P w ->
           P (set_document (<[id := e]> (document w)) w)).
Context (P_emit : forall w ev, P w -> P (emit ev w)).












End Completion.


Lemma page_has_document (ids : list string) (w : World) (id : string) (e : Element) :
  is_Some (document w !! id) -> page_has ids w = true ->
  page_has ids (set_document (<[id := e]> (document w)) w) = true.
Proof. intros _. apply page_has_set_document. Qed.

Lemma page_has_emitted (ids : list string) (w : World) (ev : Event) :
  page_has ids w = true -> page_has ids (emit ev w) = true.
Proof. intros H. exact H. Qed.



(** ** Signing in and out *)

Lemma getOrCreateAPIKey_confined (host : Host)
    (server : list Event -> Request -> FetchOutcome) (u : User) :
  confined dashboard_footprint (getOrCreateAPIKey host server u).
Proof.
  unfold getOrCreateAPIKey, createNewKey, updateDashboardUI, updatePlanCards,
    renderPlanCard, revealNewKey.
  confine.
Qed.

Lemma shown_after_remove (id : string) (e : Element) (w : World) :
  document w !! id = Some (classList_remove ["hidden"] e) -> shown id w.
Proof.
  intros H. exists (classList_remove ["hidden"] e). split; [exact H|].
  rewrite classList_remove_elem. intros [_ Hn]. apply Hn. by left.
Qed.

Lemma hidden_after_add (id : string) (e : Element) (w : World) :
  document w !! id = Some (classList_add ["hidden"] e) -> hidden id w.
Proof.
  intros H. exists (classList_add ["hidden"] e). split; [exact H|].
  apply classList_add_elem. right. by left.
Qed.

(** X10: the listener for the sign-in state shows one side of the page.
    With a user: the sign-in section and the signed-out navigation are
    hidden, the signed-in navigation and the dashboard are shown and the
    user's e-mail address is displayed, whatever happens while the key
    is fetched.  Without a user it is the other way round, and nothing is
    sent, logged or stored. *)
Theorem auth_state_shows_one_side (host : Host)
    (server : list Event -> Request -> FetchOutcome) (user : option User) (w : World) :
  page_has ["userEmail"; "signInSection"; "navLoggedOut"; "navLoggedIn";
            "authenticatedSection"] w = true ->
  exists w',
    onAuthStateChanged host server user w = (Normal tt, w') /\
    currentUser w' = user /\
    match user with
    | Some u =>
        hidden "signInSection" w' /\ hidden "navLoggedOut" w' /\
        shown "navLoggedIn" w' /\ shown "authenticatedSection" w' /\
        textContent <$> document w' !! "userEmail" = Some (email u)
    | None =>
        shown "signInSection" w' /\ shown "navLoggedOut" w' /\
        hidden "navLoggedIn" w' /\ hidden "authenticatedSection" w' /\
        trace w' = trace w /\ localStorage w' = localStorage w
    end.
Proof.
  intros Hpage. page_elements Hpage. destruct w as [doc ls cu sf tr]. simpl in *.
  destruct user as [u|].
  - unfold onAuthStateChanged.
    erewrite bind_run by reflexivity.
    erewrite bind_run by (apply update_Some; simpl; by simplify_map_eq).
    erewrite bind_run by (apply update_Some; simpl; by simplify_map_eq).
    erewrite bind_run by (apply update_Some; simpl; by simplify_map_eq).
    erewrite bind_run by (apply update_Some; simpl; by simplify_map_eq).
    erewrite bind_run by (apply update_Some; simpl; by simplify_map_eq).
    match goal with
    | |- context [getOrCreateAPIKey host server u ?w5] =>
        destruct (getOrCreateAPIKey_confined host server u w5) as (Hids & _ & _ & _ & Hu);
        assert (exists w', getOrCreateAPIKey host server u w5 = (Normal tt, w')) as [w' Hrun];
        [ unfold getOrCreateAPIKey, try_catch;
          match goal with
          | |- context [let (c, w1) := ?body w5 in _] =>
              destruct (body w5) as [[[]|err] w1]
          end; eexists; reflexivity |]
    end.
    rewrite Hrun in *. simpl in Hids, Hu. exists w'. split; [reflexivity|].
    split; [by apply Hu|].
    repeat split.
    + eapply hidden_after_add. rewrite Hids by reflexivity. simpl. by simplify_map_eq.
    + eapply hidden_after_add. rewrite Hids by reflexivity. simpl. by simplify_map_eq.
    + eapply shown_after_remove. rewrite Hids by reflexivity. simpl. by simplify_map_eq.
    + eapply shown_after_remove. rewrite Hids by reflexivity. simpl. by simplify_map_eq.
    + rewrite Hids by reflexivity. simpl. by simplify_map_eq.
  - unfold onAuthStateChanged.
    erewrite bind_run by reflexivity.
    erewrite bind_run by (apply update_Some; simpl; by simplify_map_eq).
    erewrite bind_run by (apply update_Some; simpl; by simplify_map_eq).
    erewrite bind_run by (apply update_Some; simpl; by simplify_map_eq).
    erewrite update_Some by (simpl; by simplify_map_eq).
    eexists. split; [reflexivity|]. split; [reflexivity|]. simpl.
    repeat split.
    + eapply shown_after_remove. simpl. by simplify_map_eq.
    + eapply shown_after_remove. simpl. by simplify_map_eq.
    + eapply hidden_after_add. simpl. by simplify_map_eq.
    + eapply hidden_after_add. simpl. by simplify_map_eq.
Qed.

(** ** Masked and revealed key *)

Lemma updateDashboardUI_masks (host : Host) (d : Data) (w : World) :
  page_has dashboardIds w = true ->
  exists w' field,
    updateDashboardUI host d w = (Normal tt, w') /\
    document w' !! "apiKeyDisplay" = Some field /\
    value field = to_DOMString (masked_key d) /\
    ("text-green-600" ∉ classList field) /\ ("font-bold" ∉ classList field) /\
    hidden "copyApiKeyBtn" w' /\ hidden "keyWarningMsg" w' /\
    localStorage w' = localStorage w /\ trace w' = trace w.
Proof.
  intros Hpage.
  destruct (updateDashboardUI_renders host d w Hpage) as (w' & Hrun & Htr & Hls & _).
  unfold dashboardIds in Hpage. page_elements Hpage.
  destruct w as [doc ls cu sf tr]. simpl in *.
  pose proof Hrun as Hrest. unfold updateDashboardUI in Hrest.
  erewrite bind_run in Hrest by (apply update_Some; simpl; by simplify_map_eq).
  erewrite bind_run in Hrest by (apply update_Some; simpl; by simplify_map_eq).
  erewrite bind_run in Hrest by (apply update_Some; simpl; by simplify_map_eq).
  erewrite bind_run in Hrest by (apply update_Some; simpl; by simplify_map_eq).
  erewrite bind_run in Hrest by (apply update_Some; simpl; by simplify_map_eq).
  cbv zeta in Hrest.
  match type of Hrest with
  | ?rest ?w5 = _ =>
      assert (confined (elements_only ("requestCount" :: "requestsLimit" :: "usageBar" ::
                                       "manageSubBtn" :: planCardIds)) rest) as Hc
        by (unfold updatePlanCards, renderPlanCard; confine);
      destruct (Hc w5) as (Hids & _)
  end.
  rewrite Hrest in Hids. simpl in Hids.
  eexists w', _. split; [exact Hrun|].
  split; [rewrite Hids by reflexivity; simpl; by simplify_map_eq|].
  split; [reflexivity|].
  split.
  { rewrite classList_add_elem, classList_remove_elem.
    simpl. intros [[_ Hn]|[H|[H|[]]]]; [apply Hn; tauto | discriminate | discriminate]. }
  split.
  { rewrite classList_add_elem, classList_remove_elem.
    simpl. intros [[_ Hn]|[H|[H|[]]]]; [apply Hn; tauto | discriminate | discriminate]. }
  split.
  { eapply hidden_after_add. rewrite Hids by reflexivity. simpl. by simplify_map_eq. }
  split.
  { eapply hidden_after_add. rewrite Hids by reflexivity. simpl. by simplify_map_eq. }
  auto.
Qed.

(** X11: a key that was revealed is masked again by the next rendering of
    the dashboard.  After [revealNewKey] the key field shows the full
    key and the copy button and the warning are visible; after a
    following [updateDashboardUI] the field shows the masked key the
    server reported, without the highlight, and the copy button and the
    warning are hidden.  Local storage still holds the full key. *)
Theorem revealed_key_is_masked_again (host : Host) (fresh reported : Data) (w : World) :
  page_has dashboardIds w = true ->
  exists w1 w2 field,
    revealNewKey fresh w = (Normal tt, w1) /\
    value <$> document w1 !! "apiKeyDisplay" = Some (to_DOMString (key fresh)) /\
    shown "copyApiKeyBtn" w1 /\ shown "keyWarningMsg" w1 /\
    updateDashboardUI host reported w1 = (Normal tt, w2) /\
    document w2 !! "apiKeyDisplay" = Some field /\
    value field = to_DOMString (masked_key reported) /\
    ("text-green-600" ∉ classList field) /\ ("font-bold" ∉ classList field) /\
    hidden "copyApiKeyBtn" w2 /\ hidden "keyWarningMsg" w2 /\
    localStorage w2 !! "receiptApiKey" = Some (to_DOMString (key fresh)).
Proof.
  intros Hpage.
  assert (preserves (fun w => page_has dashboardIds w = true) (revealNewKey fresh)) as Hkeep
    by (unfold revealNewKey;
        preserve (page_has_document dashboardIds) (page_has_emitted dashboardIds)
                 ltac:(by intros ? ?)).
  specialize (Hkeep w Hpage). cbv beta in Hkeep.
  assert (exists w1,
    revealNewKey fresh w = (Normal tt, w1) /\
    value <$> document w1 !! "apiKeyDisplay" = Some (to_DOMString (key fresh)) /\
    shown "copyApiKeyBtn" w1 /\ shown "keyWarningMsg" w1 /\
    localStorage w1 !! "receiptApiKey" = Some (to_DOMString (key fresh)))
    as (w1 & Hrun1 & Hvalue & Hcopy & Hwarn & Hls1).
  { clear Hkeep. unfold dashboardIds in Hpage. page_elements Hpage.
    destruct w as [doc ls cu sf tr]. simpl in *.
    unfold revealNewKey, bind, update, modify_world. simpl. simplify_map_eq.
    eexists. split; [reflexivity|]. simpl.
    split; [by simplify_map_eq|].
    split; [eapply shown_after_remove; simpl; by simplify_map_eq|].
    split; [eapply shown_after_remove; simpl; by simplify_map_eq|].
    by simplify_map_eq. }
  rewrite Hrun1 in Hkeep. simpl in Hkeep.
  destruct (updateDashboardUI_masks host reported w1 Hkeep)
    as (w2 & field & Hrun2 & Hfield & Hv & Hg & Hb & Hc & Hw & Hls2 & _).
  exists w1, w2, field. rewrite Hls2. auto 15.
Qed.

(** ** The chosen file *)

Lemma no_comma_cons (c : ascii) (s : string) :
  no_comma (String c s) <-> Ascii.eqb c "," = false /\ no_comma s.
Proof.
  unfold no_comma. cbn [includes String.prefix].
  destruct (ascii_dec "," c) as [<-|Hne].
  - split; [intros H; destruct s; discriminate H | intros [H _]; discriminate H].
  - assert (Ascii.eqb c "," = false) as -> by (apply Ascii.eqb_neq; congruence).
    simpl. tauto.
Qed.

Lemma upto_comma_end (s : string) : no_comma s -> upto_comma s = s.
Proof.
  induction s as [|c s IH]; [reflexivity|].
  rewrite no_comma_cons. intros [Hc Hs]. simpl. rewrite Hc. by rewrite IH.
Qed.

Lemma upto_comma_app (s rest : string) :
  no_comma s -> upto_comma (s ++ String "," rest) = s.
Proof.
  induction s as [|c s IH]; [reflexivity|].
  rewrite no_comma_cons. intros [Hc Hs]. simpl. rewrite Hc. by rewrite IH.
Qed.

(** X12: the file data sent for extraction is [result.split(',')[1]].
    For a data URL, a header without comma followed by a comma and the
    payload, it is the payload when that has no comma, and the payload up
    to its first comma otherwise; for a string without any comma it is
    [undefined]. *)
Theorem split_comma_1_payload (header payload : string) :
  no_comma header ->
  (no_comma payload -> split_comma_1 (header ++ String "," payload) = Some payload) /\
  (forall rest, no_comma payload ->
     split_comma_1 (header ++ String "," (payload ++ String "," rest)) = Some payload) /\
  split_comma_1 header = None.
Proof.
  induction header as [|c header IH].
  - intros _. simpl. split; [|split].
    + intros H. by rewrite upto_comma_end.
    + intros rest H. by rewrite upto_comma_app.
    + reflexivity.
  - rewrite no_comma_cons. intros [Hc Hh]. simpl. rewrite Hc. by apply IH.
Qed.

(** X13: choosing a file that is not too large selects the first file of
    the list and makes the extract button ready.  When the browser can
    read the file, the drop hint is hidden and the preview image is shown:
    a PDF gets the fixed icon with 40px of padding, any other type is
    previewed from its own data URL with 10px.  When the file cannot be
    read, the preview is left as it was.  An empty list changes
    nothing. *)
Theorem file_selection_previews (file : File) (rest : list File) (w : World)
    (btn drop img : Element) :
  size file <= 10 * 1024 * 1024 ->
  document w !! "extractBtn" = Some btn ->
  document w !! "dropContent" = Some drop ->
  document w !! "previewImage" = Some img ->
  handleFileSelection [] w = (Normal tt, w) /\
  exists w',
    handleFileSelection (file :: rest) w = (Normal tt, w') /\
    currentSelectedFile w' = Some file /\
    trace w' = trace w /\
    document w' !! "extractBtn" = Some (ready btn) /\
    match dataURL file with
    | Some result =>
        document w' !! "dropContent" = Some (classList_add ["hidden"] drop) /\
        document w' !! "previewImage" = Some (preview_of file result img)
    | None =>
        document w' !! "dropContent" = Some drop /\
        document w' !! "previewImage" = Some img
    end.
Proof.
  intros Hsize Hbtn Hdrop Himg. split; [reflexivity|].
  destruct w as [doc ls cu sf tr]. simpl in *.
  unfold handleFileSelection.
  assert ((size file >? 10 * 1024 * 1024) = false) as -> by lia.
  unfold callback, bind, update, modify_world, ret. simpl. simplify_map_eq.
  unfold preview_of.
  destruct (dataURL file) as [result|]; simpl; simplify_map_eq.
  - destruct (String.eqb (type file) "application/pdf"); simpl; simplify_map_eq;
      eexists; (split; [reflexivity|]); simpl; simplify_map_eq; repeat split.
  - eexists; (split; [reflexivity|]); simpl; simplify_map_eq; repeat split.
Qed.

(** ** Rotation that does not happen *)

(** X14: when a confirmed rotation yields no key, the key on the page and
    in local storage stays as it was.  [confirmRotate] closes the prompt
    first.  Without a signed-in user, or when the identity token cannot
    be had, it sends nothing and shows the error's message; a rejected
    request shows the error's message as well.  A response whose body
    carries no key, whatever its status and its detail, is dropped
    without a toast. *)
Theorem confirmRotate_failures (server : list Event -> Request -> FetchOutcome)
    (w : World) (modal container : Element) :
  document w !! "rotateModal" = Some modal ->
  document w !! "toast-container" = Some container ->
  let closed :=
    set_document (<["rotateModal" := classList_add ["hidden"] modal]> (document w)) w in
  let toasted (msg : string) (w0 : World) :=
    (Normal tt,
     set_document
       (<["toast-container" := appendChild (errorToast msg) container]> (document w0)) w0) in
  (currentUser w = None ->
     confirmRotate server w = toasted "Cannot read properties of null" closed) /\
  (forall u e, currentUser w = Some u -> getIdToken u = inl e ->
     confirmRotate server w = toasted (message e) closed) /\
  (forall u idToken, currentUser w = Some u -> getIdToken u = inr idToken ->
     (forall e, server (trace w) (regenerateRequest idToken) = Rejects e ->
        confirmRotate server w =
          toasted (message e) (emit (EvFetch (regenerateRequest idToken)) closed)) /\
     (forall r d,
        server (trace w) (regenerateRequest idToken) = Responds r ->
        body r = JsonObject d -> truthy_str (key d) = false ->
        confirmRotate server w =
          (Normal tt, emit (EvFetch (regenerateRequest idToken)) closed))).
Proof.
  intros Hmodal Hcontainer closed toasted. subst closed toasted.
  destruct w as [doc ls cu sf tr]. simpl in *.
  split; [|split].
  - intros ->.
    unfold confirmRotate, closeRotateModal, user_getIdToken, showToast, try_catch, bind,
      update, read_world, throw. simpl. rewrite Hmodal. simpl. by simplify_map_eq.
  - intros u e -> Htok.
    unfold confirmRotate, closeRotateModal, user_getIdToken, showToast, try_catch, bind,
      update, read_world, throw. simpl. rewrite Hmodal. simpl. rewrite Htok. simpl.
    by simplify_map_eq.
  - intros u idToken -> Htok. split.
    + intros e Hserver.
      unfold confirmRotate, closeRotateModal, user_getIdToken, showToast, try_catch, bind,
        update, read_world, throw, ret, fetch. simpl. rewrite Hmodal. simpl.
      rewrite Htok. simpl. rewrite Hserver. simpl. by simplify_map_eq.
    + intros r d Hserver Hbody Hkey.
      unfold confirmRotate, closeRotateModal, user_getIdToken, showToast, try_catch, bind,
        update, read_world, throw, ret, fetch, json, object. simpl. rewrite Hmodal. simpl.
      rewrite Htok. simpl. rewrite Hserver. simpl. rewrite Hbody. simpl.
      by rewrite Hkey.
Qed.

(** ** A plan the page does not know *)

Lemma unknown_plan_level (p : string) :
  ~ In p ["free"; "pro"; "enterprise"] ->
  literal_get PLAN_LEVELS p = Inherited \/ literal_get PLAN_LEVELS p = Undefined.
Proof.
  intros Hp. unfold literal_get, PLAN_LEVELS. simpl.
  destruct (String.eqb_spec p "free") as [->|_]; [exfalso; apply Hp; simpl; tauto|].
  destruct (String.eqb_spec p "pro") as [->|_]; [exfalso; apply Hp; simpl; tauto|].
  destruct (String.eqb_spec p "enterprise") as [->|_]; [exfalso; apply Hp; simpl; tauto|].
  destruct (inherited p); auto.
Qed.

(** X15: when the plan is a name other than free, pro and enterprise (the
    server names the plan, the page does not check it), [updatePlanCards]
    marks no card as current: each of the three cards gets an "Upgrade"
    button for its own tier, none a "Downgrade" button, and the manage
    button is hidden.  The empty name is rendered as free. *)
Theorem unknown_plan_offers_upgrades (p : string) (w : World) :
  ~ In p ["free"; "pro"; "enterprise"] ->
  page_has ("manageSubBtn" :: planCardIds) w = true ->
  updatePlanCards "" w = updatePlanCards "free" w /\
  (p <> "" ->
   exists w' manage,
     updatePlanCards p w = (Normal tt, w') /\
     (forall t, In t ["free"; "pro"; "enterprise"] ->
        is_upgrade t (cardAction w' t) = true) /\
     document w' !! "manageSubBtn" = Some manage /\
     ("hidden" ∈ classList manage)).
Proof.
  intros Hp Hpage. split; [reflexivity|]. intros Hne.
  unfold planCardIds in Hpage. page_elements Hpage.
  unfold updatePlanCards.
  assert (or_str (Some p) "free" = p) as ->.
  { simpl. apply String.eqb_neq in Hne. by rewrite Hne. }
  set (lvl := literal_get PLAN_LEVELS p).
  assert (Hlow : level_gt0 lvl = false)
    by (destruct (unknown_plan_level p Hp) as [H|H]; unfold lvl; by rewrite H).
  assert (Hlt : forall l, level_lt l lvl = false)
    by (intros l; destruct (unknown_plan_level p Hp) as [H|H]; unfold lvl; rewrite H;
        by destruct l).
  assert (Hcur : forall t, In t ["free"; "pro"; "enterprise"] -> String.eqb t p = false).
  { intros t Ht. apply String.eqb_neq. intros ->. by apply Hp. }
  rewrite Hlow.
  erewrite bind_run by (by apply update_Some).
  set (w1 := set_document _ w). cbn [forEach].
  destruct (renderPlanCard_renders p lvl "free" e0 w1) as (c1 & l1 & t1 & p1 & R1 & I1);
    [simpl; tauto | unfold w1; simpl; by simplify_map_eq |].
  rewrite (bind_run _ _ _ _ _ R1).
  set (w2 := set_document _ w1) in *.
  destruct (renderPlanCard_renders p lvl "pro" e1 w2) as (c2 & l2 & t2 & p2 & R2 & I2);
    [simpl; tauto | unfold w2, w1; simpl; by simplify_map_eq |].
  rewrite (bind_run _ _ _ _ _ R2).
  set (w3 := set_document _ w2) in *.
  destruct (renderPlanCard_renders p lvl "enterprise" e2 w3)
    as (c3 & l3 & t3 & p3 & R3 & I3);
    [simpl; tauto | unfold w3, w2, w1; simpl; by simplify_map_eq |].
  rewrite (bind_run _ _ _ _ _ R3).
  set (w4 := set_document _ w3) in *.
  rewrite Hcur, Hlt in I1, I2, I3 by (simpl; tauto).
  exists w4, (classList_add ["hidden"] e). split; [reflexivity|].
  split; [|split].
  - intros t [<-|[<-|[<-|[]]]]; unfold cardAction, w4, w3, w2, w1; simpl; simplify_map_eq;
      rewrite ?I1, ?I2, ?I3; reflexivity.
  - unfold w4, w3, w2, w1. simpl. by simplify_map_eq.
  - apply classList_add_elem. right. by left.
Qed.

(** ** A signup that yields no key *)

(** X16: a first visit whose signup fails leaves the dashboard as it was.
    After a 404 on the key, [getOrCreateAPIKey] sends the signup
    request; when the answer carries no key, whatever its status, nothing
    is rendered, stored or logged, and no toast is shown; when the signup
    request is rejected, the error is logged on the console and nothing
    else happens. *)
Theorem refused_signup_is_silent (host : Host)
    (server : list Event -> Request -> FetchOutcome) (u : User) (idToken : string)
    (w : World) (notFound : Response) :
  getIdToken u = inr idToken ->
  server (trace w) (keyRequest idToken) = Responds notFound ->
  status notFound = 404 -> body notFound <> Malformed ->
  let asked := emit (EvFetch (keyRequest idToken)) w in
  let signedUp := emit (EvFetch (signupRequest idToken (email u))) asked in
  (forall r d,
     server (trace asked) (signupRequest idToken (email u)) = Responds r ->
     body r = JsonObject d -> truthy_str (key d) = false ->
     getOrCreateAPIKey host server u w = (Normal tt, signedUp)) /\
  (forall e,
     server (trace asked) (signupRequest idToken (email u)) = Rejects e ->
     getOrCreateAPIKey host server u w = (Normal tt, emit (EvConsoleError e) signedUp)).
Proof.
  intros Htok Hserver Hstatus Hbody asked signedUp. subst asked signedUp.
  destruct w as [doc ls cu sf tr]. simpl in *.
  assert (Hok : ok notFound = false) by (unfold ok; rewrite Hstatus; reflexivity).
  split.
  - intros r d Hsignup Hd Hkey.
    unfold getOrCreateAPIKey, createNewKey, user_getIdToken, try_catch, bind, fetch,
      json, object, ret, throw, log, modify_world. simpl.
    rewrite Htok. simpl. rewrite Hserver. simpl. rewrite Hok, Hstatus.
    destruct (body notFound) as [| |d0]; [contradiction| |]; simpl;
      rewrite Hsignup; simpl; rewrite Hd; simpl; by rewrite Hkey.
  - intros e Hsignup.
    unfold getOrCreateAPIKey, createNewKey, user_getIdToken, try_catch, bind, fetch,
      json, object, ret, throw, log, modify_world. simpl.
    rewrite Htok. simpl. rewrite Hserver. simpl. rewrite Hok, Hstatus.
    destruct (body notFound) as [| |d0]; [contradiction| |]; simpl;
      by rewrite Hsignup.
Qed.

(** ** The theme *)

Ltac unfold_browser :=
  unfold bindB, try_catchB, lift, readB, retB, throwB, set_rootClassList, perform, await,
    set_icon, modify_world, showToast, update, get in *.

Lemma dark_added (root : gset string) : "dark" ∈ root ∪ {[ "dark" ]}.
Proof. apply elem_of_union. right. by apply elem_of_singleton. Qed.

Lemma dark_removed (root : gset string) : "dark" ∉ root ∖ {[ "dark" ]}.
Proof. rewrite elem_of_difference, elem_of_singleton. tauto. Qed.

Lemma other_class_added (c : string) (root : gset string) :
  c <> "dark" -> c ∈ root ∪ {[ "dark" ]} <-> c ∈ root.
Proof. intros Hc. rewrite elem_of_union, elem_of_singleton. tauto. Qed.

Lemma other_class_removed (c : string) (root : gset string) :
  c <> "dark" -> c ∈ root ∖ {[ "dark" ]} <-> c ∈ root.
Proof. intros Hc. rewrite elem_of_difference, elem_of_singleton. tauto. Qed.

Lemma wants_dark_test (env : Env) (b : Browser) :
  bool_decide (localStorage (world b) !! "theme" = Some "dark") ||
  bool_decide (localStorage (world b) !! "theme" = None) && prefersDark env =
  wants_dark env b.
Proof.
  unfold wants_dark. destruct (localStorage (world b) !! "theme") as [theme|].
  - rewrite (bool_decide_eq_false_2 (Some theme = None)) by discriminate.
    rewrite orb_false_r.
    destruct (String.eqb_spec theme "dark") as [->|Hne].
    + by apply bool_decide_eq_true_2.
    + apply bool_decide_eq_false_2. congruence.
  - rewrite (bool_decide_eq_false_2 (None = Some "dark")) by discriminate.
    by rewrite bool_decide_eq_true_2.
Qed.

Lemma initTheme_mode (env : Env) (b : Browser) :
  rootClassList (snd (initTheme env b)) =
    (if wants_dark env b then rootClassList b ∪ {[ "dark" ]}
     else rootClassList b ∖ {[ "dark" ]}) /\
  world (snd (initTheme env b)) = world b.
Proof.
  pose proof (wants_dark_test env b) as Htest.
  destruct b as [[doc ls cu sf tr] root ics effs]. unfold initTheme. unfold_browser.
  simpl in *. rewrite Htest.
  destruct (wants_dark env _); simpl; destruct (doc !! "themeIcon"); simpl; auto.
Qed.

Lemma toggleTheme_mode (b : Browser) :
  let b' := snd (toggleTheme b) in
  rootClassList b' =
    (if bool_decide (dark b) then rootClassList b ∖ {[ "dark" ]}
     else rootClassList b ∪ {[ "dark" ]}) /\
  localStorage (world b') =
    <["theme" := if bool_decide (dark b) then "light" else "dark"]> (localStorage (world b)) /\
  document (world b') = document (world b).
Proof.
  destruct b as [[doc ls cu sf tr] root ics effs]. unfold toggleTheme, dark. unfold_browser.
  simpl.
  destruct (bool_decide ("dark" ∈ root)); simpl; destruct (doc !! "themeIcon"); simpl; auto.
Qed.

(** X17: [toggleTheme] switches between light and dark and stores the
    mode it switched to under 'theme'; the other classes of the root
    element stay.  With the theme icon on the page it returns normally
    and the icon is the sun in dark mode, the moon in light mode.
    Without the icon it throws, after the mode and the stored preference
    have changed. *)
Theorem toggleTheme_flips (b : Browser) :
  let b' := snd (toggleTheme b) in
  (dark b' <-> ~ dark b) /\
  localStorage (world b') !! "theme" = Some (if bool_decide (dark b) then "light" else "dark") /\
  (forall c, c <> "dark" -> c ∈ rootClassList b' <-> c ∈ rootClassList b) /\
  (is_Some (document (world b) !! "themeIcon") ->
     fst (toggleTheme b) = Normal tt /\
     icons b' !! "themeIcon" = Some (icon_for (negb (bool_decide (dark b))))) /\
  (document (world b) !! "themeIcon" = None ->
     (exists e, fst (toggleTheme b) = Throw e) /\ icons b' = icons b).
Proof.
  intros b'. destruct (toggleTheme_mode b) as (Hroot & Hls & _). fold b' in Hroot, Hls.
  split; [|split; [|split; [|split]]].
  - unfold dark at 1. rewrite Hroot. destruct (bool_decide_reflect (dark b)) as [Hd|Hd].
    + split; [intros H; by apply dark_removed in H | contradiction].
    + split; [auto | intros _; apply dark_added].
  - rewrite Hls. apply lookup_insert_eq.
  - intros c Hc. rewrite Hroot. destruct (bool_decide (dark b)).
    + by apply other_class_removed.
    + by apply other_class_added.
  - intros [icon Hicon]. subst b'. clear Hroot Hls.
    destruct b as [[doc ls cu sf tr] root ics effs]. unfold toggleTheme, dark.
    unfold_browser. simpl in *.
    destruct (bool_decide ("dark" ∈ root)); simpl; rewrite Hicon; simpl;
      split; try reflexivity; apply lookup_insert_eq.
  - intros Hicon. subst b'. clear Hroot Hls.
    destruct b as [[doc ls cu sf tr] root ics effs]. unfold toggleTheme, dark.
    unfold_browser. simpl in *.
    destruct (bool_decide ("dark" ∈ root)); simpl; rewrite Hicon; simpl;
      split; try reflexivity; eexists; reflexivity.
Qed.

(** X18: [initTheme] follows the stored preference, and the system's
    preference only when nothing is stored under 'theme': a stored
    'dark' gives dark mode, any other stored value light mode.  It
    stores nothing.  So the mode chosen with [toggleTheme] is the mode
    of the next visit, whatever the system prefers, and two toggles give
    back the mode before them. *)
Theorem theme_is_remembered (env : Env) (b : Browser) :
  let loaded := snd (initTheme env b) in
  let toggled := snd (toggleTheme b) in
  (dark loaded <-> wants_dark env b = true) /\
  world loaded = world b /\
  (dark (snd (initTheme env toggled)) <-> dark toggled) /\
  (dark (snd (toggleTheme toggled)) <-> dark b).
Proof.
  intros loaded toggled.
  assert (Hinit : forall b0, dark (snd (initTheme env b0)) <-> wants_dark env b0 = true).
  { intros b0. unfold dark. destruct (initTheme_mode env b0) as [-> _].
    destruct (wants_dark env b0).
    - split; [reflexivity | intros _; apply dark_added].
    - split; [intros H; by apply dark_removed in H | discriminate]. }
  assert (Htoggle : forall b0, dark (snd (toggleTheme b0)) <-> ~ dark b0).
  { intros b0. unfold dark at 1. destruct (toggleTheme_mode b0) as [-> _].
    destruct (bool_decide_reflect (dark b0)) as [Hd|Hd].
    - split; [intros H; by apply dark_removed in H | contradiction].
    - split; [auto | intros _; apply dark_added]. }
  split; [apply Hinit|]. split; [apply initTheme_mode|]. split.
  - unfold toggled. rewrite Hinit, Htoggle. unfold wants_dark.
    destruct (toggleTheme_mode b) as (_ & -> & _). rewrite lookup_insert_eq.
    destruct (bool_decide_reflect (dark b)) as [Hd|Hd]; simpl.
    + split; [discriminate | contradiction].
    + split; auto.
  - unfold toggled. rewrite !Htoggle. destruct (decide (dark b)) as [Hd|Hd]; tauto.
Qed.

(** ** Signing in by e-mail *)

(** X19: [signInWithEmail] asks for a sign-in link only when the e-mail
    field is not empty, and for the address in the field, to come back
    to the current location.  An empty field gives the toast "Please
    enter email".  When the link is sent the confirmation message is
    shown with a success toast; when sending fails the error's message
    is shown and the confirmation stays as it was.  Local storage is not
    written: the address is not kept for the return. *)
Theorem signInWithEmail_outcomes (env : Env) (b : Browser) (input sent container : Element) :
  document (world b) !! "emailInput" = Some input ->
  document (world b) !! "emailSentMsg" = Some sent ->
  document (world b) !! "toast-container" = Some container ->
  exists b' toast,
    signInWithEmail env b = (Normal tt, b') /\
    localStorage (world b') = localStorage (world b) /\
    trace (world b') = trace (world b) /\
    children <$> document (world b') !! "toast-container" =
      Some (children container ++ [toast])%list /\
    if String.eqb (value input) "" then
      effects b' = effects b /\ toast = errorToast "Please enter email" /\
      document (world b') !! "emailSentMsg" = Some sent
    else
      effects b' = (effects b ++ [SendSignInLinkToEmail (value input) (href env)])%list /\
      match sendSignInLinkToEmail env (value input) (href env) with
      | None =>
          toast = successToast "Magic Link Sent!" /\
          document (world b') !! "emailSentMsg" = Some (classList_remove ["hidden"] sent)
      | Some e =>
          toast = errorToast (message e) /\
          document (world b') !! "emailSentMsg" = Some sent
      end.
Proof.
  intros Hinput Hsent Hcontainer.
  destruct b as [[doc ls cu sf tr] root ics effs]. simpl in *.
  unfold signInWithEmail. unfold_browser. simpl. rewrite Hinput. simpl.
  destruct (String.eqb (value input) ""); simpl.
  - rewrite Hcontainer. simpl. eexists _, _. split; [reflexivity|]. simpl.
    simplify_map_eq. auto 10.
  - destruct (sendSignInLinkToEmail env (value input) (href env)) as [e|]; simpl.
    + rewrite Hcontainer. simpl. eexists _, _. split; [reflexivity|]. simpl.
      simplify_map_eq. auto 10.
    + rewrite Hsent. simpl. simplify_map_eq. eexists _, _. split; [reflexivity|]. simpl.
      simplify_map_eq. auto 10.
Qed.

(** X20: the return through a sign-in link.  When the location is not a
    sign-in link nothing happens.  When it is, the script signs in with
    the address stored under 'emailForSignIn' and, when there is none or
    an empty one, with what the visitor answers to a prompt.  A
    successful sign-in removes the stored address and rewrites the
    location to "/"; a failed one shows the error and keeps the stored
    address.  As [signInWithEmail] stores nothing, a visitor who asked for
    the link with nothing stored is prompted on return. *)
Theorem magic_link_return (env asking : Env) (b : Browser) :
  let question := "Please confirm your email for login:" in
  let remembered := localStorage (world b) !! "emailForSignIn" in
  let email := if truthy_str remembered then remembered else prompt env question in
  let asked := if truthy_str remembered then [] else [Prompt question] in
  let b' := snd (handleMagicLinkReturn env b) in
  (isSignInWithEmailLink env (href env) = false -> handleMagicLinkReturn env b = (Normal tt, b)) /\
  (isSignInWithEmailLink env (href env) = true ->
     match signInWithEmailLink env email (href env) with
     | None =>
         effects b' = (effects b ++ asked ++
                       [SignInWithEmailLink email (href env); ReplaceState "/"])%list /\
         localStorage (world b') = delete "emailForSignIn" (localStorage (world b))
     | Some e =>
         effects b' = (effects b ++ asked ++ [SignInWithEmailLink email (href env)])%list /\
         localStorage (world b') = localStorage (world b) /\
         forall container, document (world b) !! "toast-container" = Some container ->
           children <$> document (world b') !! "toast-container" =
             Some (children container ++ [errorToast (message e)])%list
     end) /\
  (remembered = None ->
   truthy_str (localStorage (world (snd (signInWithEmail asking b))) !! "emailForSignIn") = false).
Proof.
  intros question remembered email asked b'. subst question remembered email asked b'.
  destruct b as [[doc ls cu sf tr] root ics effs]. simpl.
  split; [|split].
  - intros Hlink. unfold handleMagicLinkReturn. by rewrite Hlink.
  - intros Hlink. unfold handleMagicLinkReturn. rewrite Hlink. unfold_browser. simpl.
    destruct (truthy_str (ls !! "emailForSignIn")); simpl;
      match goal with
      | |- context [signInWithEmailLink env ?e ?h] =>
          destruct (signInWithEmailLink env e h) as [err|]
      end; simpl; rewrite <- ?app_assoc; simpl.
    + destruct (doc !! "toast-container") as [c|] eqn:Hc; simpl;
        (split; [reflexivity|]); (split; [reflexivity|]); intros container Hcontainer;
        [injection Hcontainer as <-; by simplify_map_eq | discriminate].
    + split; reflexivity.
    + destruct (doc !! "toast-container") as [c|] eqn:Hc; simpl;
        (split; [reflexivity|]); (split; [reflexivity|]); intros container Hcontainer;
        [injection Hcontainer as <-; by simplify_map_eq | discriminate].
    + split; reflexivity.
  - intros Hnone.
    assert (localStorage (world (snd (signInWithEmail asking
              (mkBrowser (mkWorld doc ls cu sf tr) root ics effs)))) = ls) as ->.
    { unfold signInWithEmail. unfold_browser. simpl.
      destruct (doc !! "emailInput") as [input|]; simpl; [|reflexivity].
      destruct (String.eqb (value input) ""); simpl.
      - by destruct (doc !! "toast-container").
      - destruct (sendSignInLinkToEmail asking (value input) (href asking)); simpl.
        + by destruct (doc !! "toast-container").
        + destruct (doc !! "emailSentMsg"); simpl.
          * rewrite lookup_insert_ne by done.
            destruct (doc !! "toast-container") eqn:Hc; simpl;
              rewrite ?lookup_insert_ne by done; rewrite ?Hc; reflexivity.
          * by destruct (doc !! "toast-container"). }
    by rewrite Hnone.
Qed.

(** ** The code tabs *)

Lemma shown_lookup (id : string) (w : World) (e : Element) :
  document w !! id = Some e -> shown id w <-> "hidden" ∉ classList e.
Proof.
  intros He. unfold shown. rewrite He. split.
  - intros (e' & [= <-] & Hn). exact Hn.
  - intros Hn. by exists e.
Qed.

Lemma hidden_lookup (id : string) (w : World) (e : Element) :
  document w !! id = Some e -> hidden id w <-> "hidden" ∈ classList e.
Proof.
  intros He. unfold hidden. rewrite He. split.
  - intros (e' & [= <-] & Hn). exact Hn.
  - intros Hn. by exists e.
Qed.

Lemma className_elem (c : string) (cs : list string) (e : Element) :
  c ∈ classList (set_className cs e) <-> In c cs.
Proof. unfold set_className. simpl. by rewrite elem_of_list_to_set, list_elem_of_In. Qed.

(** Settles membership of a class in a class list the script has
    written. *)
Ltac solve_classes :=
  unfold highlighted;
  rewrite ?className_elem, ?classList_remove_elem, ?classList_add_elem;
  simpl; intuition (try congruence; try discriminate).

Lemma switchCodeTab_panels (lang : string) (w : World) :
  page_has codePage w = true -> In lang codeLangs ->
  exists w',
    switchCodeTab lang w = (Normal tt, w') /\ trace w' = trace w /\
    localStorage w' = localStorage w /\
    (forall id, ~ In id codePage -> document w' !! id = document w !! id) /\
    forall l, In l codeLangs ->
      (shown ("code-" ++ l) w' <-> l = lang) /\
      (hidden ("code-" ++ l) w' <-> l <> lang) /\
      exists tab, document w' !! ("tab-" ++ l) = Some tab /\ (highlighted tab <-> l = lang).
Proof.
  intros Hpage. unfold codePage, codeLangs in Hpage.
  cbn [List.map List.app String.append] in Hpage. page_elements Hpage.
  destruct w as [doc ls cu sf tr]. simpl in *.
  intros [<-|[<-|[<-|[<-|[]]]]];
    (eexists; split;
     [ unfold switchCodeTab, codeLangs; cbn [forEach String.append];
       unfold bind, update, ret; cbn beta; cbn [String.append]; simpl; simplify_map_eq;
       reflexivity |]);
    (split; [reflexivity|]); (split; [reflexivity|]);
    (split;
     [ intros id Hid; unfold codePage, codeLangs in Hid;
       cbn [List.map List.app String.append In] in Hid; simpl;
       rewrite !lookup_insert_ne by (intros <-; tauto); reflexivity |]);
    intros l [<-|[<-|[<-|[<-|[]]]]]; cbn [String.append];
    (split; [erewrite shown_lookup by (simpl; by simplify_map_eq); solve_classes|]);
    (split; [erewrite hidden_lookup by (simpl; by simplify_map_eq); solve_classes|]);
    (eexists; split; [simpl; by simplify_map_eq | solve_classes]).
Qed.

(** [find] returns the first language whose panel is not hidden. *)
Lemma find_visible_finds (langs : list string) (lang : string) (w : World) :
  In lang langs ->
  (forall l, In l langs ->
     (shown ("code-" ++ l) w <-> l = lang) /\ (hidden ("code-" ++ l) w <-> l <> lang)) ->
  find_visible langs w = (Normal (Some lang), w).
Proof.
  induction langs as [|l langs IH]; [intros []|].
  intros Hin Hpanels. cbn [find_visible]. unfold bind, get.
  destruct (Hpanels l (or_introl eq_refl)) as [Hshown Hhidden].
  destruct (decide (l = lang)) as [->|Hne].
  - destruct (proj2 Hshown eq_refl) as (e & -> & Hn).
    by rewrite bool_decide_eq_false_2.
  - destruct (proj2 Hhidden Hne) as (e & -> & Hy).
    rewrite bool_decide_eq_true_2 by done. apply IH.
    + destruct Hin as [->|Hin]; [contradiction | exact Hin].
    + intros l' Hl'. apply Hpanels. by right.
Qed.

Lemma find_visible_none (langs : list string) (w : World) :
  (forall l, In l langs -> hidden ("code-" ++ l) w) ->
  find_visible langs w = (Normal None, w).
Proof.
  induction langs as [|l langs IH]; [reflexivity|].
  intros Hpanels. cbn [find_visible]. unfold bind, get.
  destruct (Hpanels l (or_introl eq_refl)) as (e & -> & Hy).
  rewrite bool_decide_eq_true_2 by done. apply IH.
  intros l' Hl'. apply Hpanels. by right.
Qed.

(** X21: [switchCodeTab] leaves exactly one snippet visible.  For a
    language among curl, python, node and mcp, on a page with the four
    panels and the four tabs, the panel of that language is shown and the
    other three are hidden, and the tab of that language is the only
    highlighted one.  For a language without a panel the call throws
    after all four panels have been hidden and before any tab is
    redrawn. *)
Theorem switchCodeTab_shows_one (lang : string) (w : World) :
  page_has codePage w = true ->
  (In lang codeLangs ->
   exists w',
     switchCodeTab lang w = (Normal tt, w') /\ trace w' = trace w /\
     forall l, In l codeLangs ->
       (shown ("code-" ++ l) w' <-> l = lang) /\
       (hidden ("code-" ++ l) w' <-> l <> lang) /\
       exists tab, document w' !! ("tab-" ++ l) = Some tab /\ (highlighted tab <-> l = lang)) /\
  (document w !! ("code-" ++ lang) = None ->
   exists e w',
     switchCodeTab lang w = (Throw e, w') /\
     forall l, In l codeLangs ->
       hidden ("code-" ++ l) w' /\
       document w' !! ("tab-" ++ l) = document w !! ("tab-" ++ l)).
Proof.
  intros Hpage. split.
  { intros Hlang.
    destruct (switchCodeTab_panels lang w Hpage Hlang) as (w' & Hrun & Htr & _ & _ & Hpanels).
    by exists w'. }
  unfold codePage, codeLangs in Hpage.
  cbn [List.map List.app String.append] in Hpage. page_elements Hpage.
  destruct w as [doc ls cu sf tr]. simpl in *.
  - intros Hnone.
    assert (Hother : forall l, In l ["curl"; "python"; "node"; "mcp"] ->
                               "code-" ++ l <> "code-" ++ lang).
    { intros l Hl Heq. rewrite <- Heq in Hnone.
      destruct Hl as [<-|[<-|[<-|[<-|[]]]]]; cbn [String.append] in Hnone; congruence. }
    pose proof (Hother "curl" ltac:(simpl; tauto)) as H1.
    pose proof (Hother "python" ltac:(simpl; tauto)) as H2.
    pose proof (Hother "node" ltac:(simpl; tauto)) as H3.
    pose proof (Hother "mcp" ltac:(simpl; tauto)) as H4.
    cbn [String.append] in H1, H2, H3, H4.
    eexists _, _. split.
    + unfold switchCodeTab, codeLangs; cbn [forEach String.append];
        unfold bind, update, ret; cbn beta; cbn [String.append]; simpl.
      simplify_map_eq. rewrite ?lookup_insert_ne by congruence. rewrite ?Hnone. reflexivity.
    + intros l [<-|[<-|[<-|[<-|[]]]]]; cbn [String.append];
        (split; [erewrite hidden_lookup by (simpl; by simplify_map_eq); solve_classes
                | simpl; by simplify_map_eq]).
Qed.

Lemma lift_run {A : Type} (m : M A) (b : Browser) (c : Completion A) (w' : World) :
  m (world b) = (c, w') ->
  lift m b = (c, mkBrowser w' (rootClassList b) (icons b) (effects b)).
Proof. intros H. unfold lift. by rewrite H. Qed.

Lemma bindB_run {A C : Type} (m : B A) (k : A -> B C) (b b1 : Browser) (a : A) :
  m b = (Normal a, b1) -> bindB m k b = k a b1.
Proof. intros H. unfold bindB. by rewrite H. Qed.

(** X22: [copyCode] copies the snippet on display.  After
    [switchCodeTab] for one of the four languages it writes the text of
    that language's panel, and nothing else, to the clipboard and shows a
    success toast.  When all four panels are hidden it copies nothing
    and throws, as the page has no element 'code-undefined'. *)
Theorem copyCode_copies_the_chosen_snippet (env : Env) (lang : string) (b : Browser)
    (container : Element) :
  page_has codePage (world b) = true ->
  document (world b) !! "toast-container" = Some container ->
  (In lang codeLangs ->
   exists b1 b2,
     lift (switchCodeTab lang) b = (Normal tt, b1) /\
     copyCode env b1 = (Normal tt, b2) /\
     effects b2 = (effects b ++ [ClipboardWriteText (innerText env ("code-" ++ lang))])%list /\
     children <$> document (world b2) !! "toast-container" =
       Some (children container ++ [successToast "Snippet Copied"])%list) /\
  ((forall l, In l codeLangs -> hidden ("code-" ++ l) (world b)) ->
   document (world b) !! "code-undefined" = None ->
   exists e, copyCode env b = (Throw e, b)).
Proof.
  intros Hpage Hcontainer. split.
  - intros Hlang.
    destruct (switchCodeTab_panels lang (world b) Hpage Hlang)
      as (w1 & Hrun & _ & _ & Hframe & Hpanels).
    assert (Hfind : find_visible codeLangs w1 = (Normal (Some lang), w1)).
    { apply find_visible_finds; [exact Hlang|]. intros l Hl.
      destruct (Hpanels l Hl) as (Hs & Hh & _). by split. }
    destruct (Hpanels lang Hlang) as (Hshown & _).
    destruct (proj2 Hshown eq_refl) as (panel & Hpanel & _).
    assert (Hc1 : document w1 !! "toast-container" = Some container).
    { rewrite Hframe; [exact Hcontainer|]. unfold codePage, codeLangs.
      cbn [List.map List.app String.append In]. intros H.
      repeat (destruct H as [H|H]; [discriminate H|]). exact H. }
    eexists _, _. split; [by apply lift_run|]. split.
    + unfold copyCode. erewrite bindB_run by (by apply lift_run). simpl.
      unfold_browser. simpl. rewrite Hpanel. simpl. rewrite Hc1. reflexivity.
    + simpl. split; [reflexivity|]. by simplify_map_eq.
  - intros Hhidden Hnone.
    unfold copyCode. erewrite bindB_run by (apply lift_run; by apply find_visible_none).
    unfold_browser. simpl.
    change (String.append "code-" "undefined") with "code-undefined". rewrite Hnone. simpl.
    destruct b. eexists. reflexivity.
Qed.

(** ** Instances *)

Lemma performApiCall_restores_controls_witness :
  exists btn,
    document (snd (performApiCall sampleHost offline None "image/png" "invoice" "rk_live_1"
                     sampleWorld)) !! "extractBtn" = Some btn /\
    disabled btn = false.
Proof.
  destruct (performApiCall_restores_controls sampleHost offline None "image/png" "invoice"
              "rk_live_1" sampleWorld eq_refl)
    as (i & r & b & _ & _ & _ & _ & Hb & Hd & _).
  exists b. split; [exact Hb | exact Hd].
Defined.

Lemma extraction_success_counts_witness :
  exists w',
    performApiCall sampleHost (respond extracted) None "image/png" "invoice" "rk_live_1"
      sampleWorld = (Normal tt, w') /\
    textContent <$> document w' !! "requestCount" = Some "1".
Proof.
  destruct (extraction_success_counts sampleHost (respond extracted) None "image/png"
              "invoice" "rk_live_1" sampleWorld extracted blank blank
              eq_refl eq_refl eq_refl eq_refl eq_refl)
    as (w' & data & Hrun & _ & _ & Hcount & _).
  { discriminate. }
  exists w'. split; [exact Hrun | exact Hcount].
Defined.

Lemma extraction_refusal_reports_witness :
  exists w',
    performApiCall sampleHost (respond serverError) None "image/png" "invoice" "rk_live_1"
      sampleWorld = (Normal tt, w') /\
    children <$> document w' !! "toast-container" =
      Some [errorToast "Internal Server Error"].
Proof.
  destruct (extraction_refusal_reports sampleHost (respond serverError) None "image/png"
              "invoice" "rk_live_1" sampleWorld serverError _ blank
              eq_refl eq_refl eq_refl eq_refl eq_refl)
    as (w' & Hrun & _ & _ & _ & Htoast).
  exists w'. split; [exact Hrun | exact Htoast].
Defined.

Lemma extraction_error_reports_witness :
  exists w',
    performApiCall sampleHost offline None "image/png" "invoice" "rk_live_1"
      sampleWorld = (Normal tt, w') /\
    textContent <$> document w' !! "resultsArea" = Some "Error: Failed to fetch".
Proof.
  destruct (extraction_error_reports sampleHost offline None "image/png" "invoice"
              "rk_live_1" sampleWorld (NetworkError "Failed to fetch") blank
              eq_refl eq_refl (or_introl eq_refl))
    as (w' & Hrun & _ & _ & Hres & _).
  exists w'. split; [exact Hrun | exact Hres].
Defined.

Lemma upgradePlan_outcomes_witness :
  trace (snd (upgradePlan (respond checkoutSession) "pro" sampleWorld)) =
    [ EvFetch (checkoutRequest "token-1" "pro");
      EvNavigate "https://checkout.stripe.com/c/pay/cs_test_a1" ].
Proof.
  destruct (upgradePlan_outcomes (respond checkoutSession) "pro" sampleWorld blank eq_refl)
    as [_ Hin].
  destruct (Hin sampleUser "token-1" eq_refl eq_refl) as [_ Hresponds].
  destruct (Hresponds checkoutSession eq_refl) as [Hgo _].
  rewrite (Hgo _ "https://checkout.stripe.com/c/pay/cs_test_a1" eq_refl eq_refl eq_refl).
  - reflexivity.
  - discriminate.
Defined.

Lemma openPortal_outcomes_witness :
  trace (snd (openPortal (respond portalSession) sampleWorld)) =
    [ EvFetch (portalRequest "token-1");
      EvNavigate "https://billing.stripe.com/p/session/test_b2" ].
Proof.
  destruct (openPortal_outcomes (respond portalSession) sampleWorld blank eq_refl)
    as [_ Hin].
  destruct (Hin sampleUser "token-1" portalSession _ eq_refl eq_refl eq_refl eq_refl)
    as [Hgo _].
  rewrite (Hgo "https://billing.stripe.com/p/session/test_b2" eq_refl).
  - reflexivity.
  - discriminate.
Defined.



Lemma auth_state_shows_one_side_witness :
  exists w',
    onAuthStateChanged sampleHost offline None sampleWorld = (Normal tt, w') /\
    currentUser w' = None.
Proof.
  destruct (auth_state_shows_one_side sampleHost offline None sampleWorld eq_refl)
    as (w' & Hrun & Huser & _).
  exists w'. split; [exact Hrun | exact Huser].
Defined.

Lemma revealed_key_is_masked_again_witness :
  exists w1 w2,
    revealNewKey newKey sampleWorld = (Normal tt, w1) /\
    updateDashboardUI sampleHost reportedKey w1 = (Normal tt, w2) /\
    localStorage w2 !! "receiptApiKey" = Some "rk_live_5d41402abc4b2a76".
Proof.
  destruct (revealed_key_is_masked_again sampleHost newKey reportedKey sampleWorld eq_refl)
    as (w1 & w2 & field & Hrun1 & _ & _ & _ & Hrun2 & _ & _ & _ & _ & _ & _ & Hls).
  exists w1, w2. split; [exact Hrun1|]. split; [exact Hrun2 | exact Hls].
Defined.

Lemma split_comma_1_payload_witness :
  split_comma_1 "data:image/png;base64,iVBORw0KGgo=" = Some "iVBORw0KGgo=".
Proof.
  exact (proj1 (split_comma_1_payload "data:image/png;base64" "iVBORw0KGgo=" eq_refl)
           eq_refl).
Defined.

Lemma file_selection_previews_witness :
  exists w',
    handleFileSelection [sampleFile] sampleWorld = (Normal tt, w') /\
    currentSelectedFile w' = Some sampleFile.
Proof.
  destruct (file_selection_previews sampleFile [] sampleWorld blank blank blank)
    as [_ (w' & Hrun & Hfile & _)]; try reflexivity.
  - simpl. lia.
  - exists w'. split; [exact Hrun | exact Hfile].
Defined.

Lemma confirmRotate_failures_witness :
  trace (snd (confirmRotate (respond serverError) sampleWorld)) =
    [EvFetch (regenerateRequest "token-1")].
Proof.
  destruct (confirmRotate_failures (respond serverError) sampleWorld hidden_blank blank
              eq_refl eq_refl) as (_ & _ & Hin).
  destruct (Hin sampleUser "token-1" eq_refl eq_refl) as [_ Hsilent].
  rewrite (Hsilent serverError _ eq_refl eq_refl eq_refl). reflexivity.
Defined.

Lemma unknown_plan_offers_upgrades_witness :
  exists w',
    updatePlanCards "team" sampleWorld = (Normal tt, w') /\
    is_upgrade "free" (cardAction w' "free") = true.
Proof.
  destruct (unknown_plan_offers_upgrades "team" sampleWorld) as [_ Hteam].
  - intros [H|[H|[H|[]]]]; discriminate H.
  - reflexivity.
  - destruct Hteam as (w' & manage & Hrun & Hcards & _); [discriminate|].
    exists w'. split; [exact Hrun|]. apply Hcards. simpl. tauto.
Defined.

Lemma refused_signup_is_silent_witness :
  trace (snd (getOrCreateAPIKey sampleHost closedSignups sampleUser sampleWorld)) =
    [ EvFetch (keyRequest "token-1");
      EvFetch (signupRequest "token-1" "ada@example.org") ].
Proof.
  destruct (refused_signup_is_silent sampleHost closedSignups sampleUser "token-1"
              sampleWorld (mkResponse 404 JsonNull) eq_refl eq_refl eq_refl)
    as [Hsilent _].
  - discriminate.
  - rewrite (Hsilent serverError _ eq_refl eq_refl eq_refl). reflexivity.
Defined.

Lemma signInWithEmail_outcomes_witness :
  exists b',
    signInWithEmail sampleEnv sampleBrowser = (Normal tt, b') /\
    effects b' = [SendSignInLinkToEmail "ada@example.org" "https://auraparse.web.app/"].
Proof.
  destruct (signInWithEmail_outcomes sampleEnv sampleBrowser
              (set_value "ada@example.org" blank) hidden_blank blank
              eq_refl eq_refl eq_refl)
    as (b' & toast & Hrun & _ & _ & _ & Heffects).
  simpl in Heffects. destruct Heffects as [Heffects _].
  exists b'. split; [exact Hrun | exact Heffects].
Defined.

Lemma switchCodeTab_shows_one_witness :
  exists w',
    switchCodeTab "python" (world sampleBrowser) = (Normal tt, w') /\
    shown "code-python" w'.
Proof.
  destruct (switchCodeTab_shows_one "python" (world sampleBrowser) eq_refl) as [Hknown _].
  destruct Hknown as (w' & Hrun & _ & Hpanels); [simpl; tauto|].
  exists w'. split; [exact Hrun|].
  destruct (Hpanels "python") as [Hshown _]; [simpl; tauto|].
  apply Hshown. reflexivity.
Defined.

Lemma copyCode_copies_the_chosen_snippet_witness :
  exists b1 b2,
    lift (switchCodeTab "python") sampleBrowser = (Normal tt, b1) /\
    copyCode sampleEnv b1 = (Normal tt, b2) /\
    effects b2 = [ClipboardWriteText "# snippet in code-python"].
Proof.
  destruct (copyCode_copies_the_chosen_snippet sampleEnv "python" sampleBrowser blank
              eq_refl eq_refl) as [Hknown _].
  destruct Hknown as (b1 & b2 & Hrun1 & Hrun2 & Heffects & _); [simpl; tauto|].
  exists b1, b2. split; [exact Hrun1|]. split; [exact Hrun2 | exact Heffects].
Defined.
